(** * Hymnal Browser: catalogue and statistics engine

    A shallow embedding of the parts of [browser.py] that build the hymn
    catalogue from the archive listing ([HymnsDatabase]), keep the
    statistics file ([Data]) and answer and record queries
    ([InputCore.updateDetails], [ThreadBackground.run],
    [InputCore.executeFile]), followed by the properties proved of them.

    Python values that the program handles dynamically (the hymn number
    of an archive entry is a [str] or the [int] 0, the statistics
    document is whatever the JSON file holds) are values of [pyval];
    operations that can raise return a [result]. *)

From Stdlib Require Import ZArith String Ascii List Bool Lia DecimalString.
From stdpp Require Import base option list strings gmap.

Set Warnings "-register-all".

Local Open Scope string_scope.
Local Open Scope Z_scope.

(** ** Python values, exceptions *)

Inductive pyval : Type :=
  | PNone
  | PBool (b : bool)
  | PNum (z : Z)
  | PStr (s : string)
  | PList (l : list pyval)
  | PDict (m : gmap string pyval).

Inductive exn : Type :=
  | KeyError
  | IndexError
  | TypeError
  | ValueError
  | AttributeError
  | FileNotFoundError.

Inductive result (A : Type) : Type :=
  | Ok (a : A)
  | Raise (e : exn).

Arguments Ok {A} a.
Arguments Raise {A} e.

(** Sequencing: an exception ends the computation. [x ← c; k] is
    stdpp's notation for it. *)
#[global] Instance result_bind : MBind result :=
  fun A B (k : A -> result B) (c : result A) =>
    match c with
    | Ok a => k a
    | Raise e => Raise e
    end.

(** ** The Python built-ins the program calls

    A [str] is a sequence of characters with code points 0 to 255. *)

Module Py.

Definition code (c : ascii) : Z := Z.of_N (N_of_ascii c).

(** [str.isdecimal] on one character: '0' to '9'. *)
Definition isdecimal_char (c : ascii) : bool :=
  (48 <=? code c) && (code c <=? 57).

(** [str.isdigit] on one character: the decimal digits and, below 256,
    the superscripts two, three and one. *)
Definition isdigit_char (c : ascii) : bool :=
  isdecimal_char c || (code c =? 178) || (code c =? 179) || (code c =? 185).

Fixpoint all_chars (p : ascii -> bool) (s : string) : bool :=
  match s with
  | EmptyString => true
  | String c r => p c && all_chars p r
  end.

(** [s.isdigit()]: false on the empty string. *)
Definition isdigit (s : string) : bool :=
  match s with
  | EmptyString => false
  | String _ _ => all_chars isdigit_char s
  end.

(** A slice bound as Python normalises it: a negative bound counts from
    the end, and the result is clamped to [0, len]. *)
Definition norm_index (len i : Z) : Z :=
  Z.max 0 (Z.min len (if i <? 0 then i + len else i)).

(** [s[start:stop]], an omitted bound being [None]. *)
Definition slice (s : string) (start stop : option Z) : string :=
  let len := Z.of_nat (String.length s) in
  let a := match start with None => 0 | Some i => norm_index len i end in
  let b := match stop with None => len | Some i => norm_index len i end in
  substring (Z.to_nat a) (Z.to_nat (b - a)) s.

(** [s.split(sep)] for a one-character separator. *)
Fixpoint split (sep : ascii) (s : string) : list string :=
  match s with
  | EmptyString => [EmptyString]
  | String c r =>
      if Ascii.eqb c sep then EmptyString :: split sep r
      else match split sep r with
           | h :: t => String c h :: t
           | [] => [String c EmptyString]
           end
  end.

(** [l[-1]] on the list [split] returns, which is never empty. *)
Definition last_item (l : list string) : string := List.last l EmptyString.

(** [s[-1]]: raises [IndexError] on the empty string. *)
Fixpoint last_char (s : string) : option ascii :=
  match s with
  | EmptyString => None
  | String c EmptyString => Some c
  | String _ r => last_char r
  end.

(** [s.zfill(width)]: zeros on the left, after a leading sign. *)
Definition zfill (width : nat) (s : string) : string :=
  let pad := string_of_list_ascii
               (repeat "0"%char (width - String.length s)%nat) in
  match s with
  | String c r =>
      if Ascii.eqb c "+" || Ascii.eqb c "-" then String c (pad ++ r)
      else pad ++ s
  | EmptyString => pad
  end.

(** [str(z)] for an [int]. *)
Definition str_of_int (z : Z) : string := NilZero.string_of_int (Z.to_int z).

(** White space that [int] strips around a literal. *)
Definition isspace_char (c : ascii) : bool :=
  ((9 <=? code c) && (code c <=? 13)) || (code c =? 32)
  || (code c =? 133) || (code c =? 160).

Fixpoint lstrip (s : string) : string :=
  match s with
  | String c r => if isspace_char c then lstrip r else s
  | EmptyString => EmptyString
  end.

Fixpoint rstrip (s : string) : string :=
  match s with
  | EmptyString => EmptyString
  | String c r =>
      match rstrip r with
      | EmptyString => if isspace_char c then EmptyString
                       else String c EmptyString
      | r' => String c r'
      end
  end.

(** The digits of an [int] literal: groups of decimal digits, single
    underscores allowed between two digits only. *)
Fixpoint digits_val (acc : Z) (after_digit : bool) (s : string) : option Z :=
  match s with
  | EmptyString => if after_digit then Some acc else None
  | String c r =>
      if isdecimal_char c then digits_val (10 * acc + (code c - 48)) true r
      else if Ascii.eqb c "_" then
        if after_digit then digits_val acc false r else None
      else None
  end.

(** [int(s)] for a [str]; [None] stands for [ValueError]. *)
Definition int (s : string) : option Z :=
  match lstrip (rstrip s) with
  | String c r =>
      if Ascii.eqb c "-" then Z.opp <$> digits_val 0 false r
      else if Ascii.eqb c "+" then digits_val 0 false r
      else digits_val 0 false (String c r)
  | EmptyString => None
  end.

(** [v == s] for a string [s]: a number never equals a string. *)
Definition eq_str (v : pyval) (s : string) : bool :=
  match v with
  | PStr t => String.eqb t s
  | _ => false
  end.

(** [s in l]. *)
Definition contains (l : list pyval) (s : string) : bool :=
  existsb (fun v => eq_str v s) l.

(** [l.index(s)]; [None] stands for [ValueError]. *)
Fixpoint index (l : list pyval) (s : string) : option nat :=
  match l with
  | [] => None
  | v :: r => if eq_str v s then Some 0%nat else S <$> index r s
  end.

(** [v[k]] for a string key. *)
Definition getitem_str (v : pyval) (k : string) : result pyval :=
  match v with
  | PDict m => match m !! k with
               | Some x => Ok x
               | None => Raise KeyError
               end
  | _ => Raise TypeError
  end.

(** [v[j]] for an integer index that is not negative. *)
Definition getitem_nat (v : pyval) (j : nat) : result pyval :=
  match v with
  | PList l => match l !! j with
               | Some x => Ok x
               | None => Raise IndexError
               end
  | PStr s => match String.get j s with
              | Some c => Ok (PStr (String c EmptyString))
              | None => Raise IndexError
              end
  | PDict _ => Raise KeyError
  | _ => Raise TypeError
  end.

(** [v + k] for an [int] constant [k]. *)
Definition add_int (v : pyval) (k : Z) : result pyval :=
  match v with
  | PNum z => Ok (PNum (z + k))
  | PBool b => Ok (PNum (Z.b2z b + k))
  | _ => Raise TypeError
  end.

(** [t - v] for a clock reading [t]. *)
Definition rsub (t : Z) (v : pyval) : result Z :=
  match v with
  | PNum z => Ok (t - z)
  | PBool b => Ok (t - Z.b2z b)
  | _ => Raise TypeError
  end.

(** [l.sort()] on strings: insertion into lexicographic order. *)
Fixpoint insert_sorted (x : string) (l : list string) : list string :=
  match l with
  | [] => [x]
  | y :: r => if String.leb x y then x :: l else y :: insert_sorted x r
  end.

Definition sort (l : list string) : list string :=
  fold_right insert_sorted [] l.

End Py.

(** [while True:] loops. The body either continues with a new loop state
    or breaks with a result; [None] means the loop is still running after
    [fuel] rounds. *)
Inductive flow (S R : Type) : Type :=
  | Continue (s : S)
  | Break (r : R).

Arguments Continue {S R} s.
Arguments Break {S R} r.

Fixpoint while {S R : Type} (fuel : nat) (body : S -> flow S R) (s : S)
  : option R :=
  match fuel with
  | O => None
  | S fuel' =>
      match body s with
      | Break r => Some r
      | Continue s' => while fuel' body s'
      end
  end.

(** ** Helpers imported from the [kenverdadero] package *)

Module KString.

Fixpoint keep (p : ascii -> bool) (s : string) : string :=
  match s with
  | EmptyString => EmptyString
  | String c r => if p c then String c (keep p r) else keep p r
  end.

Definition isalpha_char (c : ascii) : bool :=
  ((65 <=? Py.code c) && (Py.code c <=? 90))
  || ((97 <=? Py.code c) && (Py.code c <=? 122)).

(** Modelled from the spec: [KString.toDigits] is defined in the
    [kenverdadero] package, which is not among the sources. The spec
    calls its result the 3-digit zero-padded string, and
    [Data.generateDefault] writes the keys that [Data.verifyContents]
    reads back through it as [str(i+1).zfill(3)]: it is [zfill] of the
    decimal text of its argument. *)
Definition toDigits (x : Z) (n : nat) : string := Py.zfill n (Py.str_of_int x).

(** [toDigits] applied to a [str], as [HymnsDatabase.getStats] does. *)
Definition toDigits_str (x : string) (n : nat) : string := Py.zfill n x.

(** Modelled from the spec: [KString.filterOnly] is defined in the same
    package. [getStats] gives up when [filterOnly(0, hN)] is not empty,
    "when the hymn number is not a valid number or contains letters", and
    [verifyContents] takes the key out of an error text with
    [filterOnly(1, ...)]: mode 0 keeps the letters, mode 1 the digits. *)
Definition filterOnly (mode : Z) (s : string) : string :=
  if mode =? 0 then keep isalpha_char s else keep Py.isdecimal_char s.

End KString.

(** Modelled from the spec: [invert] of [kenverdadero.KCore] swaps the
    two category indexes 0 and 1. *)
Definition invert (i : nat) : nat :=
  match i with
  | O => 1%nat
  | S _ => 0%nat
  end.

Module SYS.

Definition HYMNS_MAX : Z := 474.

End SYS.

(** [range(n)]. *)
Definition range (n : Z) : list Z := Z.of_nat <$> seq 0 (Z.to_nat n).

(** ** The catalogue *)

(** One category: its hymn numbers and, index for index, its titles. *)
Definition table : Type := (list pyval * list string)%type.

Module HYMN.
Record t : Type := mk {
  cat : string;
  num : pyval;
  title : string;
  ext : string
}.
End HYMN.

Module TOTAL.
Record t : Type := mk {
  EN : nat;
  TL : nat;
  US : nat;
  ALL : nat
}.
End TOTAL.

Module MISSING.
Record t : Type := mk {
  list : list string;
  length : nat
}.
End MISSING.

Module HYMNAL.
Record t : Type := mk {
  EN : table;
  TL : table;
  US : table;
  HYMNS : list string;
  TOTAL : TOTAL.t;
  MISSING : MISSING.t
}.

(** [HYMNAL[i]] for a category index. *)
Definition item (h : t) (i : nat) : table :=
  match i with
  | 0%nat => EN h
  | 1%nat => TL h
  | _ => US h
  end.
End HYMNAL.

Module HymnInfo.
Record t : Type := mk {
  title : string;
  num : string;
  eqTitle : string;
  eqNum : pyval;
  cat : string;
  eqCat : string;
  dbIndex : pyval;
  queries : pyval;
  launches : pyval;
  lastAccessed : pyval;
  lastAcssHumanize : pyval
}.
End HymnInfo.

(** ** [class HymnsDatabase] *)

Module HymnsDatabase.

Definition TOTAL_HYMNS : Z := SYS.HYMNS_MAX.

(** [splitHymn]: the four parts of an archive entry name, cut at fixed
    positions. *)
Definition splitHymn (hymnFile : string) : HYMN.t :=
  HYMN.mk
    (Py.slice hymnFile None (Some 2))
    (if Py.isdigit (Py.slice hymnFile (Some 3) (Some 6))
     then PStr (Py.slice hymnFile (Some 3) (Some 6))
     else PNum 0)
    (Py.slice hymnFile (Some 7) (Some (-5)))
    (Py.last_item (Py.split "." hymnFile)).

Definition CATS : list string := ["EN"; "TL"; "US"].

(** What the scan of the archive has collected so far: the three
    categories [HYMNAL[0..2]] and the numbers seen, [hNums]. *)
Record scan : Type := mkScan {
  tables : list table;
  hNums : list pyval
}.

(** [HYMNAL[i][0].append(num); HYMNAL[i][1].append(title)]. *)
Definition append_entry (i : nat) (spH : HYMN.t) (tbls : list table)
  : list table :=
  alter (fun t : table => ((t.1 ++ [HYMN.num spH])%list,
                           (t.2 ++ [HYMN.title spH])%list)) i tbls.

(** The loop [for i in range(3)] over the categories, for one entry. An
    entry that is no presentation is reported in the log, once per round,
    unless its name ends in a slash; the log is not part of the model,
    but [FILE[-1]] raises on an empty name. *)
Fixpoint scanCats (rounds : list nat) (FILE : string) (spH : HYMN.t)
    (tbls : list table) : result (list table) :=
  match rounds with
  | [] => Ok tbls
  | i :: rest =>
      if String.eqb (HYMN.cat spH) (nth i CATS "")
         && String.eqb (HYMN.ext spH) "pptx"
      then Ok (append_entry i spH tbls)
      else if negb (String.eqb (HYMN.ext spH) "pptx")
      then match Py.last_char FILE with
           | None => Raise IndexError
           | Some _ => scanCats rest FILE spH tbls
           end
      else scanCats rest FILE spH tbls
  end.

(** The loop [for FILE in FNS]. *)
Fixpoint scanFiles (FNS : list string) (st : scan) : result scan :=
  match FNS with
  | [] => Ok st
  | FILE :: rest =>
      let spH := splitHymn FILE in
      let nums := (hNums st ++ [HYMN.num spH])%list in
      tbls ← scanCats [0; 1; 2]%nat FILE spH (tables st);
      scanFiles rest (mkScan tbls nums)
  end.

(** [[HYMNAL[i][0][j] + ' ' + HYMNAL[i][1][j] for j in
    range(len(HYMNAL[i][1]))]]: adding a string to the number 0 raises. *)
Fixpoint entryLines (nums : list pyval) (titles : list string)
  : result (list string) :=
  match titles with
  | [] => Ok []
  | t :: titles' =>
      match nums with
      | [] => Raise IndexError
      | PStr n :: nums' =>
          r ← entryLines nums' titles';
          Ok ((n ++ " " ++ t) :: r)
      | _ :: _ => Raise TypeError
      end
  end.

(** The numbers of [1..TOTAL_HYMNS] that no archive entry carries. *)
Definition missingOf (hNums : list pyval) : list string :=
  omap (fun i => if Py.contains hNums (KString.toDigits (i + 1) 3)
                 then None
                 else Some (KString.toDigits (i + 1) 3))
       (range TOTAL_HYMNS).

(** [parseHymnDatabase], from the name list [FNS] of the archive. *)
Definition parseHymnDatabase (FNS : list string) : result HYMNAL.t :=
  st ← scanFiles FNS (mkScan [([], []); ([], []); ([], [])] []);
  let MISSING := missingOf (hNums st) in
  let H0 := nth 0 (tables st) ([], []) in
  let H1 := nth 1 (tables st) ([], []) in
  let H2 := nth 2 (tables st) ([], []) in
  l0 ← entryLines H0.1 H0.2;
  l1 ← entryLines H1.1 H1.2;
  l2 ← entryLines H2.1 H2.2;
  let H3 := Py.sort (l0 ++ l1 ++ l2)%list in
  Ok (HYMNAL.mk H0 H1 H2 H3
        (TOTAL.mk (List.length H0.1) (List.length H1.1) (List.length H2.1)
                  (List.length H3))
        (MISSING.mk MISSING (List.length MISSING))).

(** The default values of [HymnInfo], [DATA] in [getStats]. *)
Definition placeholder (hN : string) : HymnInfo.t :=
  HymnInfo.mk "" hN "" (PStr "") "" "" (PStr "")
              (PNum 0) (PNum 0) (PNum 0) (PNum 0).

(** One round of the loop that looks for the title: the loop state is
    [(i, j)], the result is [DATA[0]]. Any exception in the lookup counts
    as not found. *)
Definition titleBody (HYMNAL : HYMNAL.t) (n : Z) (s : nat * nat)
  : flow (nat * nat) string :=
  let '(i, j) := s in
  match Py.index (HYMNAL.item HYMNAL i).1 (KString.toDigits n 3)
        ≫= fun idx => (HYMNAL.item HYMNAL i).2 !! idx with
  | Some hT => Break hT
  | None => if (j =? 0)%nat then Continue (1, 1)%nat else Break ""
  end.

(** One round of the loop that looks for the equivalent hymn: the loop
    state is [(i, j)], the result is [i], [idx], [DATA[2]] and [DATA[3]],
    or the [IndexError] of a category whose titles are fewer than its
    numbers. *)
Definition equivBody (HYMNAL : HYMNAL.t) (hN : string) (n : Z) (s : nat * nat)
  : flow (nat * nat) (result (nat * nat * string * pyval)) :=
  let '(i, j) := s in
  if Py.contains (HYMNAL.item HYMNAL i).1 hN then
    match Py.index (HYMNAL.item HYMNAL (invert i)).1
                   (KString.toDigits (n + (if (i =? 0)%nat then 1 else -1)) 3)
    with
    | None => Break (Ok (i, 0%nat, "", PStr ""))
    | Some idx =>
        match (HYMNAL.item HYMNAL (invert i)).2 !! idx,
              (HYMNAL.item HYMNAL (invert i)).1 !! idx with
        | Some t, Some m => Break (Ok (i, idx, t, m))
        | _, _ => Break (Raise IndexError)
        end
    end
  else if (j =? 0)%nat then Continue (invert i, 1%nat)
  else Break (Ok (i, 0%nat, "", PStr "")).

(** The statistics of hymn [hN], number [n]: [STS] and the three
    positions read from it, [DATA[7]], [DATA[8]] and [DATA[9]]. *)
Definition readStats (SDATA : pyval) (n : Z) (hN : string)
  : result (pyval * pyval * pyval) :=
  STS ← (if negb (n =? 0) || (n <=? SYS.HYMNS_MAX)
         then Py.getitem_str SDATA "DATA" ≫= fun d => Py.getitem_str d hN
         else Ok (PList [PNum 0; PNum 0; PNum 0]));
  DATA7 ← Py.getitem_nat STS 0;
  DATA8 ← Py.getitem_nat STS 1;
  DATA9 ← Py.getitem_nat STS 2;
  Ok (DATA7, DATA8, DATA9).

Section GetStats.

(** [humanize.naturaltime], the wording of a time difference. *)
Variable naturaltime : Z -> string.

(** [getStats(hN)] on the catalogue [HYMNAL] and the statistics [SDATA]
    at clock reading [now]. The result is what the call returns or
    raises (a bare [return] gives [None]), together with the flag
    [UIZ.EXEC_READY] that it leaves; the outer [None] is a loop that has
    not ended. *)
Definition getStats (HYMNAL : HYMNAL.t) (SDATA : pyval) (now : Z)
    (hN : string) : option (result (option HymnInfo.t) * bool) :=
  let hN := KString.toDigits_str hN 3 in
  if negb (String.length (KString.filterOnly 0 hN) =? 0)%nat
  then Some (Ok None, false)
  else
  match Py.int hN with
  | None => Some (Raise ValueError, false)
  | Some n =>
  if (n >? SYS.HYMNS_MAX) || (n <=? 0)
     || existsb (String.eqb hN) (MISSING.list (HYMNAL.MISSING HYMNAL))
  then Some (Ok (Some (placeholder hN)), false)
  else
  DATA0 ← while 2 (titleBody HYMNAL n) (0, 0)%nat;
  eqv ← while 2 (equivBody HYMNAL hN n) (0, 0)%nat;
  Some
    match eqv with
    | Raise e => (Raise e, false)
    | Ok (i, idx, DATA2, DATA3) =>
        let DATA4 := if (i =? 0)%nat then "EN" else "TL" in
        let DATA5 := if (i =? 0)%nat then "TL" else "EN" in
        match readStats SDATA n hN with
        | Raise e => (Raise e, false)
        | Ok (DATA7, DATA8, DATA9) =>
            let EXEC_READY := negb (String.eqb DATA0 "") in
            match Py.rsub now DATA9 with
            | Raise e => (Raise e, EXEC_READY)
            | Ok d =>
                (Ok (Some (HymnInfo.mk DATA0 hN DATA2 DATA3 DATA4 DATA5
                             (PNum (Z.of_nat idx)) DATA7 DATA8 DATA9
                             (PStr (naturaltime d)))),
                 EXEC_READY)
            end
        end
    end
  end.

End GetStats.

End HymnsDatabase.

(** ** [class Data]: the statistics file *)

(** The statistics file as [json.load] sees it: not there, there with a
    text that is no JSON document, or holding a document. [json.dump]
    followed by [json.load] gives the document back. A file on which
    [json.load] raises an exception other than [JSONDecodeError] is not
    of this type; [disk] below has it. *)
Inductive file : Type :=
  | Absent
  | Unparsable
  | Stored (doc : pyval).

(** [for x in l: body(x)], stopped by the first exception. *)
Fixpoint for_each {A : Type} (l : list A) (body : A -> result unit)
  : result unit :=
  match l with
  | [] => Ok tt
  | x :: r => _ ← body x; for_each r body
  end.

Module Data.

(** [SW.NAME]. *)
Definition SW_NAME : string := "Hymnal Browser".

(** [{str(i+1).zfill(3): [0,0,0] for i in range(HDB.TOTAL_HYMNS)}]. *)
Definition defaultEntries : gmap string pyval :=
  fold_left
    (fun m i => <[Py.zfill 3 (Py.str_of_int (i + 1))
                  := PList [PNum 0; PNum 0; PNum 0]]> m)
    (range HymnsDatabase.TOTAL_HYMNS) ∅.

(** [dump(data)]: the file holds [data] afterwards. *)
Definition dump (data : pyval) : file := Stored data.

Section Data.

(** [KString.toHashMD5], the digest of a document. *)
Variable toHashMD5 : pyval -> string.

(** The dictionary of [generateDefault] before its checksum is filled
    in. *)
Definition unsignedDefault (now : Z) : gmap string pyval :=
  <["__DATECREATED" := PNum now]>
  (<["__FILETYPE__" := PStr (SW_NAME ++ " Statistical Data")]>
  (<["__CHECKSUM__" := PNone]>
  (<["DATA" := PDict defaultEntries]> ∅))).

(** The document that [generateDefault] writes at clock reading
    [now]. *)
Definition defaultDocument (now : Z) : pyval :=
  PDict (<["__CHECKSUM__" := PStr (toHashMD5 (PDict (unsignedDefault now)))]>
           (unsignedDefault now)).

Definition generateDefault (now : Z) : file := dump (defaultDocument now).

(** One round of the loop of [load]: the loop state is the file, the
    result what [load] returns or raises and the file it leaves. *)
Definition loadBody (now : Z) (f : file)
  : flow file (result pyval * file) :=
  match f with
  | Absent => Break (Raise FileNotFoundError, f)
  | Unparsable => Continue (generateDefault now)
  | Stored CFG => Break (Ok CFG, f)
  end.

Definition load (now : Z) (f : file) : option (result pyval * file) :=
  while 2 (loadBody now) f.

(** What the [try] of [verifyContents] does for one key: the entry is
    read, then each of its three positions. *)
Definition probeEntry (TARGET : pyval) (key : string) : result unit :=
  _ ← (Py.getitem_str TARGET "DATA" ≫= fun d => Py.getitem_str d key);
  for_each [0; 1; 2]%nat (fun j =>
    _ ← (Py.getitem_str TARGET "DATA"
           ≫= fun d => Py.getitem_str d key
           ≫= fun e => Py.getitem_nat e j);
    Ok tt).

(** The body of the [try] of [verifyContents], over the keys of
    [1..HYMNS_MAX]. *)
Definition probe (TARGET : pyval) : result unit :=
  for_each (range SYS.HYMNS_MAX)
           (fun i => probeEntry TARGET (KString.toDigits (i + 1) 3)).

(** [verifyContents]: only a [KeyError] of the probe is handled. *)
Definition verifyContents (now : Z) (f : file)
  : option (result unit * file) :=
  r ← load now f;
  Some
    match r with
    | (Raise e, f') => (Raise e, f')
    | (Ok TARGET, f') =>
        match probe TARGET with
        | Ok _ => (Ok tt, f')
        | Raise KeyError => (Ok tt, generateDefault now)
        | Raise e => (Raise e, f')
        end
    end.

(** [check]: returns the value given to [self.DATA]. *)
Definition check (now : Z) (f : file) : option (result pyval * file) :=
  let f1 := match f with
            | Absent => generateDefault now
            | _ => f
            end in
  v ← verifyContents now f1;
  match v with
  | (Raise e, f2) => Some (Raise e, f2)
  | (Ok _, f2) => load now f2
  end.

End Data.

End Data.

(** ** The session: what queries and launches read and write *)

(** The flags and the launch button are those of the window that is
    active, [UIZ], and the current hymn that of the [InputCore] object
    whose method runs; a change of the active window is not part of the
    model. *)
Record session : Type := mkSession {
  SDATA : pyval;
  FILE_DATA : file;
  (** [INP.CURRENT_HINFO]: [None] before it is first assigned. *)
  CURRENT_HINFO : option (option HymnInfo.t);
  EXEC_READY : bool;
  QUERY_TIMEOUT : bool;
  QUERY_TIMEOUT_FILL : Z;
  LAST_QUERY_ID : pyval;
  (** Whether [BTN_LAUNCH] is enabled. *)
  BTN_LAUNCH : bool
}.

(** The session as the main program sets it up once [Data()] has
    returned [DATA] and left the file [f]. *)
Definition startup (DATA : pyval) (f : file) : session :=
  mkSession DATA f None false false 2 (PNum 0) false.

(** [SDATA['DATA'].update({k: ARRAY})]. *)
Definition updateData (SDATA : pyval) (k : string) (ARRAY : pyval)
  : result pyval :=
  match SDATA with
  | PDict m =>
      match m !! "DATA" with
      | Some (PDict d) => Ok (PDict (<["DATA" := PDict (<[k := ARRAY]> d)]> m))
      | Some _ => Raise AttributeError
      | None => Raise KeyError
      end
  | _ => Raise TypeError
  end.

(** [HINFO.attr] for the value of [CURRENT_HINFO]. *)
Definition hinfo (st : session) : result HymnInfo.t :=
  match CURRENT_HINFO st with
  | Some (Some h) => Ok h
  | _ => Raise AttributeError
  end.

Module InputCore.

Section InputCore.

Variable naturaltime : Z -> string.
Variable HYMNAL : HYMNAL.t.

(** [updateButtons(mode)]: the launch button is enabled in mode 1
    only. *)
Definition updateButtons (mode : Z) (st : session) : session :=
  mkSession (SDATA st) (FILE_DATA st) (CURRENT_HINFO st) (EXEC_READY st)
            (QUERY_TIMEOUT st) (QUERY_TIMEOUT_FILL st) (LAST_QUERY_ID st)
            (mode =? 1).

(** [updateDetails] for the text [ENTRY] of the search box or recent
    list and the completion [ENTRY_CMPLTN] offered for it. The labels it
    fills are not part of the session; reading [HINFO.num] for them
    raises when [getStats] returned [None]. *)
Definition updateDetails (now : Z) (ENTRY ENTRY_CMPLTN : string)
    (st : session) : option (result unit * session) :=
  let st := mkSession (SDATA st) (FILE_DATA st) (CURRENT_HINFO st)
              (EXEC_READY st) true (QUERY_TIMEOUT_FILL st)
              (LAST_QUERY_ID st) (BTN_LAUNCH st) in
  let hN := Py.slice ENTRY None (Some 3) in
  match (if negb (Py.isdigit hN) then Ok true
         else match Py.int hN with
              | None => Raise ValueError
              | Some n => Ok (n =? 0)
              end) with
  | Raise e => Some (Raise e, st)
  | Ok incomplete =>
      let backup := negb (String.eqb ENTRY "")
                    && negb (existsb
                               (String.eqb (Py.slice ENTRY_CMPLTN None (Some 3)))
                               (MISSING.list (HYMNAL.MISSING HYMNAL))) in
      if incomplete && negb backup then
        let st := updateButtons 0 st in
        Some (Ok tt,
              mkSession (SDATA st) (FILE_DATA st) (CURRENT_HINFO st)
                (EXEC_READY st) false (QUERY_TIMEOUT_FILL st)
                (LAST_QUERY_ID st) (BTN_LAUNCH st))
      else
        let hN := if incomplete then Py.slice ENTRY_CMPLTN None (Some 3)
                  else hN in
        r ← HymnsDatabase.getStats naturaltime HYMNAL (SDATA st) now hN;
        Some
          match r with
          | (Raise e, ready) =>
              (Raise e,
               mkSession (SDATA st) (FILE_DATA st) (CURRENT_HINFO st)
                 ready (QUERY_TIMEOUT st) (QUERY_TIMEOUT_FILL st)
                 (LAST_QUERY_ID st) (BTN_LAUNCH st))
          | (Ok HINFO, ready) =>
              let st := mkSession (SDATA st) (FILE_DATA st) (Some HINFO)
                          ready (QUERY_TIMEOUT st) (QUERY_TIMEOUT_FILL st)
                          (LAST_QUERY_ID st) (BTN_LAUNCH st) in
              match HINFO with
              | None => (Raise AttributeError, st)
              | Some _ =>
                  (Ok tt, updateButtons (if EXEC_READY st then 1 else -1) st)
              end
          end
  end.

(** [executeFile], as far as the statistics go: the entry of the current
    hymn is rewritten from [CURRENT_HINFO] and the document stored, then
    the details are refreshed. Unpacking and opening the presentation
    happen before and do not touch the session; neither do the trimming
    of the temporary folder and the update of the list of recent files,
    which are left out as well: the model has the session of a launch
    that returns, not whether the launch returns. *)
Definition executeFile (now : Z) (ENTRY ENTRY_CMPLTN : string)
    (st : session) : option (result unit * session) :=
  match
    h ← hinfo st;
    q ← Py.add_int (HymnInfo.queries h) 1;
    l ← Py.add_int (HymnInfo.launches h) 1;
    d ← updateData (SDATA st) (HymnInfo.num h) (PList [q; l; PNum now]);
    Ok d
  with
  | Raise e => Some (Raise e, updateButtons 2 st)
  | Ok d =>
      let st := updateButtons 2 st in
      updateDetails now ENTRY ENTRY_CMPLTN
        (mkSession d (Data.dump d) (CURRENT_HINFO st) (EXEC_READY st)
           (QUERY_TIMEOUT st) (QUERY_TIMEOUT_FILL st) (LAST_QUERY_ID st)
           (BTN_LAUNCH st))
      ≫= fun r =>
        Some match r with
             | (Ok _, st') => (Ok tt, updateButtons 3 st')
             | (Raise e, st') => (Raise e, st')
             end
  end.

End InputCore.

End InputCore.

Module ThreadBackground.

(** One round of the loop of [run], as far as the session goes: the
    query that was held back is written to the statistics once
    [QUERY_TIMEOUT_FILL] has run down to zero. *)
Definition run (st : session) : result session :=
  if QUERY_TIMEOUT st then
    inRange ← (if negb (QUERY_TIMEOUT_FILL st =? 0) then Ok false
               else h ← hinfo st;
                    match Py.int (HymnInfo.num h) with
                    | None => Raise ValueError
                    | Some n => Ok ((0 <=? n) && (n <? SYS.HYMNS_MAX + 1))
                    end);
    if inRange : bool then
      st1 ← (h ← hinfo st;
             if negb (Py.eq_str (LAST_QUERY_ID st) (HymnInfo.num h)) then
               q ← Py.add_int (HymnInfo.queries h) 1;
               d ← updateData (SDATA st) (HymnInfo.num h)
                     (PList [q; HymnInfo.launches h; HymnInfo.lastAccessed h]);
               Ok (mkSession d (Data.dump d) (CURRENT_HINFO st)
                     (EXEC_READY st) (QUERY_TIMEOUT st)
                     (QUERY_TIMEOUT_FILL st) (PStr (HymnInfo.num h))
                     (BTN_LAUNCH st))
             else Ok st);
      Ok (mkSession (SDATA st1) (FILE_DATA st1) (CURRENT_HINFO st1)
            (EXEC_READY st1) false 2 (LAST_QUERY_ID st1) (BTN_LAUNCH st1))
    else
      Ok (mkSession (SDATA st) (FILE_DATA st) (CURRENT_HINFO st)
            (EXEC_READY st) (QUERY_TIMEOUT st) (QUERY_TIMEOUT_FILL st - 1)
            (LAST_QUERY_ID st) (BTN_LAUNCH st))
  else Ok st.

End ThreadBackground.

Module QWGT_SETTINGS.

Section Reset.

Variable toHashMD5 : pyval -> string.

(** The reset of the statistics in [triggerButton], once confirmed:
    the file is removed, [SDB.check()] runs and [SDATA] is bound to its
    [DATA]. *)
Definition resetStats (now : Z) (st : session)
  : option (result unit * session) :=
  match FILE_DATA st with
  | Absent => Some (Raise FileNotFoundError, st)
  | _ =>
      r ← Data.check toHashMD5 now Absent;
      Some
        match r with
        | (Raise e, f) =>
            (Raise e,
             mkSession (SDATA st) f (CURRENT_HINFO st) (EXEC_READY st)
               (QUERY_TIMEOUT st) (QUERY_TIMEOUT_FILL st) (LAST_QUERY_ID st)
               (BTN_LAUNCH st))
        | (Ok DATA, f) =>
            (Ok tt,
             mkSession DATA f (CURRENT_HINFO st) (EXEC_READY st)
               (QUERY_TIMEOUT st) (QUERY_TIMEOUT_FILL st) (LAST_QUERY_ID st)
               (BTN_LAUNCH st))
        end
  end.

End Reset.

End QWGT_SETTINGS.

(** ** [class System]: colours as text *)

Module System.

(** [x in s] for a character [x]. *)
Fixpoint has_char (x : ascii) (s : string) : bool :=
  match s with
  | EmptyString => false
  | String c r => Ascii.eqb c x || has_char x r
  end.

(** The value of a digit of base 16, in either case. *)
Definition hexval (c : ascii) : option Z :=
  if Py.isdecimal_char c then Some (Py.code c - 48)
  else if (97 <=? Py.code c) && (Py.code c <=? 102) then Some (Py.code c - 87)
  else if (65 <=? Py.code c) && (Py.code c <=? 70) then Some (Py.code c - 55)
  else None.

(** The digits of a literal of base 16: single underscores are allowed
    between two digits only. *)
Fixpoint hexdigits_val (acc : Z) (after_digit : bool) (s : string)
  : option Z :=
  match s with
  | EmptyString => if after_digit then Some acc else None
  | String c r =>
      match hexval c with
      | Some d => hexdigits_val (16 * acc + d) true r
      | None =>
          if Ascii.eqb c "_" then
            if after_digit then hexdigits_val acc false r else None
          else None
      end
  end.

(** A literal of base 16 past its sign: the prefix [0x] may come first,
    and one underscore after it. *)
Definition hexliteral (t : string) : option Z :=
  match t with
  | String "0" (String x r) =>
      if Ascii.eqb x "x" || Ascii.eqb x "X" then
        match r with
        | String "_" r' => hexdigits_val 0 false r'
        | _ => hexdigits_val 0 false r
        end
      else hexdigits_val 0 false t
  | _ => hexdigits_val 0 false t
  end.

(** [int(s, 16)]; [None] stands for [ValueError]. *)
Definition int16 (s : string) : option Z :=
  match Py.lstrip (Py.rstrip s) with
  | String c r =>
      if Ascii.eqb c "-" then Z.opp <$> hexliteral r
      else if Ascii.eqb c "+" then hexliteral r
      else hexliteral (String c r)
  | EmptyString => None
  end.

Definition hexdigit (d : Z) : ascii :=
  ascii_of_N (Z.to_N (if d <? 10 then 48 + d else 87 + d)).

(** The digits of base 16 of a number that is not negative, the lowest
    last; [fuel] bounds their count. *)
Fixpoint hexdigits (fuel : nat) (z : Z) (acc : string) : string :=
  match fuel with
  | O => acc
  | S fuel' =>
      let acc' := String (hexdigit (z mod 16)) acc in
      if z <? 16 then acc' else hexdigits fuel' (z / 16) acc'
  end.

(** ['%02x' % v]: lower-case digits of base 16, at least two characters,
    a minus sign counting as one; anything but an [int] is refused. *)
Definition format_02x (v : pyval) : result string :=
  let fmt (z : Z) :=
    if z <? 0
    then String "-" (hexdigits (S (Z.to_nat (Z.log2 (- z)))) (- z) "")
    else Py.zfill 2 (hexdigits (S (Z.to_nat (Z.log2 z))) z "") in
  match v with
  | PNum z => Ok (fmt z)
  | PBool b => Ok (fmt (Z.b2z b))
  | _ => Raise TypeError
  end.

(** [QCl(c)]: the three components handed to [QColor]. *)
Definition QCl (c : string) : result (Z * Z * Z) :=
  let c := if has_char "#" c then Py.slice c (Some 1) None else c in
  let component (a b : Z) : result Z :=
    match int16 (Py.slice c (Some a) (Some b)) with
    | Some v => Ok v
    | None => Raise ValueError
    end in
  r ← component 0 2;
  g ← component 2 4;
  b ← component 4 6;
  Ok (r, g, b).

(** [RGBtoHEX(rgb)]: the fourth component is deleted and the three that
    are left are formatted; the format takes exactly three. *)
Definition RGBtoHEX (rgb : list pyval) : result string :=
  match rgb !! 3%nat with
  | None => Raise IndexError
  | Some _ =>
      match delete 3%nat rgb with
      | [r; g; b] =>
          hr ← format_02x r;
          hg ← format_02x g;
          hb ← format_02x b;
          Ok ("#" ++ hr ++ hg ++ hb)
      | _ => Raise TypeError
      end
  end.

End System.

(** ** The temporary folder and [class FileManager] *)

(** One file of a folder: its name, the time of its last access, and
    whether the system refuses to remove it, as it does for a
    presentation that is open. *)
Record dirent : Type := mkDirent {
  d_name : string;
  d_atime : Z;
  d_busy : bool
}.

(** A folder, in the order in which [os.listdir] gives its names. *)
Definition folder : Type := list dirent.

(** What the program calls from the module [os], on one folder of path
    [DIR]. *)
Module os.

Section Folder.

Variable DIR : string.

(** [f'{DIR}\\{name}']. *)
Definition path (name : string) : string := DIR ++ "\" ++ name.

Definition listdir (d : folder) : list string := d_name <$> d.

(** The file that a path names. *)
Definition file_at (d : folder) (p : string) : option dirent :=
  List.find (fun e => String.eqb (path (d_name e)) p) d.

(** [os.path.getatime(p)]. *)
Definition getatime (d : folder) (p : string) : result Z :=
  match file_at d p with
  | Some e => Ok (d_atime e)
  | None => Raise FileNotFoundError
  end.

(** [os.remove(p)] either removes the file or raises one of the two
    exceptions that [deleteOldest] handles. *)
Inductive removal : Type :=
  | Removed (d : folder)
  | PermissionError
  | NotFound.

Definition remove (d : folder) (p : string) : removal :=
  match file_at d p with
  | None => NotFound
  | Some e =>
      if d_busy e then PermissionError
      else Removed (filter (fun e' => path (d_name e') <> p) d)
  end.

End Folder.

End os.

Module RECENTS.
Definition DEFAULT : Z := 10.
Definition ALLOWEDMIN : Z := 3.
Definition ALLOWEDMAX : Z := 30.
End RECENTS.

Module FileManager.

Definition DIR_PARENT : string := "C:\ProgramData\MSDAC Systems".
Definition DIR_PROGRAM : string := DIR_PARENT ++ "\Hymnal Browser".
Definition DIR_TEMP : string := DIR_PROGRAM ++ "\Temp".
Definition DIR_LOG : string := DIR_TEMP ++ "\Logs".
Definition LOG_FILE_LIMIT : Z := 10.

(** [s.startswith(p)] and [s.endswith(p)]. *)
Definition startswith (p s : string) : bool := String.prefix p s.

Definition endswith (p s : string) : bool :=
  String.eqb (substring (String.length s - String.length p)
                        (String.length p) s) p
  && (String.length p <=? String.length s)%nat.

(** The names that count as recent files, and as log files. *)
Definition recentName (i : string) : bool :=
  negb (startswith "~$" i) && endswith ".pptx" i.

Definition logName (i : string) : bool := endswith ".log" i.

(** [[f'{DIR}\\{i}' for i in os.listdir(DIR) if keep(i)]]. *)
Definition listing (DIR : string) (keep : string -> bool) (d : folder)
  : list string :=
  os.path DIR <$> filter (fun i => keep i = true) (os.listdir d).

Definition getRecentFiles (d : folder) : list string :=
  listing DIR_TEMP recentName d.

Definition getLogFiles (d : folder) : list string :=
  listing DIR_LOG logName d.

(** [min(l, key=key)]: the first of the items whose key is least;
    [ValueError] on an empty list, and the exception of the first key
    that fails. *)
Fixpoint min_from (key : string -> result Z) (best : string) (kbest : Z)
    (l : list string) : result string :=
  match l with
  | [] => Ok best
  | x :: r =>
      k ← key x;
      if k <? kbest then min_from key x k r else min_from key best kbest r
  end.

Definition min_by (key : string -> result Z) (l : list string)
  : result string :=
  match l with
  | [] => Raise ValueError
  | x :: r => k ← key x; min_from key x k r
  end.

Section DeleteOldest.

(** The folder that [fileList] lists, and its path. *)
Variable DIR : string.
Variable fileList : folder -> list string.

(** One round of the loop of [deleteOldest]: a file that cannot be
    removed, or is no longer there, is passed over and the loop goes
    on. *)
Definition deleteBody (threshold : Z) (deleteAll : bool) (d : folder)
  : flow folder (result unit * folder) :=
  if Z.of_nat (List.length (fileList d))
     >? (if negb deleteAll then threshold else 0)
  then
    match min_by (os.getatime DIR d) (fileList d) with
    | Ok p =>
        match os.remove DIR d p with
        | os.Removed d' => Continue d'
        | os.PermissionError => Continue d
        | os.NotFound => Continue d
        end
    | Raise FileNotFoundError => Continue d
    | Raise e => Break (Raise e, d)
    end
  else Break (Ok tt, d).

(** [deleteOldest(fileList, threshold, deleteAll)]; [None] is a loop
    that is still running after [fuel] rounds. *)
Definition deleteOldest (threshold : Z) (deleteAll : bool) (fuel : nat)
    (d : folder) : option (result unit * folder) :=
  while fuel (deleteBody threshold deleteAll) d.

End DeleteOldest.

(** The threshold of [deleteRecent], for the text [v] that
    [CDATA['MaxAllowedRecent']] gives. *)
Definition recentThreshold (v : string) : Z :=
  let THRESHOLD := match Py.int v with
                   | Some n => n
                   | None => RECENTS.DEFAULT
                   end in
  if (THRESHOLD <? RECENTS.ALLOWEDMIN) || (THRESHOLD >? RECENTS.ALLOWEDMAX)
  then RECENTS.DEFAULT else THRESHOLD.

(** [deleteRecent(deleteAll)] on the temporary folder. *)
Definition deleteRecent (v : string) (deleteAll : bool) (fuel : nat)
    (d : folder) : option (result unit * folder) :=
  deleteOldest DIR_TEMP getRecentFiles (recentThreshold v) deleteAll fuel d.

(** [deleteLogs(deleteAll)] on the folder of the logs. *)
Definition deleteLogs (deleteAll : bool) (fuel : nat) (d : folder)
  : option (result unit * folder) :=
  deleteOldest DIR_LOG getLogFiles LOG_FILE_LIMIT deleteAll fuel d.

End FileManager.

(** ** [QWGT_BROWSER.updateRecentList]: the list of recent files *)

Module QWGT_BROWSER.

(** [l.index(s)] on a list of strings; [None] stands for
    [ValueError]. *)
Fixpoint index (l : list string) (s : string) : option nat :=
  match l with
  | [] => None
  | x :: r => if String.eqb x s then Some 0%nat else S <$> index r s
  end.

(** The keys of [sorted(l, key=key)], taken item by item before the
    sort. *)
Fixpoint decorate (key : string -> result Z) (l : list string)
  : result (list (Z * string)) :=
  match l with
  | [] => Ok []
  | x :: r => k ← key x; r' ← decorate key r; Ok ((k, x) :: r')
  end.

(** [sorted(l, key=key, reverse=True)]: greatest key first, items of
    equal key in their order in [l]. *)
Fixpoint insert_desc (x : Z * string) (l : list (Z * string))
  : list (Z * string) :=
  match l with
  | [] => [x]
  | y :: r => if x.1 <? y.1 then y :: insert_desc x r else x :: l
  end.

Definition sorted_desc (l : list (Z * string)) : list string :=
  snd <$> fold_right insert_desc [] l.

(** [for j in range(i): SORTED[i-j] = SORTED[i-(j+1)]], for a position
    [i] of the list: the positions read and written exist. *)
Definition shift (i : nat) (SORTED : list string) : list string :=
  fold_left (fun S j => match S !! (i - (j + 1))%nat with
                        | Some x => <[(i - j)%nat := x]> S
                        | None => S
                        end)
            (seq 0 i) SORTED.

(** The loop [for i in reversed(range(...))], which looks for the
    position of the item ['0'] and ends at it. *)
Fixpoint adjust (rounds : list nat) (cur : string) (SORTED : list string)
  : list string :=
  match rounds with
  | [] => SORTED
  | i :: rest =>
      if decide (index SORTED "0" = Some i)
      then <[0%nat := cur]> (shift i SORTED)
      else adjust rest cur SORTED
  end.

(** [f'{CURRENT_HINFO.num} {CURRENT_HINFO.title}']. *)
Definition currentName (CURRENT_HINFO : option (option HymnInfo.t))
  : result string :=
  match CURRENT_HINFO with
  | Some (Some h) => Ok (HymnInfo.num h ++ " " ++ HymnInfo.title h)
  | _ => Raise AttributeError
  end.

(** [updateRecentList(whenLaunched)] on the temporary folder [d], for
    the text [v] that [CDATA['MaxAllowedRecent']] gives: the items put
    into the recent list and the index made current. *)
Definition updateRecentList (whenLaunched : Z) (v : string)
    (CURRENT_HINFO : option (option HymnInfo.t)) (d : folder)
  : result (list string * Z) :=
  let FILES := FileManager.listing FileManager.DIR_TEMP
                 FileManager.recentName d in
  keyed ← decorate (os.getatime FileManager.DIR_TEMP d) FILES;
  let SORTED :=
    (fun x => Py.slice x
                (Some (Z.of_nat (String.length FileManager.DIR_TEMP) + 1))
                (Some (-5)))
    <$> sorted_desc keyed in
  if whenLaunched =? 0 then Ok (SORTED, -1)
  else
    cur ← currentName CURRENT_HINFO;
    match index SORTED cur with
    | None => Raise ValueError
    | Some p =>
        let SORTED := <[p := "0"]> SORTED in
        match Py.int v with
        | None => Raise ValueError
        | Some M =>
            Ok (adjust (rev (seq 0 (Z.to_nat M))) cur SORTED, 0)
        end
    end.

End QWGT_BROWSER.

(** ** [Data.getStats]: the totals of the statistics panel *)

(** How a call ends: it returns, or raises one of the exceptions of
    [exn], or raises [OverflowError]. *)
Inductive outcome (A : Type) : Type :=
  | Returns (a : A)
  | Raises (e : exn)
  | RaisesOverflowError.

Arguments Returns {A} a.
Arguments Raises {A} e.
Arguments RaisesOverflowError {A}.

Module STATS.
(** [lastAccessed] holds two time spans, in seconds. *)
Record t : Type := mk {
  queries : Z;
  launches : Z;
  lastAccessed : Z * Z
}.
End STATS.

(** The methods of [SDB], the program's [Data] object, that the
    settings window calls. *)
Module SDB.

(** [[s[j] for s in STATS]]. *)
Fixpoint column (j : nat) (STATS : list pyval) : result (list pyval) :=
  match STATS with
  | [] => Ok []
  | s :: r => v ← Py.getitem_nat s j; c ← column j r; Ok (v :: c)
  end.

(** [sum(l)], from the total so far. *)
Fixpoint sum_from (acc : Z) (l : list pyval) : result Z :=
  match l with
  | [] => Ok acc
  | PNum z :: r => sum_from (acc + z) r
  | PBool b :: r => sum_from (acc + Z.b2z b) r
  | _ :: _ => Raise TypeError
  end.

(** The numbers of a list whose greatest and least items are to be
    seconds of a time span: items that are no numbers either cannot be
    compared or are refused by [timedelta]. *)
Fixpoint numbers (l : list pyval) : result (list Z) :=
  match l with
  | [] => Ok []
  | PNum z :: r => zs ← numbers r; Ok (z :: zs)
  | PBool b :: r => zs ← numbers r; Ok (Z.b2z b :: zs)
  | _ :: _ => Raise TypeError
  end.

(** [timedelta(seconds=s)]: a time span has at most 999999999 days
    either way. *)
Definition timedelta (s : Z) : outcome Z :=
  if (-999999999 <=? s / 86400) && (s / 86400 <=? 999999999)
  then Returns s else RaisesOverflowError.

(** The [else] branch of [getStats]: the two sums, then the two time
    spans. *)
Definition totals (STATS : list pyval) : outcome STATS.t :=
  match
    c0 ← column 0 STATS; a ← sum_from 0 c0;
    c1 ← column 1 STATS; b ← sum_from 0 c1;
    c2 ← column 2 STATS; zs ← numbers c2;
    Ok (a, b, zs)
  with
  | Raise e => Raises e
  | Ok (a, b, []) => Raises ValueError
  | Ok (a, b, z :: zs) =>
      match timedelta (fold_left Z.max zs z) with
      | Returns hi =>
          match timedelta (fold_left Z.min zs z) with
          | Returns lo => Returns (STATS.mk a b (hi, lo))
          | Raises e => Raises e
          | RaisesOverflowError => RaisesOverflowError
          end
      | Raises e => Raises e
      | RaisesOverflowError => RaisesOverflowError
      end
  end.

(** The keys of the hymns 1 to 474. *)
Definition keys : list string :=
  (fun i => KString.toDigits (i + 1) 3) <$> range SYS.HYMNS_MAX.

Section SDB.

Variable toHashMD5 : pyval -> string.

(** [[SDB.load()['DATA'][k] for k in keys]]: the file is loaded anew for
    every item. *)
Fixpoint collect (now : Z) (ks : list string) (f : file)
  : option (result (list pyval) * file) :=
  match ks with
  | [] => Some (Ok [], f)
  | k :: ks' =>
      r ← Data.load toHashMD5 now f;
      match r with
      | (Raise e, f') => Some (Raise e, f')
      | (Ok CFG, f') =>
          match Py.getitem_str CFG "DATA" ≫= fun d => Py.getitem_str d k with
          | Raise e => Some (Raise e, f')
          | Ok v =>
              r' ← collect now ks' f';
              Some match r' with
                   | (Raise e, f'') => (Raise e, f'')
                   | (Ok l, f'') => (Ok (v :: l), f'')
                   end
          end
      end
  end.

(** [getStats()]: on a [KeyError] of the lookups the file is checked
    again and nothing is returned ([None]); the result is paired with
    the file that the call leaves. *)
Definition getStats (now : Z) (f : file)
  : option (outcome (option STATS.t) * file) :=
  r ← collect now keys f;
  match r with
  | (Raise KeyError, f') =>
      c ← Data.check toHashMD5 now f';
      Some match c with
           | (Raise e, f'') => (Raises e, f'')
           | (Ok _, f'') => (Returns None, f'')
           end
  | (Raise e, f') => Some (Raises e, f')
  | (Ok STATS, f') =>
      Some (match totals STATS with
            | Returns s => Returns (Some s)
            | Raises e => Raises e
            | RaisesOverflowError => RaisesOverflowError
            end, f')
  end.

End SDB.

End SDB.

(** ** [InputCore.searchFill]: the mouse wheel on the search box *)

(** The methods of [INP], the window's [InputCore] object, that the
    search box calls on a wheel event. *)
Module INP.

Section INP.

Variable naturaltime : Z -> string.
Variable HYMNAL : HYMNAL.t.

(** [HDB.getStats(hN)] in a session: the call leaves the flag
    [EXEC_READY] as it sets it. *)
Definition lookup (now : Z) (hN : string) (st : session)
  : option (result (option HymnInfo.t) * session) :=
  r ← HymnsDatabase.getStats naturaltime HYMNAL (SDATA st) now hN;
  Some (r.1,
        mkSession (SDATA st) (FILE_DATA st) (CURRENT_HINFO st) r.2
          (QUERY_TIMEOUT st) (QUERY_TIMEOUT_FILL st) (LAST_QUERY_ID st)
          (BTN_LAUNCH st)).



End INP.

End INP.

(** ** [class Statistics]: the table of the statistics panel *)

Module Statistics.

(** The loop over the columns of one row of the table: [RDATA] after the
    items of the row, an item being [None] or having a text. The value
    that is appended for an item with a text is what the inner [append]
    returns. *)
Definition exportRow (items : list (option string)) : list pyval :=
  fold_left
    (fun RDATA ITEM =>
       match ITEM with
       | Some text =>
           let RDATA := (RDATA ++ [PStr text])%list in
           (RDATA ++ [PNone])%list
       | None => (RDATA ++ [PStr ""])%list
       end)
    items [].

(** [exportStatsTable()]: the rows handed to [writer.writerow], for the
    table given row by row. *)
Definition exportStatsTable (table : list (list (option string)))
  : list (list pyval) :=
  exportRow <$> table.

Section Table.

Variable naturaltime : Z -> string.
Variable HYMNAL : HYMNAL.t.




End Table.

End Statistics.

(** ** The statistics file, whatever lies at its path *)

(** What lies at the path of the statistics file: a file as [file] has
    it, or a file that is there and on which [json.load] raises an
    exception that is no [JSONDecodeError], as it does, with
    [UnicodeDecodeError], for bytes that are no text in the encoding of
    [open]. *)
Inductive disk : Type :=
  | Plain (f : file)
  | Unloadable.

(** How a call ends on a [disk]: as it does on a [file], or with the
    exception of [json.load], which [load] does not catch and
    [verifyContents] and [check] let pass. *)
Inductive ending (A : Type) : Type :=
  | Ended (r : result A)
  | RaisesLoadError.

Arguments Ended {A} r.
Arguments RaisesLoadError {A}.

Module OnDisk.

Section OnDisk.

Variable toHashMD5 : pyval -> string.

(** A call on a [file], whose writes leave a document. *)
Definition plain {A : Type} (r : option (result A * file))
  : option (ending A * disk) :=
  x ← r; Some (Ended x.1, Plain x.2).

(** [load]: [except json.decoder.JSONDecodeError] is the only handler
    around [json.load(read)]. *)
Definition load (now : Z) (d : disk) : option (ending pyval * disk) :=
  match d with
  | Plain f => plain (Data.load toHashMD5 now f)
  | Unloadable => Some (RaisesLoadError, Unloadable)
  end.

(** [verifyContents]: [TARGET = self.load()] stands before the [try]. *)
Definition verifyContents (now : Z) (d : disk)
  : option (ending unit * disk) :=
  match d with
  | Plain f => plain (Data.verifyContents toHashMD5 now f)
  | Unloadable =>
      x ← load now d;
      Some match x with
           | (RaisesLoadError, d') => (RaisesLoadError, d')
           | (Ended (Raise e), d') => (Ended (Raise e), d')
           | (Ended (Ok _), d') => (Ended (Ok tt), d')
           end
  end.

(** [check]: a file that is there is not generated anew before it is
    verified. *)
Definition check (now : Z) (d : disk) : option (ending pyval * disk) :=
  match d with
  | Plain f => plain (Data.check toHashMD5 now f)
  | Unloadable =>
      v ← verifyContents now d;
      match v with
      | (RaisesLoadError, d') => Some (RaisesLoadError, d')
      | (Ended (Raise e), d') => Some (Ended (Raise e), d')
      | (Ended (Ok _), d') => load now d'
      end
  end.

End OnDisk.

End OnDisk.

(** ** Notions used in the statements *)

(** The characters of a string, for statements by position. *)
Definition chars (s : string) : list ascii := list_ascii_of_string s.

(** The pieces of a split put together again, the separator between
    them. *)
Fixpoint join (sep : ascii) (l : list string) : string :=
  match l with
  | [] => ""
  | [x] => x
  | x :: r => x ++ String sep (join sep r)
  end.

(** A sequence of characters that is not empty and holds digits only. *)
Definition isdigit_chars (d : list ascii) : bool :=
  match d with
  | [] => false
  | _ :: _ => forallb Py.isdigit_char d
  end.

(** The hymn numbers of all the archive entries, whether filed under a
    category or not. *)
Definition seenNumbers (FNS : list string) : list pyval :=
  (fun FILE => HYMN.num (HymnsDatabase.splitHymn FILE)) <$> FNS.

(** A number appears in the number sequence of some category. *)
Definition inCategory (H : HYMNAL.t) (s : string) : bool :=
  Py.contains (HYMNAL.EN H).1 s || Py.contains (HYMNAL.TL H).1 s
  || Py.contains (HYMNAL.US H).1 s.

(** Every number filed under a category is among the numbers seen. *)
Definition filed_seen (tbls : list table) (nums : list pyval) : Prop :=
  forall i t v, tbls !! i = Some t -> In v t.1 -> In v nums.

(** The categories hold as many titles as numbers. *)
Definition aligned (tbls : list table) : Prop :=
  forall i t, tbls !! i = Some t -> List.length t.1 = List.length t.2.

Definition parallel (H : HYMNAL.t) : Prop :=
  forall i, List.length (HYMNAL.item H i).1 = List.length (HYMNAL.item H i).2.

(** The title that a category holds for a number. *)
Definition lookupTitle (t : table) (key : string) : option string :=
  Py.index t.1 key ≫= fun idx => t.2 !! idx.

(** What the title loop of [getStats] ends with. *)
Definition titleOf (H : HYMNAL.t) (n : Z) : string :=
  match lookupTitle (HYMNAL.EN H) (KString.toDigits n 3) with
  | Some hT => hT
  | None => default "" (lookupTitle (HYMNAL.TL H) (KString.toDigits n 3))
  end.

(** The search for [key] in the category other than [i]. *)
Definition equivalentIn (H : HYMNAL.t) (i : nat) (key : string)
  : result (nat * nat * string * pyval) :=
  match Py.index (HYMNAL.item H (invert i)).1 key with
  | None => Ok (i, 0%nat, "", PStr "")
  | Some idx =>
      match (HYMNAL.item H (invert i)).2 !! idx,
            (HYMNAL.item H (invert i)).1 !! idx with
      | Some t, Some m => Ok (i, idx, t, m)
      | _, _ => Raise IndexError
      end
  end.

(** What the loop for the equivalent hymn of [getStats] ends with. *)
Definition equivOf (H : HYMNAL.t) (hN : string) (n : Z)
  : result (nat * nat * string * pyval) :=
  if Py.contains (HYMNAL.EN H).1 hN
  then equivalentIn H 0 (KString.toDigits (n + 1) 3)
  else if Py.contains (HYMNAL.TL H).1 hN
  then equivalentIn H 1 (KString.toDigits (n - 1) 3)
  else Ok (1%nat, 0%nat, "", PStr "").

(** The padded text of [n] is a fixed point of the padding, holds no
    letter and reads back as [n]. *)
Definition canonical (n : Z) : bool :=
  String.eqb (KString.toDigits_str (KString.toDigits n 3) 3)
             (KString.toDigits n 3)
  && String.eqb (KString.filterOnly 0 (KString.toDigits n 3)) ""
  && match Py.int (KString.toDigits n 3) with
     | Some m => m =? n
     | None => false
     end.

Definition canonical_digit (n : Z) : bool :=
  Py.isdigit (KString.toDigits n 3).

(** The entry of [key] in a document, or the exception of reading it. *)
Definition entryOf (doc : pyval) (key : string) : result pyval :=
  Py.getitem_str doc "DATA" ≫= fun d => Py.getitem_str d key.

Definition zeroEntry (o : option pyval) : bool :=
  match o with
  | Some (PList [PNum 0; PNum 0; PNum 0]) => true
  | _ => false
  end.

(** The document with its checksum field put back to [None], which is
    what [generateDefault] hands to [toHashMD5]. *)
Definition withoutChecksum (doc : pyval) : pyval :=
  match doc with
  | PDict m => PDict (<["__CHECKSUM__" := PNone]> m)
  | _ => doc
  end.

(** A query as the program goes through it: the details are updated for
    the entry, then three rounds of the background loop pass, the third
    of which writes the query down. *)
Definition queryAccess (naturaltime : Z -> string) (HYMNAL : HYMNAL.t)
    (now : Z) (ENTRY ENTRY_CMPLTN : string) (st : session)
  : option (result session) :=
  r ← InputCore.updateDetails naturaltime HYMNAL now ENTRY ENTRY_CMPLTN st;
  Some match r with
       | (Raise e, _) => Raise e
       | (Ok _, st1) =>
           st2 ← ThreadBackground.run st1;
           st3 ← ThreadBackground.run st2;
           ThreadBackground.run st3
       end.

(** One operation after another, unless the first raised. *)
Definition andThen (r : option (result session))
    (f : session -> option (result session)) : option (result session) :=
  r ≫= fun x => match x with
                | Ok st => f st
                | Raise e => Some (Raise e)
                end.

(** An operation returned, without an exception. *)
Definition returned {A : Type} (r : option (result A * session)) : bool :=
  match r with
  | Some (Ok _, _) => true
  | _ => false
  end.

(** The entry of [key] in the statistics that an operation leaves. *)
Definition entryAfter (r : option (result session)) (key : string)
  : option (result pyval) :=
  r ≫= fun x => Some (x ≫= fun st => entryOf (SDATA st) key).



(** The outcome of a mutation of the statistics [S0]: the session holds
    the document that the file now stores, the three header fields are
    those of [S0], and [check] takes the file as it is. *)
Definition stored_with_header (toHashMD5 : pyval -> string) (S0 : pyval)
    (st' : session) : Prop :=
  FILE_DATA st' = Stored (SDATA st')
  /\ Py.getitem_str (SDATA st') "__CHECKSUM__"
     = Py.getitem_str S0 "__CHECKSUM__"
  /\ Py.getitem_str (SDATA st') "__DATECREATED"
     = Py.getitem_str S0 "__DATECREATED"
  /\ Py.getitem_str (SDATA st') "__FILETYPE__"
     = Py.getitem_str S0 "__FILETYPE__"
  /\ forall now, Data.check toHashMD5 now (FILE_DATA st')
                 = Some (Ok (SDATA st'), FILE_DATA st').

(** The stored checksum is the digest taken at generation time [t0], of
    a document that the current one no longer is. *)
Definition stale_checksum (toHashMD5 : pyval -> string) (t0 : Z)
    (doc : pyval) : Prop :=
  Py.getitem_str doc "__CHECKSUM__"
  = Ok (PStr (toHashMD5 (PDict (Data.unsignedDefault t0))))
  /\ withoutChecksum doc <> PDict (Data.unsignedDefault t0).

(** ** Sample data *)

Definition demoArchive : list string :=
  ["EN 001 TitleA.pptx"; "TL 002 TitleB.pptx"].
Definition strayArchive : list string := ["EN 005 Lost.txt"].
Definition userArchive : list string := ["US 005 Mine.pptx"].
Definition queryArchive : list string := ["EN 123 Hymn.pptx"].


(** Stand-ins for [humanize.naturaltime] and [KString.toHashMD5]. *)
Definition demoTime (d : Z) : string := "a moment ago".
Definition demoHash (v : pyval) : string := "d41d8cd98f00b204e9800998ecf8427e".

(** The statistics as generated at clock reading 0. *)
Definition demoStats : pyval := Data.defaultDocument demoHash 0.

Definition emptyHymnal : HYMNAL.t :=
  HYMNAL.mk ([], []) ([], []) ([], []) [] (TOTAL.mk 0 0 0 0) (MISSING.mk [] 0).

(** The catalogue of an archive listing that parses. *)
Definition catalogueOf (FNS : list string) : HYMNAL.t :=
  match HymnsDatabase.parseHymnDatabase FNS with
  | Ok H => H
  | Raise _ => emptyHymnal
  end.

(** What a lookup of hymn 001 of [demoArchive] returns on [demoStats] at
    clock reading 50, and the session of a launch that is ready for
    it. *)
Definition demoInfo : HymnInfo.t :=
  HymnInfo.mk "TitleA" "001" "TitleB" (PStr "002") "EN" "TL"
              (PNum 0) (PNum 0) (PNum 0) (PNum 0) (PStr (demoTime 50)).

Definition demoLaunchSession : session :=
  mkSession demoStats (Stored demoStats) (Some (Some demoInfo))
            true true 2 (PNum 0) true.

(** A statistics document with every key of [1..474], in which the
    entry of hymn 001 has two positions only. *)
Definition shortDocument : pyval :=
  PDict (<["DATA" := PDict (<["001" := PList [PNum 0; PNum 0]]>
                              Data.defaultEntries)]>
           (Data.unsignedDefault 0)).

(** A statistics document in which the key of hymn 317 is missing. *)
Definition missingKeyDocument : pyval :=
  PDict (<["DATA" := PDict (delete "317" Data.defaultEntries)]>
           (Data.unsignedDefault 0)).

(** ** Notions and sample data for the further parts *)

(** An archive entry is filed under category [i]: its name starts with
    the letters of the category and its extension is [pptx]. *)
Definition filedUnder (i : nat) (FILE : string) : bool :=
  String.eqb (HYMN.cat (HymnsDatabase.splitHymn FILE))
             (nth i HymnsDatabase.CATS "")
  && String.eqb (HYMN.ext (HymnsDatabase.splitHymn FILE)) "pptx".

(** The numbers and titles of the entries filed under category [i], in
    the order of the archive. *)
Definition filedTable (i : nat) (FNS : list string) : table :=
  ((fun F => HYMN.num (HymnsDatabase.splitHymn F))
     <$> filter (fun F => filedUnder i F = true) FNS,
   (fun F => HYMN.title (HymnsDatabase.splitHymn F))
     <$> filter (fun F => filedUnder i F = true) FNS).

(** An entry that is filed under one of the three categories. *)
Definition filed (FILE : string) : bool :=
  filedUnder 0 FILE || filedUnder 1 FILE || filedUnder 2 FILE.

(** The number field of an entry name, its characters 4 to 6, holds
    digits. *)
Definition numbered (FILE : string) : bool :=
  Py.isdigit (Py.slice FILE (Some 3) (Some 6)).

(** A category with the number and title of an entry added when the
    entry is filed under it. *)
Definition extend (i : nat) (FILE : string) (t : table) : table :=
  if filedUnder i FILE
  then ((t.1 ++ [HYMN.num (HymnsDatabase.splitHymn FILE)])%list,
        (t.2 ++ [HYMN.title (HymnsDatabase.splitHymn FILE)])%list)
  else t.

(** A category followed by another. *)
Definition joined (t u : table) : table :=
  ((t.1 ++ u.1)%list, (t.2 ++ u.2)%list).

(** An archive with a presentation of each of the categories EN and TL,
    a text file, and a folder. *)
Definition mixedArchive : list string :=
  ["EN/"; "EN 001 TitleA.pptx"; "notes.txt"; "TL 002 TitleB.pptx";
   "EN 003 TitleC.pptx"].

(** What the names of an archive decide about the building of the
    catalogue: an empty name stops it with [IndexError]; otherwise an
    entry filed under a category whose number field holds no digits
    stops it with [TypeError]; otherwise nothing stops it. *)
Definition verdict (FNS : list string) : option exn :=
  if existsb (String.eqb "") FNS then Some IndexError
  else if forallb (fun F => implb (filed F) (numbered F)) FNS then None
  else Some TypeError.

(** A session in which a query of hymn 001 is held back and due. *)
Definition dueSession : session :=
  mkSession demoStats (Stored demoStats) (Some (Some demoInfo))
            true true 0 (PNum 0) true.

(** An [int], as opposed to the other values. *)
Definition is_int (v : pyval) : bool :=
  match v with
  | PNum _ | PBool _ => true
  | _ => false
  end.

(** A colour component is formatted as two characters that read back as
    the component. *)
Definition two_hex (z : Z) : bool :=
  match System.format_02x (PNum z) with
  | Ok (String x (String y EmptyString)) =>
      match System.int16 (String x (String y EmptyString)) with
      | Some v => v =? z
      | None => false
      end
  | _ => false
  end.

(** The 256 characters. *)
Definition all_ascii : list ascii := (fun n => ascii_of_nat n) <$> seq 0 256.

(** Two digits of base 16 read as a number that is formatted as the same
    two digits in lower case. *)
Definition hex_pair (x y : ascii) : bool :=
  match System.hexval x, System.hexval y with
  | Some vx, Some vy =>
      match System.int16 (String x (String y EmptyString)),
            System.format_02x (PNum (16 * vx + vy)) with
      | Some v, Ok s =>
          (v =? 16 * vx + vy)
          && String.eqb s (String (System.hexdigit vx)
                             (String (System.hexdigit vy) EmptyString))
      | _, _ => false
      end
  | _, _ => true
  end.

(** The files of a folder whose names [keep] selects. *)
Definition selected (keep : string -> bool) (d : folder) : list dirent :=
  filter (fun e => keep (d_name e) = true) d.

(** The folder without the file of a given name. *)
Definition without (n : string) (d : folder) : folder :=
  filter (fun e => d_name e <> n) d.

(** The limit that [deleteOldest] compares the count of files with. *)
Definition limitOf (threshold : Z) (deleteAll : bool) : Z :=
  if negb deleteAll then threshold else 0.

(** What [deleteOldest] leaves of a folder [d]: files of [d], in their
    order, among them every file that [keep] does not select; of the
    selected ones as many as the limit allows, none of them accessed
    before a file that is gone. *)
Definition trimmed (keep : string -> bool) (limit : Z) (d d' : folder)
  : Prop :=
  sublist d' d
  /\ (forall e, In e d -> keep (d_name e) = false -> In e d')
  /\ Z.of_nat (List.length (selected keep d'))
     = Z.min (Z.of_nat (List.length (selected keep d))) limit
  /\ (forall e e', In e d -> ~ In e d' -> In e' (selected keep d') ->
        d_atime e <= d_atime e').

Definition demoFolder : folder :=
  [mkDirent "001 A.pptx" 5 false; mkDirent "EN" 1 false;
   mkDirent "002 B.pptx" 3 false; mkDirent "003 C.pptx" 3 false;
   mkDirent "~$x.pptx" 0 false; mkDirent "004 D.pptx" 9 false].

(** The same folder with its oldest presentation open. *)
Definition busyFolder : folder :=
  [mkDirent "001 A.pptx" 5 false; mkDirent "002 B.pptx" 3 true;
   mkDirent "004 D.pptx" 9 false].

(** A folder of logs, with a file of another kind. *)
Definition logFolder : folder :=
  [mkDirent "a.log" 4 false; mkDirent "b.log" 2 false;
   mkDirent "notes.txt" 1 true].

(** The items of the recent list as [updateRecentList] fills it when no
    launch is to be accounted for: the recent presentations of the
    temporary folder without their extension, the last accessed
    first. *)
Definition shown (d : folder) : list string :=
  match QWGT_BROWSER.updateRecentList 0 "" None d with
  | Ok (l, _) => l
  | Raise _ => []
  end.

(** A lookup result for hymn 003 of [demoFolder]. *)
Definition recentInfo : HymnInfo.t :=
  HymnInfo.mk "C" "003" "" (PStr "") "EN" "TL"
              (PNum 0) (PNum 0) (PNum 0) (PNum 0) (PNum 0).

(** The entries of the keys [ks] in a document, up to the first that
    cannot be read. *)
Fixpoint entriesOf (S : pyval) (ks : list string) : result (list pyval) :=
  match ks with
  | [] => Ok []
  | k :: r => v ← entryOf S k; l ← entriesOf S r; Ok (v :: l)
  end.

(** A number of seconds that [timedelta] takes. *)
Definition inrange (s : Z) : Prop :=
  -999999999 <= s / 86400 <= 999999999.

(** The strings of a list are pairwise different. *)
Fixpoint distinct (l : list string) : bool :=
  match l with
  | [] => true
  | x :: r => negb (existsb (String.eqb x) r) && distinct r
  end.






(** A row of the table with the texts of two hymns. *)
Definition demoTable : list (list (option string)) :=
  [[Some "001"; Some "TitleA"; Some "2"; Some "1"; Some "a moment ago"];
   [Some "002"; Some "TitleB"; Some "0"; Some "0"; Some ""]].

(** * Properties *)

(** ** Entry names by position *)

Lemma chars_length s : List.length (chars s) = String.length s.
Proof. induction s; simpl; congruence. Qed.

Lemma chars_substring a n s :
  chars (substring a n s) = take n (drop a (chars s)).
Proof.
  revert a n. induction s as [|c s IH]; intros a n.
  - destruct a, n; reflexivity.
  - destruct a as [|a]; simpl.
    + destruct n as [|n]; simpl; [reflexivity|]. f_equal. apply (IH 0%nat n).
    + apply IH.
Qed.

Lemma chars_slice_prefix s k :
  0 <= k -> chars (Py.slice s None (Some k)) = take (Z.to_nat k) (chars s).
Proof.
  intros Hk. unfold Py.slice, Py.norm_index. rewrite chars_substring. simpl.
  assert (H : (k <? 0) = false) by lia. rewrite H, Z.sub_0_r.
  pose proof (chars_length s) as HL.
  change (drop (Z.to_nat 0) (chars s)) with (chars s).
  destruct (Z.leb_spec k (Z.of_nat (String.length s))).
  - f_equal. lia.
  - rewrite !firstn_all2; auto; lia.
Qed.

Lemma chars_slice_range s a b :
  0 <= a <= b ->
  chars (Py.slice s (Some a) (Some b))
  = take (Z.to_nat (b - a)) (drop (Z.to_nat a) (chars s)).
Proof.
  intros Hab. unfold Py.slice, Py.norm_index. rewrite chars_substring.
  assert (Ha : (a <? 0) = false) by lia. assert (Hb : (b <? 0) = false) by lia.
  rewrite Ha, Hb. pose proof (chars_length s) as HL.
  set (len := Z.of_nat (String.length s)).
  destruct (Z.leb_spec a len) as [Hle|Hgt].
  - replace (Z.to_nat (Z.max 0 (Z.min len a))) with (Z.to_nat a) by lia.
    destruct (Z.leb_spec b len).
    + f_equal. lia.
    + rewrite !firstn_all2; auto; rewrite length_drop; lia.
  - rewrite !skipn_all2 by lia. by rewrite !firstn_nil.
Qed.

Lemma chars_slice_title s :
  chars (Py.slice s (Some 7) (Some (-5)))
  = take (List.length (drop 7 (chars s)) - 5) (drop 7 (chars s)).
Proof.
  unfold Py.slice, Py.norm_index. rewrite chars_substring.
  pose proof (chars_length s) as HL. rewrite length_drop.
  set (len := Z.of_nat (String.length s)).
  change (7 <? 0) with false. change (-5 <? 0) with true. cbv iota.
  destruct (Z.leb_spec 7 len) as [Hle|Hgt].
  - replace (Z.to_nat (Z.max 0 (Z.min len 7))) with 7%nat by lia.
    f_equal. lia.
  - rewrite !skipn_all2 by lia. by rewrite !firstn_nil.
Qed.

Lemma append_cons c x y : String c x ++ y = String c (x ++ y).
Proof. reflexivity. Qed.

Lemma append_assoc x y z : (x ++ y) ++ z = x ++ (y ++ z).
Proof.
  induction x as [|c x IH]; [reflexivity|].
  by rewrite !append_cons, IH.
Qed.

Lemma split_nonempty sep s : Py.split sep s <> [].
Proof.
  destruct s as [|c s]; simpl; [discriminate|].
  destruct (Ascii.eqb c sep); [discriminate|].
  destruct (Py.split sep s); discriminate.
Qed.

Lemma split_join sep s : join sep (Py.split sep s) = s.
Proof.
  induction s as [|c s IH]; [reflexivity|]. simpl.
  destruct (Ascii.eqb_spec c sep) as [->|Hne].
  - pose proof (split_nonempty sep s) as Hn.
    destruct (Py.split sep s) as [|h t]; [congruence|].
    change (join sep ("" :: h :: t)) with (String sep (join sep (h :: t))).
    by rewrite IH.
  - pose proof (split_nonempty sep s) as Hn.
    destruct (Py.split sep s) as [|h t]; [congruence|].
    destruct t as [|h' t]; simpl in *; by rewrite <- IH.
Qed.

Lemma split_no_sep sep s x :
  In x (Py.split sep s) -> ~ In sep (chars x).
Proof.
  revert x. induction s as [|c s IH]; intros x; simpl.
  - intros [<-|[]]. simpl. tauto.
  - destruct (Ascii.eqb_spec c sep) as [->|Hne].
    + intros [<-|Hin]; [simpl; tauto|]. by apply IH.
    + pose proof (split_nonempty sep s) as Hn.
      destruct (Py.split sep s) as [|h t]; [congruence|].
      intros [<-|Hin].
      * simpl. intros [Heq|Hin]; [congruence|].
        apply (IH h); [by left|done].
      * apply IH. by right.
Qed.

Lemma join_last sep l e :
  l <> [] -> List.last l "" = e ->
  join sep l = e \/ exists p, join sep l = p ++ String sep e.
Proof.
  induction l as [|x r IH]; [congruence|]. intros _ Hl.
  destruct r as [|y r]; [left; exact Hl|].
  right. destruct IH as [IH|[p IH]]; [discriminate|exact Hl| |].
  - exists x. change (join sep (x :: y :: r)) with (x ++ String sep (join sep (y :: r))).
    by rewrite IH.
  - exists (x ++ String sep p).
    change (join sep (x :: y :: r)) with (x ++ String sep (join sep (y :: r))).
    by rewrite IH, append_assoc.
Qed.

Lemma last_In (l : list string) : l <> [] -> In (List.last l "") l.
Proof.
  induction l as [|x r IH]; [congruence|]. intros _.
  destruct r as [|y r]; [by left|]. right. apply IH. discriminate.
Qed.

Lemma all_chars_forallb p s : Py.all_chars p s = forallb p (chars s).
Proof.
  unfold chars. induction s as [|a s IH]; simpl; [reflexivity|].
  by rewrite IH.
Qed.

Lemma isdigit_chars_eq s : Py.isdigit s = isdigit_chars (chars s).
Proof.
  destruct s as [|c s]; [reflexivity|]. unfold Py.isdigit.
  by rewrite all_chars_forallb.
Qed.

Lemma string_of_chars s : string_of_list_ascii (chars s) = s.
Proof. apply string_of_list_ascii_of_string. Qed.

(** Claim C8. [splitHymn] cuts every entry name by position: the category
    is its first two characters; the number is its characters 4 to 6 when
    these are digits (and at least one), else the number 0; the title is
    what follows the seventh character, less the last five characters;
    the extension holds no dot and is what follows the last dot of the
    name, or the whole name when it has no dot. *)
Theorem splitHymn_positional (f : string) :
  let h := HymnsDatabase.splitHymn f in
  let l := chars f in
  chars (HYMN.cat h) = take 2 l
  /\ HYMN.num h = (if isdigit_chars (take 3 (drop 3 l))
                   then PStr (string_of_list_ascii (take 3 (drop 3 l)))
                   else PNum 0)
  /\ chars (HYMN.title h)
     = take (List.length (drop 7 l) - 5) (drop 7 l)
  /\ ~ In "."%char (chars (HYMN.ext h))
  /\ (HYMN.ext h = f \/ exists p, f = p ++ String "." (HYMN.ext h)).
Proof.
  simpl. repeat split.
  - by rewrite chars_slice_prefix.
  - rewrite isdigit_chars_eq, chars_slice_range by lia.
    change (Z.to_nat (6 - 3)) with 3%nat. change (Z.to_nat 3) with 3%nat.
    destruct (isdigit_chars _) eqn:E; [|reflexivity].
    f_equal. rewrite <- (string_of_chars (Py.slice f (Some 3) (Some 6))).
    by rewrite chars_slice_range by lia.
  - apply chars_slice_title.
  - apply (split_no_sep "." f). apply last_In, split_nonempty.
  - unfold Py.last_item.
    destruct (join_last "." (Py.split "." f) _ (split_nonempty _ _) eq_refl)
      as [H|[p H]]; rewrite split_join in H; [left|right; exists p]; done.
Qed.

(** ** The catalogue: numbers seen, filed and missing *)

Lemma bind_Ok {A B} (c : result A) (k : A -> result B) b :
  c ≫= k = Ok b -> exists a, c = Ok a /\ k a = Ok b.
Proof. destruct c as [a|e]; [by exists a|discriminate]. Qed.

Lemma contains_In l s : Py.contains l s = true <-> In (PStr s) l.
Proof.
  unfold Py.contains. rewrite existsb_exists. split.
  - intros (v & Hin & Heq). destruct v; try discriminate.
    simpl in Heq. apply String.eqb_eq in Heq. by subst.
  - intros Hin. exists (PStr s). split; [done|]. simpl. apply String.eqb_refl.
Qed.

Lemma contains_app l1 l2 s :
  Py.contains (l1 ++ l2) s = Py.contains l1 s || Py.contains l2 s.
Proof. unfold Py.contains. apply existsb_app. Qed.

Lemma existsb_eqb_In s (l : list string) :
  existsb (String.eqb s) l = true <-> In s l.
Proof.
  rewrite existsb_exists. split.
  - intros (x & Hin & Heq). apply String.eqb_eq in Heq. by subst.
  - intros Hin. exists s. split; [done|apply String.eqb_refl].
Qed.

Lemma filed_seen_mono tbls nums v :
  filed_seen tbls nums -> filed_seen tbls (nums ++ [v]).
Proof. intros H i t w Hl Hin. apply in_or_app. left. eauto. Qed.

Lemma append_entry_filed_seen i spH tbls nums :
  filed_seen tbls nums ->
  filed_seen (HymnsDatabase.append_entry i spH tbls) (nums ++ [HYMN.num spH]).
Proof.
  intros H k t v Hl Hin. unfold HymnsDatabase.append_entry in Hl.
  rewrite list_lookup_alter in Hl. case_decide as Hik.
  - apply fmap_Some in Hl as (t0 & Ht0 & ->). simpl in Hin.
    apply in_app_or in Hin as [Hin|Hin]; apply in_or_app; [left|right]; eauto.
  - apply in_or_app. left. eauto.
Qed.

Lemma scanCats_filed_seen rounds FILE spH tbls tbls' nums :
  filed_seen tbls nums ->
  HymnsDatabase.scanCats rounds FILE spH tbls = Ok tbls' ->
  filed_seen tbls' (nums ++ [HYMN.num spH]).
Proof.
  intros Hinv. induction rounds as [|i rest IH]; simpl.
  - intros [= <-]. by apply filed_seen_mono.
  - destruct (_ && _).
    + intros [= <-]. by apply append_entry_filed_seen.
    + destruct (negb _); [|exact IH].
      destruct (Py.last_char FILE); [exact IH|discriminate].
Qed.

Lemma scanFiles_cons FILE rest st :
  HymnsDatabase.scanFiles (FILE :: rest) st
  = HymnsDatabase.scanCats [0; 1; 2]%nat FILE
      (HymnsDatabase.splitHymn FILE) (HymnsDatabase.tables st)
    ≫= fun tbls =>
      HymnsDatabase.scanFiles rest
        (HymnsDatabase.mkScan tbls
           (HymnsDatabase.hNums st
            ++ [HYMN.num (HymnsDatabase.splitHymn FILE)])%list).
Proof. reflexivity. Qed.

Lemma scanFiles_spec FNS st st' :
  filed_seen (HymnsDatabase.tables st) (HymnsDatabase.hNums st) ->
  HymnsDatabase.scanFiles FNS st = Ok st' ->
  filed_seen (HymnsDatabase.tables st') (HymnsDatabase.hNums st')
  /\ HymnsDatabase.hNums st' = (HymnsDatabase.hNums st ++ seenNumbers FNS)%list.
Proof.
  revert st. induction FNS as [|FILE rest IH]; intros st Hinv.
  - simpl. intros [= <-]. split; [done|]. by rewrite app_nil_r.
  - rewrite scanFiles_cons.
    intros Hrun. apply bind_Ok in Hrun as (tbls & Hcats & Hrest).
    apply IH in Hrest as [Hinv' Hnums].
    + split; [done|]. rewrite Hnums. simpl. by rewrite <- app_assoc.
    + exact (scanCats_filed_seen _ _ _ _ _ _ Hinv Hcats).
Qed.

Lemma missingOf_In nums s :
  In s (HymnsDatabase.missingOf nums) <->
  exists i, In i (range HymnsDatabase.TOTAL_HYMNS)
            /\ s = KString.toDigits (i + 1) 3 /\ Py.contains nums s = false.
Proof.
  unfold HymnsDatabase.missingOf.
  rewrite <- list_elem_of_In, list_elem_of_omap. split.
  - intros (i & Hi & Hs). apply list_elem_of_In in Hi. exists i.
    destruct (Py.contains nums _) eqn:E; [discriminate|].
    injection Hs as <-. done.
  - intros (i & Hi & -> & Hc). exists i. split; [by apply list_elem_of_In|].
    by rewrite Hc.
Qed.

Lemma range_In n i : In i (range n) <-> 0 <= i < n.
Proof.
  unfold range. rewrite <- list_elem_of_In, list_elem_of_fmap. split.
  - intros (k & -> & Hk). apply list_elem_of_In, in_seq in Hk. lia.
  - intros Hi. exists (Z.to_nat i). split; [lia|].
    apply list_elem_of_In, in_seq. lia.
Qed.

(** What [parseHymnDatabase] records as missing, and what it files. *)
Lemma parse_missing_spec FNS H n :
  HymnsDatabase.parseHymnDatabase FNS = Ok H ->
  1 <= n <= SYS.HYMNS_MAX ->
  (In (KString.toDigits n 3) (MISSING.list (HYMNAL.MISSING H))
   <-> Py.contains (seenNumbers FNS) (KString.toDigits n 3) = false)
  /\ (inCategory H (KString.toDigits n 3) = true ->
      Py.contains (seenNumbers FNS) (KString.toDigits n 3) = true).
Proof.
  intros Hparse Hn. unfold HymnsDatabase.parseHymnDatabase in Hparse.
  apply bind_Ok in Hparse as (st & Hscan & Hparse).
  apply bind_Ok in Hparse as (l0 & _ & Hparse).
  apply bind_Ok in Hparse as (l1 & _ & Hparse).
  apply bind_Ok in Hparse as (l2 & _ & Hparse).
  injection Hparse as <-.
  assert (Hinit : filed_seen [([], []); ([], []); ([], [])] []).
  { intros i t v Hl Hin. destruct i as [|[|[|i]]]; simpl in Hl;
      try discriminate; injection Hl as <-; destruct Hin. }
  destruct (scanFiles_spec FNS (HymnsDatabase.mkScan _ _) st Hinit Hscan)
    as [Hinv Hnums].
  simpl in Hnums. rewrite <- Hnums.
  cbn [MISSING.list HYMNAL.MISSING]. split.
  - rewrite missingOf_In. split.
    + intros (i & _ & Heq & Hc). exact Hc.
    + intros Hc. exists (n - 1). rewrite range_In.
      replace (n - 1 + 1) with n by lia.
      unfold HymnsDatabase.TOTAL_HYMNS. repeat split; [lia|lia|done].
  - unfold inCategory. cbn [HYMNAL.EN HYMNAL.TL HYMNAL.US]. rewrite !orb_true_iff, !contains_In.
    assert (Hnth : forall i v,
      In v (nth i (HymnsDatabase.tables st) ([], [])).1 ->
      In v (HymnsDatabase.hNums st)).
    { intros i v Hin. rewrite nth_lookup in Hin.
      destruct (HymnsDatabase.tables st !! i) as [t|] eqn:E; [|destruct Hin].
      eapply Hinv; eauto. }
    intros [[Hin|Hin]|Hin]; eapply Hnth; eauto.
Qed.

(** Claim C3, as the code has it. In the catalogue built from any archive
    listing, a number of [1..474] is in the missing list exactly when no
    entry of the archive carries it, filed under a category or not; a
    number filed under a category is carried by an entry, so it is never
    also missing. *)
Theorem missing_iff_unseen FNS H n :
  HymnsDatabase.parseHymnDatabase FNS = Ok H ->
  1 <= n <= SYS.HYMNS_MAX ->
  (In (KString.toDigits n 3) (MISSING.list (HYMNAL.MISSING H))
   <-> Py.contains (seenNumbers FNS) (KString.toDigits n 3) = false)
  /\ (inCategory H (KString.toDigits n 3) = true ->
      Py.contains (seenNumbers FNS) (KString.toDigits n 3) = true).
Proof. intros Hparse Hn. exact (parse_missing_spec FNS H n Hparse Hn). Qed.

Lemma missing_iff_unseen_witness :
  (In (KString.toDigits 1 3)
      (MISSING.list (HYMNAL.MISSING (catalogueOf demoArchive)))
   <-> Py.contains (seenNumbers demoArchive) (KString.toDigits 1 3) = false)
  /\ (inCategory (catalogueOf demoArchive) (KString.toDigits 1 3) = true ->
      Py.contains (seenNumbers demoArchive) (KString.toDigits 1 3) = true).
Proof.
  apply (missing_iff_unseen demoArchive (catalogueOf demoArchive) 1).
  - vm_compute. reflexivity.
  - unfold SYS.HYMNS_MAX. lia.
Defined.

(** The archive with the one entry [EN 005 Lost.txt]: number 005 is
    filed under no category and is not in the missing list either. *)
Lemma partition_refuted :
  exists H,
    HymnsDatabase.parseHymnDatabase strayArchive = Ok H
    /\ 1 <= 5 <= SYS.HYMNS_MAX
    /\ inCategory H (KString.toDigits 5 3) = false
    /\ ~ In (KString.toDigits 5 3) (MISSING.list (HYMNAL.MISSING H)).
Proof.
  eexists. split; [vm_compute; reflexivity|].
  split; [unfold SYS.HYMNS_MAX; lia|].
  split; [vm_compute; reflexivity|].
  intros Hin. apply existsb_eqb_In in Hin. vm_compute in Hin. discriminate.
Qed.

(** ** The loops of [getStats] *)

Lemma title_loop H n :
  while 2 (HymnsDatabase.titleBody H n) (0, 0)%nat = Some (titleOf H n).
Proof.
  unfold titleOf, lookupTitle. simpl.
  destruct (Py.index (HYMNAL.EN H).1 _ ≫= _); [reflexivity|]. simpl.
  by destruct (Py.index (HYMNAL.TL H).1 _ ≫= _).
Qed.

Lemma equiv_loop H hN n :
  while 2 (HymnsDatabase.equivBody H hN n) (0, 0)%nat = Some (equivOf H hN n).
Proof.
  unfold equivOf, equivalentIn. simpl.
  destruct (Py.contains (HYMNAL.EN H).1 hN).
  - destruct (Py.index _ _) as [idx|]; [|reflexivity].
    by destruct ((HYMNAL.TL H).2 !! idx), ((HYMNAL.TL H).1 !! idx).
  - simpl. destruct (Py.contains (HYMNAL.TL H).1 hN); [|reflexivity].
    replace (n + -1) with (n - 1) by lia.
    destruct (Py.index _ _) as [idx|]; [|reflexivity].
    by destruct ((HYMNAL.EN H).2 !! idx), ((HYMNAL.EN H).1 !! idx).
Qed.

Lemma canonical_range : forallb canonical (range 1000) = true.
Proof. vm_compute. reflexivity. Qed.

Lemma toDigits_canonical n :
  0 <= n < 1000 ->
  KString.toDigits_str (KString.toDigits n 3) 3 = KString.toDigits n 3
  /\ KString.filterOnly 0 (KString.toDigits n 3) = ""
  /\ Py.int (KString.toDigits n 3) = Some n.
Proof.
  intros Hn. pose proof canonical_range as H.
  rewrite forallb_forall in H. specialize (H n).
  rewrite range_In in H. specialize (H Hn). unfold canonical in H.
  apply andb_prop in H as [H H3]. apply andb_prop in H as [H1 H2].
  apply String.eqb_eq in H1, H2.
  destruct (Py.int _) as [m|]; [|discriminate].
  apply Z.eqb_eq in H3. by subst.
Qed.

Lemma index_Some l s idx :
  Py.index l s = Some idx -> l !! idx = Some (PStr s).
Proof.
  revert idx. induction l as [|v l IH]; intros idx; simpl; [discriminate|].
  destruct (Py.eq_str v s) eqn:E.
  - intros [= <-]. destruct v; try discriminate. simpl in E.
    apply String.eqb_eq in E. by subst.
  - destruct (Py.index l s) as [k|]; [|discriminate].
    intros [= <-]. simpl. by apply IH.
Qed.

Lemma index_None l s : Py.index l s = None <-> Py.contains l s = false.
Proof.
  induction l as [|v l IH]; simpl; [done|].
  destruct (Py.eq_str v s); simpl; [split; discriminate|].
  rewrite <- IH. destruct (Py.index l s); simpl; split; congruence.
Qed.

(** [getStats] past its guards, without the loops. *)
Lemma getStats_found nt H S now n :
  1 <= n <= SYS.HYMNS_MAX ->
  ~ In (KString.toDigits n 3) (MISSING.list (HYMNAL.MISSING H)) ->
  HymnsDatabase.getStats nt H S now (KString.toDigits n 3)
  = Some
      match equivOf H (KString.toDigits n 3) n with
      | Raise e => (Raise e, false)
      | Ok (i, idx, DATA2, DATA3) =>
          match HymnsDatabase.readStats S n (KString.toDigits n 3) with
          | Raise e => (Raise e, false)
          | Ok (DATA7, DATA8, DATA9) =>
              match Py.rsub now DATA9 with
              | Raise e => (Raise e, negb (String.eqb (titleOf H n) ""))
              | Ok d =>
                  (Ok (Some (HymnInfo.mk (titleOf H n) (KString.toDigits n 3)
                               DATA2 DATA3
                               (if (i =? 0)%nat then "EN" else "TL")
                               (if (i =? 0)%nat then "TL" else "EN")
                               (PNum (Z.of_nat idx)) DATA7 DATA8 DATA9
                               (PStr (nt d)))),
                   negb (String.eqb (titleOf H n) ""))
              end
          end
      end.
Proof.
  intros Hn Hmiss. unfold HymnsDatabase.getStats, SYS.HYMNS_MAX in *.
  destruct (toDigits_canonical n) as (-> & -> & ->); [lia|].
  change (negb (String.length "" =? 0)%nat) with false. cbv iota.
  assert (Hgt : (n >? 474) = false) by lia.
  assert (Hle : (n <=? 0) = false) by lia.
  rewrite Hgt, Hle.
  destruct (existsb _ _) eqn:E.
  { apply existsb_eqb_In in E. contradiction. }
  cbn [orb]. cbv iota.
  rewrite title_loop, equiv_loop. reflexivity.
Qed.

(** ** Categories hold a title for every number *)

Lemma append_entry_aligned i spH tbls :
  aligned tbls -> aligned (HymnsDatabase.append_entry i spH tbls).
Proof.
  intros H k t Hl. unfold HymnsDatabase.append_entry in Hl.
  rewrite list_lookup_alter in Hl. case_decide as Hik; [|eauto].
  apply fmap_Some in Hl as (t0 & Ht0 & ->). simpl.
  rewrite !length_app. simpl. by rewrite (H _ _ Ht0).
Qed.

Lemma scanCats_aligned rounds FILE spH tbls tbls' :
  aligned tbls ->
  HymnsDatabase.scanCats rounds FILE spH tbls = Ok tbls' -> aligned tbls'.
Proof.
  intros Hinv. induction rounds as [|i rest IH]; simpl.
  - by intros [= <-].
  - destruct (_ && _).
    + intros [= <-]. by apply append_entry_aligned.
    + destruct (negb _); [|exact IH].
      destruct (Py.last_char FILE); [exact IH|discriminate].
Qed.

Lemma scanFiles_aligned FNS st st' :
  aligned (HymnsDatabase.tables st) ->
  HymnsDatabase.scanFiles FNS st = Ok st' ->
  aligned (HymnsDatabase.tables st').
Proof.
  revert st. induction FNS as [|FILE rest IH]; intros st Hinv.
  - simpl. by intros [= <-].
  - rewrite scanFiles_cons. intros Hrun.
    apply bind_Ok in Hrun as (tbls & Hcats & Hrest).
    apply IH in Hrest; [done|]. exact (scanCats_aligned _ _ _ _ _ Hinv Hcats).
Qed.

Lemma parse_parallel FNS H :
  HymnsDatabase.parseHymnDatabase FNS = Ok H -> parallel H.
Proof.
  intros Hparse. unfold HymnsDatabase.parseHymnDatabase in Hparse.
  apply bind_Ok in Hparse as (st & Hscan & Hparse).
  apply bind_Ok in Hparse as (l0 & _ & Hparse).
  apply bind_Ok in Hparse as (l1 & _ & Hparse).
  apply bind_Ok in Hparse as (l2 & _ & Hparse).
  injection Hparse as <-.
  assert (Hinit : aligned [([], []); ([], []); ([], [])]).
  { intros i t Hl. destruct i as [|[|[|i]]]; simpl in Hl;
      try discriminate; by injection Hl as <-. }
  pose proof (scanFiles_aligned FNS (HymnsDatabase.mkScan _ _) st Hinit Hscan)
    as Hal.
  assert (Hnth : forall i,
    List.length (nth i (HymnsDatabase.tables st) ([], [])).1
    = List.length (nth i (HymnsDatabase.tables st) ([], [])).2).
  { intros i. rewrite nth_lookup.
    destruct (HymnsDatabase.tables st !! i) as [t|] eqn:E; [|reflexivity].
    simpl. eauto. }
  intros [|[|i]]; apply Hnth.
Qed.

Lemma equivalentIn_parallel H i key :
  parallel H ->
  equivalentIn H i key
  = match Py.index (HYMNAL.item H (invert i)).1 key with
    | None => Ok (i, 0%nat, "", PStr "")
    | Some idx =>
        Ok (i, idx, default "" ((HYMNAL.item H (invert i)).2 !! idx), PStr key)
    end.
Proof.
  intros Hpar. unfold equivalentIn.
  destruct (Py.index _ key) as [idx|] eqn:E; [|reflexivity].
  pose proof (index_Some _ _ _ E) as Hnum. rewrite Hnum.
  destruct ((HYMNAL.item H (invert i)).2 !! idx) as [t|] eqn:Et; [reflexivity|].
  apply lookup_ge_None in Et. apply lookup_lt_Some in Hnum.
  rewrite (Hpar (invert i)) in Hnum. lia.
Qed.

(** ** The equivalent hymn *)

Lemma parse_filed_seen FNS H :
  HymnsDatabase.parseHymnDatabase FNS = Ok H ->
  forall n, 1 <= n <= SYS.HYMNS_MAX ->
  inCategory H (KString.toDigits n 3) = true ->
  ~ In (KString.toDigits n 3) (MISSING.list (HYMNAL.MISSING H)).
Proof.
  intros Hparse n Hn Hcat Hmiss.
  destruct (parse_missing_spec FNS H n Hparse Hn) as [H1 H2].
  apply H1 in Hmiss. apply H2 in Hcat. congruence.
Qed.

(** Claim C1, as the code has it. For a hymn of [1..474] in a catalogue
    built from an archive, with well-formed statistics: when the number is
    in the first category (EN), the equivalent is looked up in the second
    (TL) under the number plus one; when it is in the second only, the
    equivalent is looked up in the first under the number minus one. The
    target is the padded 3-digit text; when the other category has it,
    its number, title and index are reported, else the equivalent fields
    stay empty. *)
Theorem equivalent_by_offset nt FNS H S now n q l t :
  HymnsDatabase.parseHymnDatabase FNS = Ok H ->
  1 <= n <= SYS.HYMNS_MAX ->
  HymnsDatabase.readStats S n (KString.toDigits n 3) = Ok (q, l, PNum t) ->
  (Py.contains (HYMNAL.EN H).1 (KString.toDigits n 3) = true ->
   exists h ready,
     HymnsDatabase.getStats nt H S now (KString.toDigits n 3)
     = Some (Ok (Some h), ready)
     /\ HymnInfo.cat h = "EN" /\ HymnInfo.eqCat h = "TL"
     /\ match Py.index (HYMNAL.TL H).1 (KString.toDigits (n + 1) 3) with
        | Some idx =>
            HymnInfo.eqNum h = PStr (KString.toDigits (n + 1) 3)
            /\ (HYMNAL.TL H).2 !! idx = Some (HymnInfo.eqTitle h)
            /\ HymnInfo.dbIndex h = PNum (Z.of_nat idx)
        | None => HymnInfo.eqNum h = PStr "" /\ HymnInfo.eqTitle h = ""
        end)
  /\ (Py.contains (HYMNAL.EN H).1 (KString.toDigits n 3) = false ->
      Py.contains (HYMNAL.TL H).1 (KString.toDigits n 3) = true ->
      exists h ready,
        HymnsDatabase.getStats nt H S now (KString.toDigits n 3)
        = Some (Ok (Some h), ready)
        /\ HymnInfo.cat h = "TL" /\ HymnInfo.eqCat h = "EN"
        /\ match Py.index (HYMNAL.EN H).1 (KString.toDigits (n - 1) 3) with
           | Some idx =>
               HymnInfo.eqNum h = PStr (KString.toDigits (n - 1) 3)
               /\ (HYMNAL.EN H).2 !! idx = Some (HymnInfo.eqTitle h)
               /\ HymnInfo.dbIndex h = PNum (Z.of_nat idx)
           | None => HymnInfo.eqNum h = PStr "" /\ HymnInfo.eqTitle h = ""
           end).
Proof.
  intros Hparse Hn Hstats.
  pose proof (parse_parallel _ _ Hparse) as Hpar.
  split.
  - intros Hen.
    assert (Hmiss : ~ In (KString.toDigits n 3) (MISSING.list (HYMNAL.MISSING H))).
    { apply (parse_filed_seen FNS H Hparse n Hn). unfold inCategory.
      by rewrite Hen. }
    rewrite (getStats_found nt H S now n Hn Hmiss), Hstats.
    unfold equivOf. rewrite Hen, equivalentIn_parallel by done.
    cbn [invert HYMNAL.item Py.rsub].
    destruct (Py.index (HYMNAL.TL H).1 _) as [idx|] eqn:E.
    + eexists _, _. split; [reflexivity|]. cbn. repeat split.
      pose proof (index_Some _ _ _ E) as Hnum.
      apply lookup_lt_Some in Hnum. pose proof (Hpar 1%nat) as Hp.
      cbn [HYMNAL.item] in Hp. rewrite Hp in Hnum.
      apply lookup_lt_is_Some in Hnum as [x Hx]. by rewrite Hx.
    + eexists _, _. split; [reflexivity|]. by cbn.
  - intros Hen Htl.
    assert (Hmiss : ~ In (KString.toDigits n 3) (MISSING.list (HYMNAL.MISSING H))).
    { apply (parse_filed_seen FNS H Hparse n Hn). unfold inCategory.
      rewrite Htl. by rewrite orb_true_r. }
    rewrite (getStats_found nt H S now n Hn Hmiss), Hstats.
    unfold equivOf. rewrite Hen, Htl, equivalentIn_parallel by done.
    cbn [invert HYMNAL.item Py.rsub].
    destruct (Py.index (HYMNAL.EN H).1 _) as [idx|] eqn:E.
    + eexists _, _. split; [reflexivity|]. cbn. repeat split.
      pose proof (index_Some _ _ _ E) as Hnum.
      apply lookup_lt_Some in Hnum. pose proof (Hpar 0%nat) as Hp.
      cbn [HYMNAL.item] in Hp. rewrite Hp in Hnum.
      apply lookup_lt_is_Some in Hnum as [x Hx]. by rewrite Hx.
    + eexists _, _. split; [reflexivity|]. by cbn.
Qed.

Lemma equivalent_by_offset_witness :
  exists h ready,
    HymnsDatabase.getStats demoTime (catalogueOf demoArchive) demoStats 0
      (KString.toDigits 1 3)
    = Some (Ok (Some h), ready)
    /\ HymnInfo.cat h = "EN" /\ HymnInfo.eqCat h = "TL"
    /\ match Py.index (HYMNAL.TL (catalogueOf demoArchive)).1
                      (KString.toDigits (1 + 1) 3) with
       | Some idx =>
           HymnInfo.eqNum h = PStr (KString.toDigits (1 + 1) 3)
           /\ (HYMNAL.TL (catalogueOf demoArchive)).2 !! idx
              = Some (HymnInfo.eqTitle h)
           /\ HymnInfo.dbIndex h = PNum (Z.of_nat idx)
       | None => HymnInfo.eqNum h = PStr "" /\ HymnInfo.eqTitle h = ""
       end.
Proof.
  refine (proj1 (equivalent_by_offset demoTime demoArchive
                   (catalogueOf demoArchive) demoStats 0 1
                   (PNum 0) (PNum 0) 0 _ _ _) _).
  - vm_compute. reflexivity.
  - unfold SYS.HYMNS_MAX. lia.
  - vm_compute. reflexivity.
  - vm_compute. reflexivity.
Defined.

(** Hymn 001 of the archive [EN 001 TitleA.pptx], [TL 002 TitleB.pptx] is
    found in the first category, and its equivalent number is 002, not
    000. *)
Lemma offset_refuted :
  exists H h,
    HymnsDatabase.parseHymnDatabase demoArchive = Ok H
    /\ Py.contains (HYMNAL.EN H).1 (KString.toDigits 1 3) = true
    /\ HymnsDatabase.getStats demoTime H demoStats 0 (KString.toDigits 1 3)
       = Some (Ok (Some h), true)
    /\ HymnInfo.eqNum h = PStr "002"
    /\ HymnInfo.eqNum h <> PStr (KString.toDigits (1 - 1) 3).
Proof.
  eexists _, _. split; [vm_compute; reflexivity|].
  split; [vm_compute; reflexivity|].
  split; [vm_compute; reflexivity|].
  split; [reflexivity|]. vm_compute. discriminate.
Qed.

(** ** Lookups on a catalogue *)

(** Claim C2. In the catalogue of the archive [EN 001 TitleA.pptx],
    [TL 002 TitleB.pptx], hymn 001 resolves to category EN, equivalent
    category TL, equivalent number 002 and equivalent title TitleB. *)
Theorem demo_resolve nt H S now q l t :
  HymnsDatabase.parseHymnDatabase demoArchive = Ok H ->
  HymnsDatabase.readStats S 1 "001" = Ok (q, l, PNum t) ->
  HymnsDatabase.getStats nt H S now "001"
  = Some (Ok (Some (HymnInfo.mk "TitleA" "001" "TitleB" (PStr "002") "EN" "TL"
                      (PNum 0) q l (PNum t) (PStr (nt (now - t))))),
          true).
Proof.
  intros Hparse Hstats.
  assert (HH : Ok H = HymnsDatabase.parseHymnDatabase demoArchive) by done.
  vm_compute in HH. injection HH as ->.
  change "001" with (KString.toDigits 1 3).
  rewrite getStats_found.
  - change (KString.toDigits 1 3) with "001". rewrite Hstats.
    reflexivity.
  - unfold SYS.HYMNS_MAX. lia.
  - rewrite <- existsb_eqb_In. vm_compute. discriminate.
Qed.

Lemma demo_resolve_witness :
  HymnsDatabase.getStats demoTime (catalogueOf demoArchive) demoStats 50 "001"
  = Some (Ok (Some (HymnInfo.mk "TitleA" "001" "TitleB" (PStr "002") "EN" "TL"
                      (PNum 0) (PNum 0) (PNum 0) (PNum 0)
                      (PStr (demoTime (50 - 0))))),
          true).
Proof.
  apply (demo_resolve demoTime (catalogueOf demoArchive) demoStats 50
           (PNum 0) (PNum 0) 0).
  - vm_compute. reflexivity.
  - vm_compute. reflexivity.
Defined.

(** Claim C9, as the code has it. A hymn of [1..474] that is not in the
    missing list and in neither of the categories EN and TL comes back
    without an exception and with the readiness flag down: title,
    equivalent title and equivalent number are empty, but the category
    reads TL, the equivalent category EN, the index 0, and the three
    statistics are those stored for the number. *)
Theorem absent_from_both nt H S now n q l t :
  1 <= n <= SYS.HYMNS_MAX ->
  ~ In (KString.toDigits n 3) (MISSING.list (HYMNAL.MISSING H)) ->
  Py.contains (HYMNAL.EN H).1 (KString.toDigits n 3) = false ->
  Py.contains (HYMNAL.TL H).1 (KString.toDigits n 3) = false ->
  HymnsDatabase.readStats S n (KString.toDigits n 3) = Ok (q, l, PNum t) ->
  HymnsDatabase.getStats nt H S now (KString.toDigits n 3)
  = Some (Ok (Some (HymnInfo.mk "" (KString.toDigits n 3) "" (PStr "")
                      "TL" "EN" (PNum 0) q l (PNum t)
                      (PStr (nt (now - t))))),
          false).
Proof.
  intros Hn Hmiss Hen Htl Hstats.
  rewrite (getStats_found nt H S now n Hn Hmiss), Hstats.
  unfold equivOf, titleOf, lookupTitle. rewrite Hen, Htl.
  apply index_None in Hen, Htl. rewrite Hen, Htl. reflexivity.
Qed.

Lemma absent_from_both_witness :
  HymnsDatabase.getStats demoTime (catalogueOf userArchive) demoStats 9
    (KString.toDigits 5 3)
  = Some (Ok (Some (HymnInfo.mk "" (KString.toDigits 5 3) "" (PStr "")
                      "TL" "EN" (PNum 0) (PNum 0) (PNum 0) (PNum 0)
                      (PStr (demoTime (9 - 0))))),
          false).
Proof.
  apply (absent_from_both demoTime (catalogueOf userArchive) demoStats 9 5
           (PNum 0) (PNum 0) 0).
  - unfold SYS.HYMNS_MAX. lia.
  - intros Hin. apply existsb_eqb_In in Hin. vm_compute in Hin. discriminate.
  - vm_compute. reflexivity.
  - vm_compute. reflexivity.
  - vm_compute. reflexivity.
Defined.

(** Hymn 005 of the archive with the one entry [US 005 Mine.pptx] is not
    missing and in neither EN nor TL; what comes back is not the
    placeholder: its category reads TL and its equivalent category EN. *)
Lemma placeholder_refuted :
  exists H h,
    HymnsDatabase.parseHymnDatabase userArchive = Ok H
    /\ ~ In (KString.toDigits 5 3) (MISSING.list (HYMNAL.MISSING H))
    /\ Py.contains (HYMNAL.EN H).1 (KString.toDigits 5 3) = false
    /\ Py.contains (HYMNAL.TL H).1 (KString.toDigits 5 3) = false
    /\ HymnsDatabase.getStats demoTime H demoStats 0 (KString.toDigits 5 3)
       = Some (Ok (Some h), false)
    /\ HymnInfo.cat h = "TL" /\ HymnInfo.eqCat h = "EN"
    /\ HymnInfo.dbIndex h = PNum 0
    /\ h <> HymnsDatabase.placeholder (KString.toDigits 5 3).
Proof.
  eexists _, _. split; [vm_compute; reflexivity|].
  split.
  { intros Hin. apply existsb_eqb_In in Hin. vm_compute in Hin. discriminate. }
  split; [vm_compute; reflexivity|].
  split; [vm_compute; reflexivity|].
  split; [vm_compute; reflexivity|].
  repeat split. vm_compute. discriminate.
Qed.



(** ** The statistics document *)

Lemma for_each_Ok {A} (l : list A) body :
  for_each l body = Ok tt <-> forall x, In x l -> body x = Ok tt.
Proof.
  induction l as [|x l IH]; simpl.
  - split; [intros _ x []|done].
  - split.
    + intros Hrun. apply bind_Ok in Hrun as ([] & Hx & Hrest).
      intros y [<-|Hin]; [done|]. by apply IH.
    + intros Hall. rewrite (Hall x) by by left. simpl. apply IH.
      intros y Hin. apply Hall. by right.
Qed.

Lemma probeEntry_alt doc key :
  Data.probeEntry doc key
  = (_ ← entryOf doc key;
     for_each [0; 1; 2]%nat (fun j =>
       _ ← (entryOf doc key ≫= fun e => Py.getitem_nat e j); Ok tt)).
Proof.
  unfold Data.probeEntry, entryOf.
  by destruct (Py.getitem_str doc "DATA").
Qed.

Lemma probeEntry_three doc key a b c rest :
  entryOf doc key = Ok (PList (a :: b :: c :: rest)) ->
  Data.probeEntry doc key = Ok tt.
Proof.
  intros He. rewrite probeEntry_alt, He. reflexivity.
Qed.

Lemma probeEntry_entryOf doc doc' key :
  entryOf doc' key = entryOf doc key ->
  Data.probeEntry doc' key = Data.probeEntry doc key.
Proof. intros He. by rewrite !probeEntry_alt, He. Qed.

Lemma updateData_Ok S k ARRAY S' :
  updateData S k ARRAY = Ok S' ->
  exists m d, S = PDict m /\ m !! "DATA" = Some (PDict d)
              /\ S' = PDict (<["DATA" := PDict (<[k := ARRAY]> d)]> m).
Proof.
  unfold updateData. destruct S as [| | | | |m]; try discriminate.
  destruct (m !! "DATA") as [[| | | | |d]|] eqn:E; try discriminate.
  intros [= <-]. by exists m, d.
Qed.

Lemma entryOf_update m d k ARRAY key :
  m !! "DATA" = Some (PDict d) ->
  entryOf (PDict (<["DATA" := PDict (<[k := ARRAY]> d)]> m)) key
  = if decide (k = key) then Ok ARRAY else entryOf (PDict m) key.
Proof.
  intros Hm. unfold entryOf. simpl. rewrite lookup_insert_eq, Hm. simpl.
  rewrite lookup_insert. by case_decide.
Qed.

(** A document that passes the probe still passes it once an entry has
    been replaced by a list of three values. *)
Lemma probe_update S k a b c S' :
  Data.probe S = Ok tt ->
  updateData S k (PList [a; b; c]) = Ok S' ->
  Data.probe S' = Ok tt.
Proof.
  intros Hp Hu. apply updateData_Ok in Hu as (m & d & -> & Hm & ->).
  unfold Data.probe in *. rewrite for_each_Ok in *. intros i Hi.
  specialize (Hp i Hi).
  destruct (decide (k = KString.toDigits (i + 1) 3)) as [Hk|Hk].
  - eapply probeEntry_three. rewrite entryOf_update by done.
    by rewrite decide_True.
  - rewrite <- Hp. apply probeEntry_entryOf. rewrite entryOf_update by done.
    by rewrite decide_False.
Qed.

Lemma header_update S k ARRAY S' key :
  key <> "DATA" ->
  updateData S k ARRAY = Ok S' ->
  Py.getitem_str S' key = Py.getitem_str S key.
Proof.
  intros Hk Hu. apply updateData_Ok in Hu as (m & d & -> & Hm & ->).
  simpl. by rewrite lookup_insert_ne.
Qed.

Section Documents.
Variable md5 : pyval -> string.

Lemma probe_default now : Data.probe (Data.defaultDocument md5 now) = Ok tt.
Proof. vm_compute. reflexivity. Qed.

Lemma check_accepts now doc :
  Data.probe doc = Ok tt ->
  Data.check md5 now (Stored doc) = Some (Ok doc, Stored doc).
Proof.
  intros Hp. unfold Data.check, Data.verifyContents, Data.load. simpl.
  by rewrite Hp.
Qed.

Lemma check_absent now :
  Data.check md5 now Absent
  = Some (Ok (Data.defaultDocument md5 now),
          Stored (Data.defaultDocument md5 now)).
Proof.
  unfold Data.check, Data.generateDefault, Data.dump.
  unfold Data.verifyContents, Data.load. simpl.
  by rewrite probe_default.
Qed.

End Documents.

(** ** Readiness and the number looked up *)

Section Session.
Variable naturaltime : Z -> string.
Variable HYMNAL : HYMNAL.t.

Lemma updateDetails_cases now E C st st' :
  InputCore.updateDetails naturaltime HYMNAL now E C st = Some (Ok tt, st') ->
  SDATA st' = SDATA st /\ FILE_DATA st' = FILE_DATA st
  /\ QUERY_TIMEOUT_FILL st' = QUERY_TIMEOUT_FILL st
  /\ LAST_QUERY_ID st' = LAST_QUERY_ID st
  /\ ((CURRENT_HINFO st' = CURRENT_HINFO st /\ EXEC_READY st' = EXEC_READY st
       /\ BTN_LAUNCH st' = false /\ QUERY_TIMEOUT st' = false)
      \/ exists hN h ready,
           HymnsDatabase.getStats naturaltime HYMNAL (SDATA st) now hN
           = Some (Ok (Some h), ready)
           /\ (hN = Py.slice E None (Some 3)
               \/ hN = Py.slice C None (Some 3))
           /\ CURRENT_HINFO st' = Some (Some h) /\ EXEC_READY st' = ready
           /\ BTN_LAUNCH st' = ready /\ QUERY_TIMEOUT st' = true).
Proof.
  unfold InputCore.updateDetails.
  destruct (if negb (Py.isdigit _) then _ else _) as [incomplete|e];
    [|discriminate].
  destruct (incomplete && _) eqn:Eb.
  - intros [= <-]. cbn. repeat split. by left.
  - cbn [SDATA].
    destruct (HymnsDatabase.getStats _ _ _ _ _) as [[[HINFO|e] ready]|] eqn:Eg;
      [|discriminate|discriminate].
    destruct HINFO as [h|]; [|discriminate].
    intros [= <-]. cbn. repeat split. right.
    exists (if incomplete then Py.slice C None (Some 3)
            else Py.slice E None (Some 3)), h, ready.
    split; [exact Eg|]. split; [by destruct incomplete; [right|left]|].
    repeat split. by destruct ready.
Qed.




End Session.




(** ** Queries written down by the background loop *)

Lemma canonical_digit_range : forallb canonical_digit (range 1000) = true.
Proof. vm_compute. reflexivity. Qed.

Lemma toDigits_isdigit n : 0 <= n < 1000 -> Py.isdigit (KString.toDigits n 3) = true.
Proof.
  intros Hn. pose proof canonical_digit_range as H.
  rewrite forallb_forall in H. apply H. by apply range_In.
Qed.

Lemma readStats_entry S n hN a b c :
  1 <= n ->
  entryOf S hN = Ok (PList [a; b; c]) ->
  HymnsDatabase.readStats S n hN = Ok (a, b, c).
Proof.
  intros Hn He. unfold HymnsDatabase.readStats.
  assert (Hc : negb (n =? 0) || (n <=? SYS.HYMNS_MAX) = true).
  { apply orb_true_iff. left. apply negb_true_iff. lia. }
  rewrite Hc. unfold entryOf in He. rewrite He. reflexivity.
Qed.

Lemma entryOf_Ok_inv S key e :
  entryOf S key = Ok e ->
  exists m d, S = PDict m /\ m !! "DATA" = Some (PDict d) /\ d !! key = Some e.
Proof.
  unfold entryOf. destruct S as [| | | | |m]; try discriminate. simpl.
  destruct (m !! "DATA") as [[| | | | |d]|] eqn:Em; try discriminate. simpl.
  destruct (d !! key) as [x|] eqn:Ed; [|discriminate].
  intros [= <-]. by exists m, d.
Qed.

Lemma updateData_entry S key e ARRAY :
  entryOf S key = Ok e ->
  exists S', updateData S key ARRAY = Ok S'
             /\ entryOf S' key = Ok ARRAY.
Proof.
  intros He. apply entryOf_Ok_inv in He as (m & d & -> & Hm & Hd).
  eexists. split; [simpl; by rewrite Hm|].
  rewrite entryOf_update by done. by rewrite decide_True.
Qed.

Section Query.
Variable naturaltime : Z -> string.
Variable HYMNAL : HYMNAL.t.

(** A query of hymn [n], found in the catalogue, with well-formed
    statistics: the details are set from the stored entry. *)
Lemma updateDetails_found now E C st n q l t :
  parallel HYMNAL ->
  1 <= n <= SYS.HYMNS_MAX ->
  Py.slice E None (Some 3) = KString.toDigits n 3 ->
  ~ In (KString.toDigits n 3) (MISSING.list (HYMNAL.MISSING HYMNAL)) ->
  entryOf (SDATA st) (KString.toDigits n 3) = Ok (PList [q; l; PNum t]) ->
  exists h ready,
    InputCore.updateDetails naturaltime HYMNAL now E C st
    = Some (Ok tt,
            mkSession (SDATA st) (FILE_DATA st) (Some (Some h)) ready true
              (QUERY_TIMEOUT_FILL st) (LAST_QUERY_ID st) ready)
    /\ HymnInfo.num h = KString.toDigits n 3
    /\ HymnInfo.queries h = q /\ HymnInfo.launches h = l
    /\ HymnInfo.lastAccessed h = PNum t.
Proof.
  intros Hpar Hn HE Hmiss Hent. pose proof Hn as Hn'.
  unfold SYS.HYMNS_MAX in Hn.
  unfold InputCore.updateDetails. rewrite HE.
  rewrite toDigits_isdigit by lia.
  destruct (toDigits_canonical n) as (_ & _ & ->); [lia|].
  cbn [negb]. assert (Hz : (n =? 0) = false) by lia. rewrite Hz.
  cbn [andb SDATA].
  rewrite (getStats_found naturaltime HYMNAL (SDATA st) now n Hn' Hmiss).
  rewrite (readStats_entry _ _ _ _ _ _ (proj1 Hn) Hent).
  assert (Heq : exists i idx d2 d3,
            equivOf HYMNAL (KString.toDigits n 3) n = Ok (i, idx, d2, d3)).
  { unfold equivOf. rewrite !equivalentIn_parallel by done.
    repeat (destruct (Py.contains _ _) || destruct (Py.index _ _));
      by eexists _, _, _, _. }
  destruct Heq as (i & idx & d2 & d3 & ->). cbn [Py.rsub mbind option_bind].
  exists (HymnInfo.mk (titleOf HYMNAL n) (KString.toDigits n 3) d2 d3
            (if (i =? 0)%nat then "EN" else "TL")
            (if (i =? 0)%nat then "TL" else "EN")
            (PNum (Z.of_nat idx)) q l (PNum t) (PStr (naturaltime (now - t)))),
         (negb (String.eqb (titleOf HYMNAL n) "")).
  split; [|done]. cbn. by destruct (negb _).
Qed.

(** Three rounds of the background loop after a query: the third writes
    the query down unless it repeats the last one written. *)
Lemma run_thrice S f h ready last n :
  Py.int (HymnInfo.num h) = Some n ->
  0 <= n <= SYS.HYMNS_MAX ->
  let st := mkSession S f (Some (Some h)) ready true 2 last ready in
  (st1 ← ThreadBackground.run st;
   st2 ← ThreadBackground.run st1;
   ThreadBackground.run st2)
  = (if Py.eq_str last (HymnInfo.num h)
     then Ok (mkSession S f (Some (Some h)) ready false 2 last ready)
     else q ← Py.add_int (HymnInfo.queries h) 1;
          d ← updateData S (HymnInfo.num h)
                (PList [q; HymnInfo.launches h; HymnInfo.lastAccessed h]);
          Ok (mkSession d (Data.dump d) (Some (Some h)) ready false 2
                (PStr (HymnInfo.num h)) ready) : result session).
Proof.
  intros Hint Hn st. unfold SYS.HYMNS_MAX in Hn. subst st.
  change (ThreadBackground.run (mkSession S f (Some (Some h)) ready true 2 last ready))
    with (Ok (mkSession S f (Some (Some h)) ready true 1 last ready)).
  cbn [mbind result_bind].
  change (ThreadBackground.run (mkSession S f (Some (Some h)) ready true 1 last ready))
    with (Ok (mkSession S f (Some (Some h)) ready true 0 last ready)).
  cbn [mbind result_bind].
  unfold ThreadBackground.run. cbn. rewrite Hint. cbn.
  assert (Hr : (0 <=? n) && (n <? SYS.HYMNS_MAX + 1) = true)
    by (unfold SYS.HYMNS_MAX; lia).
  rewrite Hr. cbn.
  destruct (Py.eq_str last _); cbn; [reflexivity|].
  destruct (Py.add_int _ 1) as [q|e]; cbn; [|reflexivity].
  by destruct (updateData _ _ _).
Qed.

End Query.

(** Claim C4, as the code has it. A query of a hymn in the catalogue is
    written down by the background loop as queries plus one, launches
    and last access as they were; the same hymn queried again right
    after is not written a second time, so two queries in succession
    raise its queries counter by exactly one, and the document stored is
    the one in memory. *)
Theorem query_twice nt FNS H st now1 now2 E1 E2 C1 C2 n q l t :
  HymnsDatabase.parseHymnDatabase FNS = Ok H ->
  1 <= n <= SYS.HYMNS_MAX ->
  Py.slice E1 None (Some 3) = KString.toDigits n 3 ->
  Py.slice E2 None (Some 3) = KString.toDigits n 3 ->
  ~ In (KString.toDigits n 3) (MISSING.list (HYMNAL.MISSING H)) ->
  entryOf (SDATA st) (KString.toDigits n 3)
  = Ok (PList [PNum q; PNum l; PNum t]) ->
  QUERY_TIMEOUT_FILL st = 2 ->
  Py.eq_str (LAST_QUERY_ID st) (KString.toDigits n 3) = false ->
  exists st1 st2,
    queryAccess nt H now1 E1 C1 st = Some (Ok st1)
    /\ queryAccess nt H now2 E2 C2 st1 = Some (Ok st2)
    /\ entryOf (SDATA st1) (KString.toDigits n 3)
       = Ok (PList [PNum (q + 1); PNum l; PNum t])
    /\ FILE_DATA st1 = Stored (SDATA st1)
    /\ SDATA st2 = SDATA st1 /\ FILE_DATA st2 = FILE_DATA st1.
Proof.
  intros Hparse Hn HE1 HE2 Hmiss Hent Hfill Hlast.
  pose proof (parse_parallel _ _ Hparse) as Hpar.
  assert (Hint : Py.int (KString.toDigits n 3) = Some n).
  { apply toDigits_canonical. unfold SYS.HYMNS_MAX in Hn. lia. }
  assert (Hn0 : 0 <= n <= SYS.HYMNS_MAX) by lia.
  destruct (updateDetails_found nt H now1 E1 C1 st n _ _ _ Hpar Hn HE1 Hmiss Hent)
    as (h & ready & Hupd & Hnum & Hq & Hl & Ht).
  destruct (updateData_entry (SDATA st) _ _
              (PList [PNum (q + 1); PNum l; PNum t]) Hent)
    as (d & Hd & Hent').
  set (st1 := mkSession d (Data.dump d) (Some (Some h)) ready false 2
                (PStr (KString.toDigits n 3)) ready).
  destruct (updateDetails_found nt H now2 E2 C2 st1 n _ _ _ Hpar Hn HE2 Hmiss Hent')
    as (h' & ready' & Hupd' & Hnum' & _).
  exists st1, (mkSession d (Data.dump d) (Some (Some h')) ready' false 2
                 (PStr (KString.toDigits n 3)) ready').
  repeat split; try done.
  - unfold queryAccess. rewrite Hupd, Hfill. cbn [mbind option_bind].
    rewrite <- Hnum in Hint.
    rewrite (run_thrice _ _ h ready _ n Hint Hn0).
    rewrite Hnum, Hlast, Hq, Hl, Ht. cbn [Py.add_int mbind result_bind].
    by rewrite Hd.
  - unfold queryAccess. rewrite Hupd'. cbn [mbind option_bind].
    cbn [SDATA FILE_DATA QUERY_TIMEOUT_FILL LAST_QUERY_ID st1].
    rewrite <- Hnum' in Hint.
    rewrite (run_thrice _ _ h' ready' _ n Hint Hn0).
    rewrite Hnum'. cbn [Py.eq_str]. by rewrite String.eqb_refl.
Qed.

Lemma query_twice_witness :
  exists st1 st2,
    queryAccess demoTime (catalogueOf queryArchive) 10 "123" ""
      (startup demoStats (Stored demoStats)) = Some (Ok st1)
    /\ queryAccess demoTime (catalogueOf queryArchive) 20 "123" "" st1
       = Some (Ok st2)
    /\ entryOf (SDATA st1) (KString.toDigits 123 3)
       = Ok (PList [PNum (0 + 1); PNum 0; PNum 0])
    /\ FILE_DATA st1 = Stored (SDATA st1)
    /\ SDATA st2 = SDATA st1 /\ FILE_DATA st2 = FILE_DATA st1.
Proof.
  apply (query_twice demoTime queryArchive (catalogueOf queryArchive)
           (startup demoStats (Stored demoStats)) 10 20 "123" "123" "" ""
           123 0 0 0).
  - vm_compute. reflexivity.
  - unfold SYS.HYMNS_MAX. lia.
  - vm_compute. reflexivity.
  - vm_compute. reflexivity.
  - intros Hin. apply existsb_eqb_In in Hin. vm_compute in Hin. discriminate.
  - vm_compute. reflexivity.
  - reflexivity.
  - reflexivity.
Defined.

(** Hymn 123 queried twice in succession, at clock readings 10 and 20,
    on freshly generated statistics: its entry ends as [1, 0, 0], the
    queries counter raised by one, not two, and the last access still
    0, not 20. *)
Lemma query_twice_refuted :
  entryOf demoStats "123" = Ok (PList [PNum 0; PNum 0; PNum 0])
  /\ entryAfter
       (andThen
          (queryAccess demoTime (catalogueOf queryArchive) 10 "123" ""
             (startup demoStats (Stored demoStats)))
          (queryAccess demoTime (catalogueOf queryArchive) 20 "123" ""))
       "123"
     = Some (Ok (PList [PNum 1; PNum 0; PNum 0]))
  /\ entryAfter
       (andThen
          (queryAccess demoTime (catalogueOf queryArchive) 10 "123" ""
             (startup demoStats (Stored demoStats)))
          (queryAccess demoTime (catalogueOf queryArchive) 20 "123" ""))
       "123"
     <> Some (Ok (PList [PNum 2; PNum 0; PNum 20])).
Proof.
  split; [vm_compute; reflexivity|].
  split; [vm_compute; reflexivity|]. vm_compute. discriminate.
Qed.

(** ** Reset of the statistics *)

Lemma zeroEntry_eq o :
  zeroEntry o = true -> o = Some (PList [PNum 0; PNum 0; PNum 0]).
Proof.
  destruct o as [[| | | |[|[| |[]| | |] [|[| |[]| | |] [|[| |[]| | |] []]]]|]|];
    try discriminate. reflexivity.
Qed.

Lemma defaultEntries_zero :
  forallb (fun i => zeroEntry (Data.defaultEntries !! KString.toDigits (i + 1) 3))
          (range SYS.HYMNS_MAX) = true.
Proof. vm_compute. reflexivity. Qed.

Section Reset.
Variable md5 : pyval -> string.

Lemma default_DATA now :
  Py.getitem_str (Data.defaultDocument md5 now) "DATA"
  = Ok (PDict Data.defaultEntries).
Proof.
  unfold Data.defaultDocument, Data.unsignedDefault. cbn [Py.getitem_str].
  rewrite !lookup_insert_ne by done. by rewrite lookup_insert_eq.
Qed.

Lemma default_entry now n :
  1 <= n <= SYS.HYMNS_MAX ->
  entryOf (Data.defaultDocument md5 now) (KString.toDigits n 3)
  = Ok (PList [PNum 0; PNum 0; PNum 0]).
Proof.
  intros Hn. unfold entryOf. rewrite default_DATA.
  pose proof defaultEntries_zero as H. rewrite forallb_forall in H.
  specialize (H (n - 1)). rewrite range_In in H.
  replace (n - 1 + 1) with n in H by lia.
  cbn [mbind result_bind Py.getitem_str].
  rewrite (zeroEntry_eq _ (H ltac:(lia))). reflexivity.
Qed.

(** Claim C7. The reset of the statistics, on a session whose file is
    there, followed by [load], yields the record that the session then
    holds, in which every number of [1..474] has the entry [0, 0, 0]. *)
Theorem reset_then_load now now' st :
  FILE_DATA st <> Absent ->
  exists st',
    QWGT_SETTINGS.resetStats md5 now st = Some (Ok tt, st')
    /\ Data.load md5 now' (FILE_DATA st') = Some (Ok (SDATA st'), FILE_DATA st')
    /\ forall n, 1 <= n <= SYS.HYMNS_MAX ->
         entryOf (SDATA st') (KString.toDigits n 3)
         = Ok (PList [PNum 0; PNum 0; PNum 0]).
Proof.
  intros Hf. unfold QWGT_SETTINGS.resetStats. rewrite check_absent.
  eexists. split; [by destruct (FILE_DATA st)|].
  split; [reflexivity|]. intros n Hn. by apply default_entry.
Qed.

End Reset.

Lemma reset_then_load_witness :
  exists st',
    QWGT_SETTINGS.resetStats demoHash 5 (startup demoStats (Stored demoStats))
    = Some (Ok tt, st')
    /\ Data.load demoHash 6 (FILE_DATA st') = Some (Ok (SDATA st'), FILE_DATA st')
    /\ forall n, 1 <= n <= SYS.HYMNS_MAX ->
         entryOf (SDATA st') (KString.toDigits n 3)
         = Ok (PList [PNum 0; PNum 0; PNum 0]).
Proof.
  apply (reset_then_load demoHash 5 6 (startup demoStats (Stored demoStats))).
  simpl. discriminate.
Defined.


(** ** Header fields across mutations *)

Lemma defaultEntries_all_zero :
  forallb (fun kv : string * pyval => zeroEntry (Some kv.2))
          (map_to_list Data.defaultEntries) = true.
Proof. vm_compute. reflexivity. Qed.

Lemma all_zero_lookup (m : gmap string pyval) k e :
  forallb (fun kv : string * pyval => zeroEntry (Some kv.2)) (map_to_list m)
  = true ->
  m !! k = Some e -> e = PList [PNum 0; PNum 0; PNum 0].
Proof.
  intros H Hk. rewrite forallb_forall in H. specialize (H (k, e)).
  cbn [snd] in H. apply zeroEntry_eq in H; [congruence|].
  apply list_elem_of_In, elem_of_map_to_list. exact Hk.
Qed.

Lemma defaultEntries_lookup k e :
  Data.defaultEntries !! k = Some e -> e = PList [PNum 0; PNum 0; PNum 0].
Proof. apply all_zero_lookup, defaultEntries_all_zero. Qed.

Lemma run_cases st st' :
  ThreadBackground.run st = Ok st' ->
  (SDATA st' = SDATA st /\ FILE_DATA st' = FILE_DATA st)
  \/ exists h q,
       CURRENT_HINFO st = Some (Some h)
       /\ Py.add_int (HymnInfo.queries h) 1 = Ok q
       /\ updateData (SDATA st) (HymnInfo.num h)
            (PList [q; HymnInfo.launches h; HymnInfo.lastAccessed h])
          = Ok (SDATA st')
       /\ FILE_DATA st' = Stored (SDATA st').
Proof.
  unfold ThreadBackground.run. destruct (QUERY_TIMEOUT st);
    [|intros [= <-]; by left].
  intros Hrun. apply bind_Ok in Hrun as (inRange & _ & Hrun).
  destruct inRange; [|injection Hrun as <-; by left].
  apply bind_Ok in Hrun as (st1 & H1 & [= <-]). cbn [SDATA FILE_DATA].
  apply bind_Ok in H1 as (h & Hh & H1).
  destruct (negb _); [|injection H1 as <-; by left].
  apply bind_Ok in H1 as (q & Hq & H1). apply bind_Ok in H1 as (d & Hd & [= <-]).
  right. exists h, q. cbn. repeat split; try done.
  unfold hinfo in Hh. by destruct (CURRENT_HINFO st) as [[h'|]|]; simplify_eq.
Qed.

Lemma executeFile_cases nt H now E C st st' :
  InputCore.executeFile nt H now E C st = Some (Ok tt, st') ->
  exists h q l,
    CURRENT_HINFO st = Some (Some h)
    /\ Py.add_int (HymnInfo.queries h) 1 = Ok q
    /\ Py.add_int (HymnInfo.launches h) 1 = Ok l
    /\ updateData (SDATA st) (HymnInfo.num h) (PList [q; l; PNum now])
       = Ok (SDATA st')
    /\ FILE_DATA st' = Stored (SDATA st').
Proof.
  unfold InputCore.executeFile.
  destruct (hinfo st ≫= _) as [d|e] eqn:Ed; [|discriminate].
  apply bind_Ok in Ed as (h & Hh & Ed). apply bind_Ok in Ed as (q & Hq & Ed).
  apply bind_Ok in Ed as (l & Hl & Ed). apply bind_Ok in Ed as (d' & Hd & [= ->]).
  destruct (InputCore.updateDetails _ _ _ _ _ _) as [[[[]|e] st1]|] eqn:Eu;
    [|discriminate|discriminate].
  intros [= <-]. apply updateDetails_cases in Eu as (HS & HF & _).
  cbn in HS, HF. exists h, q, l. cbn. rewrite HS, HF.
  repeat split; try done.
  unfold hinfo in Hh. by destruct (CURRENT_HINFO st) as [[h'|]|]; simplify_eq.
Qed.

Section Mutation.
Variable md5 : pyval -> string.

Lemma updateData_stored S k a b c st' :
  Data.probe S = Ok tt ->
  updateData S k (PList [a; b; c]) = Ok (SDATA st') ->
  FILE_DATA st' = Stored (SDATA st') ->
  stored_with_header md5 S st'.
Proof.
  intros Hp Hu Hf. split; [done|].
  repeat split; try (eapply header_update; [|exact Hu]; done).
  intros now. rewrite Hf. apply check_accepts. eapply probe_update; eauto.
Qed.

Lemma default_checksum t0 :
  Py.getitem_str (Data.defaultDocument md5 t0) "__CHECKSUM__"
  = Ok (PStr (md5 (PDict (Data.unsignedDefault t0)))).
Proof.
  unfold Data.defaultDocument. cbn [Py.getitem_str].
  by rewrite lookup_insert_eq.
Qed.

Lemma updateData_stale t0 k q b c S' :
  0 <= q ->
  updateData (Data.defaultDocument md5 t0) k (PList [PNum (q + 1); b; c])
  = Ok S' ->
  stale_checksum md5 t0 S'.
Proof.
  intros Hq Hu. split.
  - rewrite (header_update _ _ _ _ "__CHECKSUM__" ltac:(done) Hu).
    apply default_checksum.
  - intros Heq.
    assert (He : entryOf (withoutChecksum S') k
                 = entryOf (PDict (Data.unsignedDefault t0)) k)
      by by rewrite Heq.
    apply updateData_Ok in Hu as (m & d & Hm & Hd & ->).
    unfold entryOf, withoutChecksum, Data.unsignedDefault in He.
    cbn [Py.getitem_str] in He.
    repeat first
      [ rewrite lookup_insert_eq in He
      | rewrite lookup_insert_ne in He by done
      | progress cbn [mbind result_bind Py.getitem_str] in He ].
    destruct (Data.defaultEntries !! k) as [e|] eqn:Ek; [|discriminate].
    apply defaultEntries_lookup in Ek. subst e.
    injection He as He. lia.
Qed.

(** Claim C10. On statistics that pass the check, a background round
    that writes a query, and a launch, store the whole document with
    its checksum, creation date and file type fields as they were, and
    [check] takes the file as stored. On statistics just generated at
    [t0] the stored checksum therefore stays the digest of the document
    of [t0], while the document, its checksum field put back to [None],
    is no longer that one: the two could only agree by a collision of
    the digest. *)
Theorem mutation_keeps_header nt H st :
  Data.probe (SDATA st) = Ok tt ->
  (forall st',
     ThreadBackground.run st = Ok st' ->
     (SDATA st' = SDATA st /\ FILE_DATA st' = FILE_DATA st)
     \/ stored_with_header md5 (SDATA st) st')
  /\ (forall now E C st',
        InputCore.executeFile nt H now E C st = Some (Ok tt, st') ->
        stored_with_header md5 (SDATA st) st')
  /\ (forall t0 h q,
        SDATA st = Data.defaultDocument md5 t0 ->
        CURRENT_HINFO st = Some (Some h) ->
        HymnInfo.queries h = PNum q -> 0 <= q ->
        (forall st', ThreadBackground.run st = Ok st' ->
                     SDATA st' <> SDATA st -> stale_checksum md5 t0 (SDATA st'))
        /\ (forall now E C st',
              InputCore.executeFile nt H now E C st = Some (Ok tt, st') ->
              stale_checksum md5 t0 (SDATA st'))).
Proof.
  intros Hp. split; [|split].
  - intros st' Hrun. apply run_cases in Hrun as [?|(h & q & _ & _ & Hu & Hf)];
      [by left|right]. eapply updateData_stored; eauto.
  - intros now E C st' Hex.
    apply executeFile_cases in Hex as (h & q & l & _ & _ & _ & Hu & Hf).
    eapply updateData_stored; eauto.
  - intros t0 h q HS Hh Hq Hq0. split.
    + intros st' Hrun Hne.
      apply run_cases in Hrun as [[? _]|(h' & q' & Hh' & Hq' & Hu & _)];
        [done|]. rewrite Hh in Hh'. injection Hh' as <-.
      rewrite Hq in Hq'. injection Hq' as <-. rewrite HS in Hu.
      eapply updateData_stale; eauto.
    + intros now E C st' Hex.
      apply executeFile_cases in Hex as (h' & q' & l & Hh' & Hq' & _ & Hu & _).
      rewrite Hh in Hh'. injection Hh' as <-.
      rewrite Hq in Hq'. injection Hq' as <-. rewrite HS in Hu.
      eapply updateData_stale; eauto.
Qed.

(** With a digest that never collides, the stored checksum differs from
    the digest of the current document. *)
Lemma stale_checksum_differs t0 doc :
  (forall a b, md5 a = md5 b -> a = b) ->
  stale_checksum md5 t0 doc ->
  Py.getitem_str doc "__CHECKSUM__" <> Ok (PStr (md5 (withoutChecksum doc))).
Proof.
  intros Hinj [Hc Hne] Heq. rewrite Hc in Heq. injection Heq as Heq.
  apply Hinj in Heq. congruence.
Qed.

End Mutation.

Lemma mutation_keeps_header_witness :
  match InputCore.executeFile demoTime (catalogueOf demoArchive) 60 "001" ""
          demoLaunchSession with
  | Some (Ok _, st') =>
      stored_with_header demoHash demoStats st'
      /\ stale_checksum demoHash 0 (SDATA st')
  | _ => False
  end.
Proof.
  pose proof (mutation_keeps_header demoHash demoTime (catalogueOf demoArchive)
                demoLaunchSession) as Hm.
  destruct Hm as (_ & Hstore & Hstale); [vm_compute; reflexivity|].
  assert (Hok : returned (InputCore.executeFile demoTime
                            (catalogueOf demoArchive) 60 "001" ""
                            demoLaunchSession) = true)
    by (vm_compute; reflexivity).
  destruct (InputCore.executeFile demoTime (catalogueOf demoArchive) 60 "001" ""
              demoLaunchSession) as [[[[]|e] st']|] eqn:Hex.
  - split.
    + exact (Hstore 60 "001" "" st' Hex).
    + refine (proj2 (Hstale 0 demoInfo 0 _ _ _ _) 60 "001" "" st' Hex).
      * reflexivity.
      * reflexivity.
      * reflexivity.
      * lia.
  - discriminate Hok.
  - discriminate Hok.
Defined.


(** ** Documents that fail the check *)

Lemma probe_short : Data.probe shortDocument = Raise IndexError.
Proof. vm_compute. reflexivity. Qed.

Lemma probe_missingKey : Data.probe missingKeyDocument = Raise KeyError.
Proof. vm_compute. reflexivity. Qed.

Section Check.
Variable md5 : pyval -> string.

Lemma check_stored now doc :
  Data.check md5 now (Stored doc)
  = match Data.probe doc with
    | Ok _ => Some (Ok doc, Stored doc)
    | Raise KeyError =>
        Some (Ok (Data.defaultDocument md5 now),
              Stored (Data.defaultDocument md5 now))
    | Raise e => Some (Raise e, Stored doc)
    end.
Proof.
  unfold Data.check, Data.verifyContents, Data.load.
  cbn [while Data.loadBody mbind option_bind].
  destruct (Data.probe doc) as [[]|[]]; reflexivity.
Qed.

(** Claim C5, at a document holding every key of [1..474] in which the
    entry of hymn 001 lacks its third field: [check] neither regenerates
    nor returns a record, it raises [IndexError] and leaves the file as
    it was. *)
Theorem short_entry_not_regenerated now :
  Data.check md5 now (Stored shortDocument)
  = Some (Raise IndexError, Stored shortDocument).
Proof. by rewrite check_stored, probe_short. Qed.

(** A document in which the key of hymn 317 is missing is replaced by
    the default record as a whole. *)
Lemma missing_key_regenerated now :
  Data.check md5 now (Stored missingKeyDocument)
  = Some (Ok (Data.defaultDocument md5 now),
          Stored (Data.defaultDocument md5 now)).
Proof. by rewrite check_stored, probe_missingKey. Qed.

End Check.

(** ** Entry names of the expected form *)

Lemma chars_app x y : chars (x ++ y) = (chars x ++ chars y)%list.
Proof.
  induction x as [|c x IH]; [reflexivity|].
  rewrite append_cons. simpl. by rewrite IH.
Qed.

Lemma chars_inj x y : chars x = chars y -> x = y.
Proof.
  intros H. rewrite <- (string_of_chars x), <- (string_of_chars y).
  by rewrite H.
Qed.

(** What follows the last separator of a name. *)
Lemma split_last_suffix sep x y :
  exists h t,
    Py.split sep (x ++ String sep y) = h :: t /\ t <> []
    /\ List.last (h :: t) "" = List.last (Py.split sep y) "".
Proof.
  induction x as [|c x IH].
  - change ("" ++ String sep y) with (String sep y). cbn [Py.split].
    rewrite Ascii.eqb_refl. eexists _, _. split; [reflexivity|].
    split; [apply split_nonempty|].
    pose proof (split_nonempty sep y) as Hne.
    by destruct (Py.split sep y).
  - destruct IH as (h & t & Hs & Ht & Hl). rewrite append_cons.
    cbn [Py.split]. rewrite Hs.
    destruct (Ascii.eqb c sep).
    + eexists _, _. split; [reflexivity|]. split; [done|]. exact Hl.
    + eexists _, _. split; [reflexivity|]. split; [done|].
      destruct t as [|t0 t]; [done|]. exact Hl.
Qed.

(** An entry name made of a category of two characters, a number of
    three digits, a title and the extension [.pptx], with one character
    after the category and one after the number, is split into these
    parts again. *)
Theorem splitHymn_wellformed (cat num title : string) (s1 s2 : ascii) :
  String.length cat = 2%nat -> String.length num = 3%nat ->
  Py.isdigit num = true ->
  HymnsDatabase.splitHymn
    (cat ++ String s1 (num ++ String s2 (title ++ ".pptx")))
  = HYMN.mk cat (PStr num) title "pptx".
Proof.
  intros Hc Hn Hd.
  destruct cat as [|c1 [|c2 [|? ?]]]; try discriminate.
  destruct num as [|d1 [|d2 [|d3 [|? ?]]]]; try discriminate.
  rewrite !append_cons.
  change ("" ++ String s1 ?r) with (String s1 r).
  change ("" ++ String s2 (title ++ ".pptx"))
    with (String s2 (title ++ ".pptx")).
  set (name := String c1 (String c2 (String s1 (String d1 (String d2
                 (String d3 (String s2 (title ++ ".pptx")))))))).
  assert (Hname : chars name
                  = c1 :: c2 :: s1 :: d1 :: d2 :: d3 :: s2
                    :: (chars title ++ chars ".pptx")%list).
  { subst name. simpl. by rewrite chars_app. }
  unfold HymnsDatabase.splitHymn.
  assert (Hcat : Py.slice name None (Some 2) = String c1 (String c2 "")).
  { apply chars_inj. rewrite chars_slice_prefix by lia. by rewrite Hname. }
  assert (Hnum : Py.slice name (Some 3) (Some 6)
                 = String d1 (String d2 (String d3 ""))).
  { apply chars_inj. rewrite chars_slice_range by lia. by rewrite Hname. }
  assert (Htitle : Py.slice name (Some 7) (Some (-5)) = title).
  { apply chars_inj. rewrite chars_slice_title, Hname.
    change (drop 7 (c1 :: c2 :: s1 :: d1 :: d2 :: d3 :: s2
                      :: (chars title ++ chars ".pptx")%list))
      with (chars title ++ chars ".pptx")%list.
    rewrite length_app.
    change (List.length (chars ".pptx")) with 5%nat.
    replace (List.length (chars title) + 5 - 5)%nat
      with (List.length (chars title)) by lia.
    by rewrite take_app_length. }
  assert (Hext : Py.last_item (Py.split "." name) = "pptx").
  { unfold Py.last_item.
    destruct (split_last_suffix "."
                (String c1 (String c2 (String s1 (String d1 (String d2
                   (String d3 (String s2 title))))))) "pptx")
      as (h & t & Hs & _ & Hl).
    rewrite !append_cons in Hs. subst name. by rewrite Hs, Hl. }
  by rewrite Hcat, Hnum, Htitle, Hext, Hd.
Qed.

Lemma splitHymn_wellformed_witness :
  HymnsDatabase.splitHymn
    ("EN" ++ String " " ("001" ++ String " " ("Title.A" ++ ".pptx")))
  = HYMN.mk "EN" (PStr "001") "Title.A" "pptx".
Proof.
  apply (splitHymn_wellformed "EN" "001" "Title.A" " " " "); reflexivity.
Defined.

(** ** The categories of the catalogue, entry by entry *)

Lemma filedUnder_excl i j FILE :
  (i < 3)%nat -> (j < 3)%nat ->
  filedUnder i FILE = true -> filedUnder j FILE = true -> i = j.
Proof.
  unfold filedUnder. intros Hi Hj H1 H2.
  apply andb_prop in H1 as [H1 _], H2 as [H2 _].
  apply String.eqb_eq in H1, H2. rewrite H1 in H2.
  destruct i as [|[|[|i]]], j as [|[|[|j]]]; try lia; try done.
Qed.

Lemma last_char_None s : Py.last_char s = None <-> s = "".
Proof.
  split; [|by intros ->].
  induction s as [|c s IH]; [done|]. simpl.
  destruct s; [discriminate|]. intros H. by apply IH in H.
Qed.

(** The loop over the categories, for one entry. *)
Lemma scanCats_three FILE tbls :
  HymnsDatabase.scanCats [0; 1; 2]%nat FILE (HymnsDatabase.splitHymn FILE) tbls
  = if filedUnder 0 FILE
    then Ok (HymnsDatabase.append_entry 0 (HymnsDatabase.splitHymn FILE) tbls)
    else if String.eqb FILE "" then Raise IndexError
    else if filedUnder 1 FILE
    then Ok (HymnsDatabase.append_entry 1 (HymnsDatabase.splitHymn FILE) tbls)
    else if filedUnder 2 FILE
    then Ok (HymnsDatabase.append_entry 2 (HymnsDatabase.splitHymn FILE) tbls)
    else Ok tbls.
Proof.
  destruct (String.eqb_spec FILE "") as [->|Hne]; [reflexivity|].
  assert (Hl : exists c, Py.last_char FILE = Some c).
  { destruct (Py.last_char FILE) as [c|] eqn:E; [by exists c|].
    by apply last_char_None in E. }
  destruct Hl as (c & Hl). cbn [HymnsDatabase.scanCats]. rewrite Hl.
  unfold filedUnder.
  set (ext := String.eqb (HYMN.ext (HymnsDatabase.splitHymn FILE)) "pptx").
  set (c0 := String.eqb _ (nth 0 HymnsDatabase.CATS "")).
  set (c1 := String.eqb _ (nth 1 HymnsDatabase.CATS "")).
  set (c2 := String.eqb _ (nth 2 HymnsDatabase.CATS "")).
  by destruct c0, c1, c2, ext.
Qed.

Lemma append_entry_lookup i j spH (tbls : list table) :
  HymnsDatabase.append_entry i spH tbls !! j
  = (if decide (i = j)
     then (fun t : table => ((t.1 ++ [HYMN.num spH])%list,
                             (t.2 ++ [HYMN.title spH])%list)) <$> tbls !! j
     else tbls !! j).
Proof.
  unfold HymnsDatabase.append_entry. rewrite list_lookup_alter.
  case_decide as Hd; [by rewrite Hd|done].
Qed.

Lemma scanCats_table FILE tbls tbls' i :
  (i < 3)%nat ->
  HymnsDatabase.scanCats [0; 1; 2]%nat FILE (HymnsDatabase.splitHymn FILE) tbls
  = Ok tbls' ->
  tbls' !! i = extend i FILE <$> tbls !! i.
Proof.
  intros Hi. rewrite scanCats_three. unfold extend.
  assert (Hid : forall o : option table, o = (fun t => t) <$> o)
    by (by intros []).
  destruct (filedUnder 0 FILE) eqn:F0.
  { intros [= <-]. rewrite append_entry_lookup. case_decide as Hd.
    - subst i. by rewrite F0.
    - destruct (filedUnder i FILE) eqn:Fi; [|apply Hid].
      exfalso. apply Hd. apply (filedUnder_excl 0 i FILE); [lia|lia|done|done]. }
  destruct (String.eqb FILE ""); [discriminate|].
  destruct (filedUnder 1 FILE) eqn:F1.
  { intros [= <-]. rewrite append_entry_lookup. case_decide as Hd.
    - subst i. by rewrite F1.
    - destruct (filedUnder i FILE) eqn:Fi; [|apply Hid].
      exfalso. apply Hd. apply (filedUnder_excl 1 i FILE); [lia|lia|done|done]. }
  destruct (filedUnder 2 FILE) eqn:F2.
  { intros [= <-]. rewrite append_entry_lookup. case_decide as Hd.
    - subst i. by rewrite F2.
    - destruct (filedUnder i FILE) eqn:Fi; [|apply Hid].
      exfalso. apply Hd. apply (filedUnder_excl 2 i FILE); [lia|lia|done|done]. }
  intros [= <-].
  destruct i as [|[|[|i]]]; [| | |lia]; rewrite ?F0, ?F1, ?F2; apply Hid.
Qed.

Lemma filedTable_cons i F FNS :
  filedTable i (F :: FNS)
  = if filedUnder i F
    then (HYMN.num (HymnsDatabase.splitHymn F) :: (filedTable i FNS).1,
          HYMN.title (HymnsDatabase.splitHymn F) :: (filedTable i FNS).2)
    else filedTable i FNS.
Proof.
  unfold filedTable.
  change (filter (fun F0 => filedUnder i F0 = true) (F :: FNS))
    with (if decide (filedUnder i F = true)
          then F :: filter (fun F0 => filedUnder i F0 = true) FNS
          else filter (fun F0 => filedUnder i F0 = true) FNS).
  destruct (filedUnder i F); [by rewrite decide_True|by rewrite decide_False].
Qed.

Lemma scanFiles_table FNS st st' i :
  (i < 3)%nat ->
  HymnsDatabase.scanFiles FNS st = Ok st' ->
  HymnsDatabase.tables st' !! i
  = (fun t => joined t (filedTable i FNS)) <$> HymnsDatabase.tables st !! i.
Proof.
  intros Hi. revert st. induction FNS as [|F FNS IH]; intros st.
  - simpl. intros [= <-]. destruct (_ !! i) as [[a b]|]; [|done].
    unfold joined. simpl. by rewrite !app_nil_r.
  - rewrite scanFiles_cons. intros Hrun.
    apply bind_Ok in Hrun as (tbls & Hcats & Hrest).
    rewrite (IH _ Hrest). cbn [HymnsDatabase.tables].
    rewrite (scanCats_table F _ tbls i Hi Hcats).
    destruct (HymnsDatabase.tables st !! i) as [[a b]|]; [|done].
    cbn [fmap option_fmap option_map]. f_equal.
    rewrite filedTable_cons. unfold extend, joined.
    destruct (filedUnder i F); simpl; [|done].
    by rewrite <- !app_assoc.
Qed.

Lemma entryLines_length nums titles l :
  HymnsDatabase.entryLines nums titles = Ok l ->
  List.length l = List.length titles.
Proof.
  revert nums l. induction titles as [|t titles IH]; intros nums l.
  - destruct nums; simpl; by intros [= <-].
  - destruct nums as [|[] nums]; simpl; try discriminate.
    intros H. apply bind_Ok in H as (r & Hr & [= <-]). simpl.
    by rewrite (IH _ _ Hr).
Qed.

Lemma insert_sorted_length x l :
  List.length (Py.insert_sorted x l) = S (List.length l).
Proof.
  induction l as [|y l IH]; [reflexivity|]. simpl.
  destruct (String.leb x y); simpl; by rewrite ?IH.
Qed.

Lemma sort_length l : List.length (Py.sort l) = List.length l.
Proof.
  unfold Py.sort. induction l as [|x l IH]; [reflexivity|]. simpl.
  by rewrite insert_sorted_length, IH.
Qed.

(** In the catalogue built from an archive, each of the three
    categories holds the numbers and titles of exactly the entries that
    are filed under it, in the order of the archive; the totals are the
    counts of these entries, and the list of all hymns has as many
    lines as the three categories have entries. *)
Theorem catalogue_tables FNS H :
  HymnsDatabase.parseHymnDatabase FNS = Ok H ->
  HYMNAL.EN H = filedTable 0 FNS
  /\ HYMNAL.TL H = filedTable 1 FNS
  /\ HYMNAL.US H = filedTable 2 FNS
  /\ TOTAL.EN (HYMNAL.TOTAL H)
     = List.length (filter (fun F => filedUnder 0 F = true) FNS)
  /\ TOTAL.TL (HYMNAL.TOTAL H)
     = List.length (filter (fun F => filedUnder 1 F = true) FNS)
  /\ TOTAL.US (HYMNAL.TOTAL H)
     = List.length (filter (fun F => filedUnder 2 F = true) FNS)
  /\ TOTAL.ALL (HYMNAL.TOTAL H)
     = (TOTAL.EN (HYMNAL.TOTAL H) + TOTAL.TL (HYMNAL.TOTAL H)
        + TOTAL.US (HYMNAL.TOTAL H))%nat
  /\ List.length (HYMNAL.HYMNS H) = TOTAL.ALL (HYMNAL.TOTAL H).
Proof.
  intros Hparse. unfold HymnsDatabase.parseHymnDatabase in Hparse.
  apply bind_Ok in Hparse as (st & Hscan & Hparse).
  apply bind_Ok in Hparse as (l0 & H0 & Hparse).
  apply bind_Ok in Hparse as (l1 & H1 & Hparse).
  apply bind_Ok in Hparse as (l2 & H2 & Hparse).
  injection Hparse as <-. cbn [HYMNAL.EN HYMNAL.TL HYMNAL.US HYMNAL.TOTAL
    HYMNAL.HYMNS TOTAL.EN TOTAL.TL TOTAL.US TOTAL.ALL].
  assert (Hnth : forall i, (i < 3)%nat ->
            nth i (HymnsDatabase.tables st) ([], []) = filedTable i FNS).
  { intros i Hi. rewrite nth_lookup.
    rewrite (scanFiles_table FNS _ st i Hi Hscan). cbn [HymnsDatabase.tables].
    destruct i as [|[|[|i]]]; [| | |lia]; reflexivity. }
  rewrite !Hnth in * by lia.
  apply entryLines_length in H0, H1, H2.
  unfold filedTable in *. cbn [fst snd] in *.
  rewrite !length_fmap in *. rewrite sort_length, !length_app.
  repeat split; lia.
Qed.

Lemma catalogue_tables_witness :
  HYMNAL.EN (catalogueOf mixedArchive) = filedTable 0 mixedArchive
  /\ HYMNAL.TL (catalogueOf mixedArchive) = filedTable 1 mixedArchive
  /\ HYMNAL.US (catalogueOf mixedArchive) = filedTable 2 mixedArchive
  /\ TOTAL.EN (HYMNAL.TOTAL (catalogueOf mixedArchive))
     = List.length (filter (fun F => filedUnder 0 F = true) mixedArchive)
  /\ TOTAL.TL (HYMNAL.TOTAL (catalogueOf mixedArchive))
     = List.length (filter (fun F => filedUnder 1 F = true) mixedArchive)
  /\ TOTAL.US (HYMNAL.TOTAL (catalogueOf mixedArchive))
     = List.length (filter (fun F => filedUnder 2 F = true) mixedArchive)
  /\ TOTAL.ALL (HYMNAL.TOTAL (catalogueOf mixedArchive))
     = (TOTAL.EN (HYMNAL.TOTAL (catalogueOf mixedArchive))
        + TOTAL.TL (HYMNAL.TOTAL (catalogueOf mixedArchive))
        + TOTAL.US (HYMNAL.TOTAL (catalogueOf mixedArchive)))%nat
  /\ List.length (HYMNAL.HYMNS (catalogueOf mixedArchive))
     = TOTAL.ALL (HYMNAL.TOTAL (catalogueOf mixedArchive)).
Proof.
  apply (catalogue_tables mixedArchive (catalogueOf mixedArchive)).
  vm_compute. reflexivity.
Defined.

(** ** When the catalogue can be built *)

Lemma scanCats_named FILE tbls :
  FILE <> "" ->
  exists tbls',
    HymnsDatabase.scanCats [0; 1; 2]%nat FILE (HymnsDatabase.splitHymn FILE)
      tbls = Ok tbls'.
Proof.
  intros Hne. rewrite scanCats_three.
  destruct (String.eqb_spec FILE "") as [->|_]; [done|].
  destruct (filedUnder 0 FILE), (filedUnder 1 FILE), (filedUnder 2 FILE);
    eauto.
Qed.

Lemma scanFiles_named FNS st :
  existsb (String.eqb "") FNS = false ->
  exists st', HymnsDatabase.scanFiles FNS st = Ok st'.
Proof.
  revert st. induction FNS as [|F FNS IH]; intros st; [by exists st|].
  cbn [existsb]. intros Hex. apply orb_false_elim in Hex as [HF Hex].
  rewrite scanFiles_cons.
  destruct (scanCats_named F (HymnsDatabase.tables st)) as (tbls & ->).
  { intros ->. discriminate. }
  cbn [mbind result_bind]. by apply IH.
Qed.

Lemma scanFiles_unnamed FNS st :
  existsb (String.eqb "") FNS = true ->
  HymnsDatabase.scanFiles FNS st = Raise IndexError.
Proof.
  revert st. induction FNS as [|F FNS IH]; intros st; [discriminate|].
  cbn [existsb]. intros Hex. rewrite scanFiles_cons.
  destruct (String.eqb_spec "" F) as [<-|Hne]; [reflexivity|].
  destruct (scanCats_named F (HymnsDatabase.tables st)) as (tbls & ->);
    [done|].
  cbn [mbind result_bind]. by apply IH.
Qed.

Lemma entryLines_filed i FNS :
  HymnsDatabase.entryLines (filedTable i FNS).1 (filedTable i FNS).2
  = (if forallb (fun F => implb (filedUnder i F) (numbered F)) FNS
     then Ok ((fun F => Py.slice F (Some 3) (Some 6) ++ " "
                        ++ HYMN.title (HymnsDatabase.splitHymn F))
              <$> filter (fun F => filedUnder i F = true) FNS)
     else Raise TypeError).
Proof.
  induction FNS as [|F FNS IH]; [reflexivity|].
  rewrite filedTable_cons. cbn [forallb].
  change (filter (fun F0 => filedUnder i F0 = true) (F :: FNS))
    with (if decide (filedUnder i F = true)
          then F :: filter (fun F0 => filedUnder i F0 = true) FNS
          else filter (fun F0 => filedUnder i F0 = true) FNS).
  destruct (filedUnder i F); cbn [implb andb].
  - rewrite decide_True by done. cbn [fst snd].
    change (HYMN.num (HymnsDatabase.splitHymn F))
      with (if numbered F then PStr (Py.slice F (Some 3) (Some 6))
            else PNum 0).
    destruct (numbered F); cbn [HymnsDatabase.entryLines andb];
      [|reflexivity].
    rewrite IH. by destruct (forallb _ FNS).
  - rewrite decide_False by done. exact IH.
Qed.

Lemma filed_forallb FNS :
  forallb (fun F => implb (filed F) (numbered F)) FNS
  = forallb (fun F => implb (filedUnder 0 F) (numbered F)) FNS
    && forallb (fun F => implb (filedUnder 1 F) (numbered F)) FNS
    && forallb (fun F => implb (filedUnder 2 F) (numbered F)) FNS.
Proof.
  induction FNS as [|F FNS IH]; [reflexivity|]. cbn [forallb].
  rewrite IH. unfold filed.
  destruct (filedUnder 0 F), (filedUnder 1 F), (filedUnder 2 F),
    (numbered F); cbn [implb orb andb];
    repeat match goal with |- context [forallb ?f FNS] =>
      destruct (forallb f FNS) end; reflexivity.
Qed.

(** Whether the catalogue can be built is decided by the names of the
    archive alone. An empty name stops the building with [IndexError],
    whatever the other names are. With no empty name, an entry filed
    under one of the three categories whose number field holds no
    digits stops it with [TypeError]. In every other case the catalogue
    is built. *)
Theorem catalogue_builds FNS :
  match HymnsDatabase.parseHymnDatabase FNS with
  | Ok _ => verdict FNS = None
  | Raise e => verdict FNS = Some e
  end.
Proof.
  unfold verdict, HymnsDatabase.parseHymnDatabase.
  destruct (existsb (String.eqb "") FNS) eqn:Hex.
  { by rewrite (scanFiles_unnamed FNS _ Hex). }
  destruct (scanFiles_named FNS
              (HymnsDatabase.mkScan [([], []); ([], []); ([], [])] []) Hex)
    as (st & Hscan).
  rewrite Hscan. cbn [mbind result_bind].
  assert (Hnth : forall i, (i < 3)%nat ->
            nth i (HymnsDatabase.tables st) ([], []) = filedTable i FNS).
  { intros i Hi. rewrite nth_lookup.
    rewrite (scanFiles_table FNS _ st i Hi Hscan). cbn [HymnsDatabase.tables].
    destruct i as [|[|[|i]]]; [| | |lia]; reflexivity. }
  rewrite !Hnth by lia. rewrite !entryLines_filed, filed_forallb.
  destruct (forallb (fun F => implb (filedUnder 0 F) (numbered F)) FNS);
    [|reflexivity].
  destruct (forallb (fun F => implb (filedUnder 1 F) (numbered F)) FNS);
    [|reflexivity].
  destruct (forallb (fun F => implb (filedUnder 2 F) (numbered F)) FNS);
    reflexivity.
Qed.

(** ** The check of the statistics file, whatever the file holds *)



(** ** What a write to the statistics leaves alone *)

(** A launch that returns rewrites the entry of the current hymn and no
    other: the entry of every other key reads as before, and the
    statistics file holds the document in memory. *)
Theorem launch_leaves_others nt H now E C st st' h :
  InputCore.executeFile nt H now E C st = Some (Ok tt, st') ->
  CURRENT_HINFO st = Some (Some h) ->
  FILE_DATA st' = Stored (SDATA st')
  /\ (exists q l,
        entryOf (SDATA st') (HymnInfo.num h) = Ok (PList [q; l; PNum now]))
  /\ forall key, key <> HymnInfo.num h ->
       entryOf (SDATA st') key = entryOf (SDATA st) key.
Proof.
  intros Hex Hh.
  apply executeFile_cases in Hex as (h' & q & l & Hh' & _ & _ & Hu & Hf).
  rewrite Hh in Hh'. injection Hh' as <-.
  apply updateData_Ok in Hu as (m & d & HS & Hm & HS').
  split; [done|]. rewrite HS', HS. split.
  - exists q, l. rewrite (entryOf_update m d _ _ _ Hm). by rewrite decide_True.
  - intros key Hkey. rewrite (entryOf_update m d _ _ _ Hm).
    by rewrite decide_False.
Qed.

Lemma launch_leaves_others_witness :
  match InputCore.executeFile demoTime (catalogueOf demoArchive) 60 "001" ""
          demoLaunchSession with
  | Some (Ok _, st') =>
      FILE_DATA st' = Stored (SDATA st')
      /\ (exists q l,
            entryOf (SDATA st') (HymnInfo.num demoInfo)
            = Ok (PList [q; l; PNum 60]))
      /\ forall key, key <> HymnInfo.num demoInfo ->
           entryOf (SDATA st') key = entryOf (SDATA demoLaunchSession) key
  | _ => False
  end.
Proof.
  assert (Hok : returned (InputCore.executeFile demoTime
                            (catalogueOf demoArchive) 60 "001" ""
                            demoLaunchSession) = true)
    by (vm_compute; reflexivity).
  destruct (InputCore.executeFile demoTime (catalogueOf demoArchive) 60 "001" ""
              demoLaunchSession) as [[[[]|e] st']|] eqn:Hex.
  - apply (launch_leaves_others demoTime (catalogueOf demoArchive) 60 "001" ""
             demoLaunchSession st' demoInfo Hex).
    reflexivity.
  - discriminate Hok.
  - discriminate Hok.
Defined.

(** A round of the background loop that returns leaves the entry of
    every key other than the number of the current hymn as it was, and
    leaves every entry as it was when no hymn is current. *)
Theorem round_leaves_others st st' key :
  ThreadBackground.run st = Ok st' ->
  (forall h, CURRENT_HINFO st = Some (Some h) -> key <> HymnInfo.num h) ->
  entryOf (SDATA st') key = entryOf (SDATA st) key.
Proof.
  intros Hrun Hkey.
  apply run_cases in Hrun as [[-> _]|(h & q & Hh & _ & Hu & _)]; [done|].
  apply updateData_Ok in Hu as (m & d & HS & Hm & HS').
  rewrite HS', HS, (entryOf_update m d _ _ _ Hm).
  rewrite decide_False; [done|]. intros Heq. by apply (Hkey h Hh).
Qed.

Lemma round_leaves_others_witness :
  match ThreadBackground.run dueSession with
  | Ok st' => entryOf (SDATA st') "002" = entryOf (SDATA dueSession) "002"
  | Raise _ => False
  end.
Proof.
  assert (Hok : match ThreadBackground.run dueSession with
                | Ok _ => true
                | Raise _ => false
                end = true) by (vm_compute; reflexivity).
  destruct (ThreadBackground.run dueSession) as [st'|e] eqn:Hrun.
  - apply (round_leaves_others dueSession st' "002" Hrun).
    intros h [= <-]. discriminate.
  - discriminate Hok.
Defined.

(** ** Colours as text and back *)

Lemma two_hex_range : forallb two_hex (range 256) = true.
Proof. vm_compute. reflexivity. Qed.

Lemma format_02x_two z :
  0 <= z <= 255 ->
  exists x y,
    System.format_02x (PNum z) = Ok (String x (String y ""))
    /\ System.int16 (String x (String y "")) = Some z.
Proof.
  intros Hz. pose proof two_hex_range as H. rewrite forallb_forall in H.
  specialize (H z). rewrite range_In in H. specialize (H ltac:(lia)).
  unfold two_hex in H.
  destruct (System.format_02x (PNum z)) as [s|e]; [|discriminate].
  destruct s as [|x [|y [|? ?]]]; try discriminate.
  destruct (System.int16 _) as [v|] eqn:E; [|discriminate].
  apply Z.eqb_eq in H. subst v. by exists x, y.
Qed.

(** The text that [RGBtoHEX] makes of a colour reads back, through
    [QCl], as the three components of the colour. *)
Theorem RGBtoHEX_QCl r g b a :
  0 <= r <= 255 -> 0 <= g <= 255 -> 0 <= b <= 255 ->
  System.RGBtoHEX [PNum r; PNum g; PNum b; a] ≫= System.QCl = Ok (r, g, b).
Proof.
  intros Hr Hg Hb.
  destruct (format_02x_two r Hr) as (x1 & y1 & F1 & I1).
  destruct (format_02x_two g Hg) as (x2 & y2 & F2 & I2).
  destruct (format_02x_two b Hb) as (x3 & y3 & F3 & I3).
  unfold System.RGBtoHEX. cbn [lookup list_lookup delete list_delete].
  rewrite F1, F2, F3. cbn [mbind result_bind].
  change ("#" ++ String x1 (String y1 "") ++ String x2 (String y2 "")
          ++ String x3 (String y3 ""))
    with (String "#" (String x1 (String y1 (String x2 (String y2
            (String x3 (String y3 ""))))))).
  unfold System.QCl. cbn [System.has_char Ascii.eqb Bool.eqb orb].
  change (Py.slice (String "#" (String x1 (String y1 (String x2 (String y2
            (String x3 (String y3 ""))))))) (Some 1) None)
    with (String x1 (String y1 (String x2 (String y2
            (String x3 (String y3 "")))))).
  change (Py.slice (String x1 (String y1 (String x2 (String y2
            (String x3 (String y3 "")))))) (Some 0) (Some 2))
    with (String x1 (String y1 "")).
  change (Py.slice (String x1 (String y1 (String x2 (String y2
            (String x3 (String y3 "")))))) (Some 2) (Some 4))
    with (String x2 (String y2 "")).
  change (Py.slice (String x1 (String y1 (String x2 (String y2
            (String x3 (String y3 "")))))) (Some 4) (Some 6))
    with (String x3 (String y3 "")).
  rewrite I1, I2, I3. reflexivity.
Qed.

Lemma RGBtoHEX_QCl_witness :
  System.RGBtoHEX [PNum 0; PNum 75; PNum 116; PNum 255] ≫= System.QCl
  = Ok (0, 75, 116).
Proof. apply (RGBtoHEX_QCl 0 75 116 (PNum 255)); lia. Defined.

Lemma hex_pair_all :
  forallb (fun x => forallb (hex_pair x) all_ascii) all_ascii = true.
Proof. vm_compute. reflexivity. Qed.

Lemma all_ascii_In x : In x all_ascii.
Proof.
  unfold all_ascii. apply list_elem_of_In, list_elem_of_fmap.
  exists (nat_of_ascii x). split; [by rewrite ascii_nat_embedding|].
  apply list_elem_of_In, in_seq. pose proof (nat_ascii_bounded x). lia.
Qed.

Lemma hex_pair_spec x y vx vy :
  System.hexval x = Some vx -> System.hexval y = Some vy ->
  System.int16 (String x (String y "")) = Some (16 * vx + vy)
  /\ System.format_02x (PNum (16 * vx + vy))
     = Ok (String (System.hexdigit vx) (String (System.hexdigit vy) "")).
Proof.
  intros Hx Hy. pose proof hex_pair_all as H. rewrite forallb_forall in H.
  specialize (H x (all_ascii_In x)). rewrite forallb_forall in H.
  specialize (H y (all_ascii_In y)). unfold hex_pair in H.
  rewrite Hx, Hy in H.
  destruct (System.int16 _) as [v|]; [|discriminate].
  destruct (System.format_02x _) as [s|e]; [|discriminate].
  apply andb_prop in H as [Hv Hs].
  apply Z.eqb_eq in Hv. apply String.eqb_eq in Hs. by subst.
Qed.

(** A colour text of a number sign and six digits of base 16 reads as
    three components that [RGBtoHEX] writes as the same text, in lower
    case. *)
Theorem QCl_RGBtoHEX h1 h2 h3 h4 h5 h6 v1 v2 v3 v4 v5 v6 a :
  System.hexval h1 = Some v1 -> System.hexval h2 = Some v2 ->
  System.hexval h3 = Some v3 -> System.hexval h4 = Some v4 ->
  System.hexval h5 = Some v5 -> System.hexval h6 = Some v6 ->
  System.QCl (String "#" (String h1 (String h2 (String h3 (String h4
                (String h5 (String h6 "")))))))
  = Ok (16 * v1 + v2, 16 * v3 + v4, 16 * v5 + v6)
  /\ System.RGBtoHEX [PNum (16 * v1 + v2); PNum (16 * v3 + v4);
                      PNum (16 * v5 + v6); a]
     = Ok (String "#"
             (String (System.hexdigit v1) (String (System.hexdigit v2)
             (String (System.hexdigit v3) (String (System.hexdigit v4)
             (String (System.hexdigit v5) (String (System.hexdigit v6) ""))))))).
Proof.
  intros H1 H2 H3 H4 H5 H6.
  destruct (hex_pair_spec h1 h2 v1 v2 H1 H2) as [I1 F1].
  destruct (hex_pair_spec h3 h4 v3 v4 H3 H4) as [I2 F2].
  destruct (hex_pair_spec h5 h6 v5 v6 H5 H6) as [I3 F3].
  split.
  - unfold System.QCl. cbn [System.has_char Ascii.eqb Bool.eqb orb].
    change (Py.slice (String "#" (String h1 (String h2 (String h3 (String h4
              (String h5 (String h6 ""))))))) (Some 1) None)
      with (String h1 (String h2 (String h3 (String h4
              (String h5 (String h6 "")))))).
    change (Py.slice (String h1 (String h2 (String h3 (String h4
              (String h5 (String h6 "")))))) (Some 0) (Some 2))
      with (String h1 (String h2 "")).
    change (Py.slice (String h1 (String h2 (String h3 (String h4
              (String h5 (String h6 "")))))) (Some 2) (Some 4))
      with (String h3 (String h4 "")).
    change (Py.slice (String h1 (String h2 (String h3 (String h4
              (String h5 (String h6 "")))))) (Some 4) (Some 6))
      with (String h5 (String h6 "")).
    rewrite I1, I2, I3. reflexivity.
  - unfold System.RGBtoHEX. cbn [lookup list_lookup delete list_delete].
    rewrite F1, F2, F3. reflexivity.
Qed.

Lemma QCl_RGBtoHEX_witness :
  System.QCl "#004B74" = Ok (16 * 0 + 0, 16 * 4 + 11, 16 * 7 + 4)
  /\ System.RGBtoHEX [PNum (16 * 0 + 0); PNum (16 * 4 + 11);
                      PNum (16 * 7 + 4); PNum 255]
     = Ok (String "#"
             (String (System.hexdigit 0) (String (System.hexdigit 0)
             (String (System.hexdigit 4) (String (System.hexdigit 11)
             (String (System.hexdigit 7) (String (System.hexdigit 4) ""))))))).
Proof.
  apply (QCl_RGBtoHEX "0" "0" "4" "B" "7" "4" 0 0 4 11 7 4 (PNum 255));
    reflexivity.
Defined.

Lemma format_02x_int v :
  exists s, System.format_02x v = (if is_int v then Ok s else Raise TypeError).
Proof. destruct v; simpl; first [by eexists|by exists ""]. Qed.

(** [RGBtoHEX] returns a text, which starts with the number sign, for
    sequences of exactly four components of which the first three are
    [int]s; of a shorter sequence the fourth component cannot be deleted
    ([IndexError]), and anything else does not fit the format
    ([TypeError]). *)
Theorem RGBtoHEX_arity rgb :
  match System.RGBtoHEX rgb with
  | Ok s =>
      exists r g b a t,
        rgb = [r; g; b; a] /\ is_int r && is_int g && is_int b = true
        /\ s = String "#" t
  | Raise e =>
      (e = IndexError /\ (List.length rgb < 4)%nat)
      \/ (e = TypeError /\ (4 <= List.length rgb)%nat
          /\ forall r g b a, rgb = [r; g; b; a] ->
               is_int r && is_int g && is_int b = false)
  end.
Proof.
  unfold System.RGBtoHEX.
  destruct rgb as [|r [|g [|b [|a rest]]]]; cbn [lookup list_lookup];
    try (left; split; [reflexivity|simpl; lia]).
  cbn [delete list_delete].
  destruct rest as [|x rest];
    [|right; repeat split; [simpl; lia|]; intros ? ? ? ? [=]].
  destruct (format_02x_int r) as (sr & ->).
  destruct (format_02x_int g) as (sg & ->).
  destruct (format_02x_int b) as (sb & ->).
  destruct (is_int r) eqn:Er; cbn [mbind result_bind].
  - destruct (is_int g) eqn:Eg; cbn [mbind result_bind].
    + destruct (is_int b) eqn:Eb; cbn [mbind result_bind].
      * exists r, g, b, a, (sr ++ sg ++ sb). by rewrite Er, Eg, Eb.
      * right. repeat split; [simpl; lia|].
        intros ? ? ? ? [= <- <- <- <-]. by rewrite Er, Eg, Eb.
    + right. repeat split; [simpl; lia|].
      intros ? ? ? ? [= <- <- <- <-]. by rewrite Er, Eg.
  - right. repeat split; [simpl; lia|].
    intros ? ? ? ? [= <- <- <- <-]. by rewrite Er.
Qed.

(** ** Old files removed from a folder *)

Lemma path_inj DIR a b : os.path DIR a = os.path DIR b -> a = b.
Proof.
  unfold os.path. induction DIR as [|c DIR IH]; intros H.
  - by injection H.
  - rewrite !append_cons in H. injection H as H. by apply IH.
Qed.

Lemma listing_selected DIR keep d :
  FileManager.listing DIR keep d
  = (fun e => os.path DIR (d_name e)) <$> selected keep d.
Proof.
  unfold FileManager.listing, selected, os.listdir.
  induction d as [|e d IH]; [reflexivity|]. cbn [fmap list_fmap].
  change (filter (fun i : string => keep i = true) (d_name e :: (d_name <$> d)))
    with (if decide (keep (d_name e) = true)
          then d_name e :: filter (fun i : string => keep i = true) (d_name <$> d)
          else filter (fun i : string => keep i = true) (d_name <$> d)).
  change (filter (fun e : dirent => keep (d_name e) = true) (e :: d))
    with (if decide (keep (d_name e) = true)
          then e :: filter (fun e : dirent => keep (d_name e) = true) d
          else filter (fun e : dirent => keep (d_name e) = true) d).
  destruct (decide (keep (d_name e) = true));
    cbn [fmap list_fmap]; [f_equal|]; exact IH.
Qed.

Lemma file_at_In DIR (d : folder) e :
  NoDup (os.listdir d) -> In e d ->
  os.file_at DIR d (os.path DIR (d_name e)) = Some e.
Proof.
  unfold os.file_at, os.listdir. induction d as [|x d IH]; [intros _ []|].
  cbn [fmap list_fmap]. rewrite NoDup_cons. intros [Hx Hnd] [->|Hin].
  - simpl. by rewrite String.eqb_refl.
  - simpl. destruct (String.eqb_spec (os.path DIR (d_name x))
                       (os.path DIR (d_name e))) as [Heq|Hne].
    + apply path_inj in Heq. exfalso. apply Hx. rewrite Heq.
      apply list_elem_of_fmap. exists e. split; [done|].
      by apply list_elem_of_In.
    + by apply IH.
Qed.

Lemma getatime_In DIR (d : folder) e :
  NoDup (os.listdir d) -> In e d ->
  os.getatime DIR d (os.path DIR (d_name e)) = Ok (d_atime e).
Proof. intros Hnd Hin. unfold os.getatime. by rewrite file_at_In. Qed.

Lemma selected_In keep (d : folder) e :
  In e (selected keep d) <-> In e d /\ keep (d_name e) = true.
Proof.
  unfold selected. rewrite <- !list_elem_of_In, list_elem_of_filter. tauto.
Qed.

(** [min] picks a file of least access time. *)
Lemma min_from_spec DIR (d : folder) best (l : list dirent) :
  NoDup (os.listdir d) -> In best d -> (forall e, In e l -> In e d) ->
  exists e,
    FileManager.min_from (os.getatime DIR d) (os.path DIR (d_name best))
      (d_atime best) ((fun e => os.path DIR (d_name e)) <$> l)
    = Ok (os.path DIR (d_name e))
    /\ In e (best :: l)
    /\ forall e', In e' (best :: l) -> d_atime e <= d_atime e'.
Proof.
  intros Hnd. revert best. induction l as [|x l IH]; intros best Hb Hl.
  - exists best. split; [reflexivity|]. split; [by left|].
    intros e' [<-|[]]. lia.
  - cbn [fmap list_fmap FileManager.min_from].
    rewrite (getatime_In DIR d x Hnd) by (apply Hl; by left).
    cbn [mbind result_bind].
    destruct (Z.ltb_spec (d_atime x) (d_atime best)) as [Hlt|Hge].
    + destruct (IH x) as (e & He & Hin & Hmin);
        [apply Hl; by left|intros; apply Hl; by right|].
      exists e. split; [exact He|]. split.
      * destruct Hin as [<-|Hin]; [right; by left|right; by right].
      * intros e' [<-|[<-|Hin']].
        -- specialize (Hmin x ltac:(by left)). lia.
        -- apply Hmin. by left.
        -- apply Hmin. by right.
    + destruct (IH best) as (e & He & Hin & Hmin);
        [done|intros; apply Hl; by right|].
      exists e. split; [exact He|]. split.
      * destruct Hin as [<-|Hin]; [by left|right; by right].
      * intros e' [<-|[<-|Hin']].
        -- apply Hmin. by left.
        -- specialize (Hmin best ltac:(by left)). lia.
        -- apply Hmin. by right.
Qed.

Lemma min_by_spec DIR (d : folder) (l : list dirent) :
  NoDup (os.listdir d) -> (forall e, In e l -> In e d) -> l <> [] ->
  exists e,
    FileManager.min_by (os.getatime DIR d)
      ((fun e => os.path DIR (d_name e)) <$> l)
    = Ok (os.path DIR (d_name e))
    /\ In e l /\ forall e', In e' l -> d_atime e <= d_atime e'.
Proof.
  intros Hnd Hl Hne. destruct l as [|x l]; [done|].
  cbn [fmap list_fmap FileManager.min_by].
  rewrite (getatime_In DIR d x Hnd) by (apply Hl; by left).
  cbn [mbind result_bind].
  apply min_from_spec; [done|apply Hl; by left|intros; apply Hl; by right].
Qed.

Lemma without_cons n x (d : folder) :
  without n (x :: d)
  = if decide (d_name x <> n) then x :: without n d else without n d.
Proof. reflexivity. Qed.

Lemma selected_cons keep x (d : folder) :
  selected keep (x :: d)
  = if decide (keep (d_name x) = true) then x :: selected keep d
    else selected keep d.
Proof. reflexivity. Qed.

Lemma remove_path DIR (d : folder) n :
  filter (fun e' : dirent => os.path DIR (d_name e') <> os.path DIR n) d
  = without n d.
Proof.
  induction d as [|x d IH]; [reflexivity|].
  rewrite without_cons, <- IH.
  change (filter (fun e' : dirent => os.path DIR (d_name e') <> os.path DIR n)
            (x :: d))
    with (if decide (os.path DIR (d_name x) <> os.path DIR n)
          then x :: filter (fun e' : dirent =>
                              os.path DIR (d_name e') <> os.path DIR n) d
          else filter (fun e' : dirent =>
                         os.path DIR (d_name e') <> os.path DIR n) d).
  destruct (decide (os.path DIR (d_name x) <> os.path DIR n)) as [H|H],
           (decide (d_name x <> n)) as [H'|H']; try reflexivity.
  - exfalso. apply H'. intros Heq. apply H. by rewrite Heq.
  - exfalso. apply H. intros Heq. by apply path_inj in Heq.
Qed.

Lemma without_In n (d : folder) e :
  In e (without n d) <-> In e d /\ d_name e <> n.
Proof.
  unfold without. rewrite <- !list_elem_of_In, list_elem_of_filter. tauto.
Qed.

Lemma without_NoDup n (d : folder) :
  NoDup (os.listdir d) -> NoDup (os.listdir (without n d)).
Proof.
  unfold os.listdir. induction d as [|x d IH]; [done|].
  cbn [fmap list_fmap]. rewrite NoDup_cons. intros [Hx Hnd].
  rewrite without_cons. destruct (decide (d_name x <> n)); [|by apply IH].
  cbn [fmap list_fmap]. apply NoDup_cons. split; [|by apply IH].
  intros Hin. apply Hx. apply list_elem_of_fmap in Hin as (y & Hy & Hin).
  apply list_elem_of_In, without_In in Hin as [Hin _].
  apply list_elem_of_fmap. exists y. split; [done|].
  by apply list_elem_of_In.
Qed.

Lemma without_sublist n (d : folder) : sublist (without n d) d.
Proof. apply sublist_filter. Qed.

Lemma without_notin n (d : folder) :
  ~ In n (os.listdir d) -> without n d = d.
Proof.
  unfold os.listdir. induction d as [|x d IH]; [done|].
  cbn [fmap list_fmap]. intros Hn. rewrite without_cons.
  rewrite decide_True by (intros Heq; apply Hn; by left).
  f_equal. apply IH. intros Hin. apply Hn. by right.
Qed.

(** Removing a selected file of a folder without double names takes one
    off the count of selected files. *)
Lemma without_selected keep (d : folder) e :
  NoDup (os.listdir d) -> In e d -> keep (d_name e) = true ->
  List.length (selected keep d)
  = S (List.length (selected keep (without (d_name e) d))).
Proof.
  induction d as [|x d IH]; [intros _ []|].
  unfold os.listdir. cbn [fmap list_fmap]. rewrite NoDup_cons.
  intros [Hx Hnd] Hin Hk. rewrite list_elem_of_In in Hx.
  destruct Hin as [->|Hin].
  - rewrite without_cons, decide_False by (intros H; by apply H).
    rewrite (without_notin _ _ Hx).
    by rewrite selected_cons, decide_True by done.
  - assert (Hne : d_name x <> d_name e).
    { intros Heq. apply Hx. rewrite Heq.
      apply list_elem_of_In, list_elem_of_fmap. exists e.
      split; [done|]. by apply list_elem_of_In. }
    rewrite without_cons, decide_True by done.
    rewrite !selected_cons.
    destruct (decide (keep (d_name x) = true)); cbn [List.length];
      by rewrite (IH Hnd Hin Hk).
Qed.

(** One round of the loop, with more files than the limit and none of
    them held open: a file of least access time goes. *)
Lemma deleteBody_step DIR keep threshold deleteAll (d : folder) :
  NoDup (os.listdir d) ->
  (forall e, In e (selected keep d) -> d_busy e = false) ->
  0 <= limitOf threshold deleteAll ->
  Z.of_nat (List.length (selected keep d)) > limitOf threshold deleteAll ->
  exists e,
    In e (selected keep d)
    /\ (forall e', In e' (selected keep d) -> d_atime e <= d_atime e')
    /\ FileManager.deleteBody DIR (FileManager.listing DIR keep)
         threshold deleteAll d
       = Continue (without (d_name e) d).
Proof.
  intros Hnd Hfree Hlim Hmore. unfold FileManager.deleteBody.
  rewrite listing_selected, length_fmap. fold (limitOf threshold deleteAll).
  assert (Hgt : (Z.of_nat (List.length (selected keep d))
                 >? limitOf threshold deleteAll) = true) by lia.
  rewrite Hgt.
  destruct (min_by_spec DIR d (selected keep d) Hnd) as (e & Hmin & Hin & Hle).
  { intros e He. by apply selected_In in He as [He _]. }
  { intros Heq. rewrite Heq in Hmore. simpl in Hmore. lia. }
  exists e. split; [done|]. split; [done|]. rewrite Hmin.
  unfold os.remove. pose proof Hin as Hin'. apply selected_In in Hin' as [Hd _].
  rewrite (file_at_In DIR d e Hnd Hd), (Hfree e Hin).
  by rewrite remove_path.
Qed.

Lemma selected_without keep n (d : folder) e :
  In e (selected keep (without n d)) -> In e (selected keep d).
Proof.
  rewrite !selected_In, without_In. tauto.
Qed.

Lemma deleteOldest_trims DIR keep threshold deleteAll fuel (d : folder) :
  NoDup (os.listdir d) ->
  (forall e, In e (selected keep d) -> d_busy e = false) ->
  0 <= limitOf threshold deleteAll ->
  (List.length (selected keep d) < fuel)%nat ->
  exists d',
    FileManager.deleteOldest DIR (FileManager.listing DIR keep)
      threshold deleteAll fuel d = Some (Ok tt, d')
    /\ trimmed keep (limitOf threshold deleteAll) d d'.
Proof.
  intros Hnd Hfree Hlim. revert d Hnd Hfree.
  induction fuel as [|fuel IH]; intros d Hnd Hfree Hfuel; [lia|].
  unfold FileManager.deleteOldest. cbn [while].
  destruct (Z_gt_le_dec (Z.of_nat (List.length (selected keep d)))
              (limitOf threshold deleteAll)) as [Hmore|Hfew].
  - destruct (deleteBody_step DIR keep threshold deleteAll d Hnd Hfree Hlim Hmore)
      as (e & Hin & Hmin & ->).
    pose proof Hin as Hin'. apply selected_In in Hin' as [Hd Hk].
    pose proof (without_selected keep d e Hnd Hd Hk) as Hlen.
    destruct (IH (without (d_name e) d)) as (d' & Hrun & Hs & Hkept & Hcount & Hold).
    { by apply without_NoDup. }
    { intros e' He'. apply Hfree. by apply selected_without in He'. }
    { lia. }
    exists d'. split; [exact Hrun|]. split; [|split; [|split]].
    + etrans; [exact Hs|apply without_sublist].
    + intros e' He' Hk'. apply Hkept; [|done]. apply without_In.
      split; [done|]. intros Heq. rewrite Heq in Hk'. congruence.
    + rewrite Hcount. lia.
    + intros e1 e2 H1 Hgone H2.
      destruct (decide (d_name e1 = d_name e)) as [Heq|Hne].
      * assert (e1 = e) as ->.
        { pose proof (file_at_In DIR d e1 Hnd H1) as F1.
          pose proof (file_at_In DIR d e Hnd Hd) as F2.
          rewrite Heq in F1. congruence. }
        apply Hmin. apply selected_without with (n := d_name e).
        apply selected_In. apply selected_In in H2 as [H2 H2k].
        split; [|done]. apply list_elem_of_In.
        eapply elem_of_sublist; [|exact Hs]. by apply list_elem_of_In.
      * apply Hold; [|done|done]. apply without_In. by split.
  - exists d. unfold FileManager.deleteBody.
    rewrite listing_selected, length_fmap. fold (limitOf threshold deleteAll).
    assert (Hgt : (Z.of_nat (List.length (selected keep d))
                   >? limitOf threshold deleteAll) = false) by lia.
    rewrite Hgt. split; [reflexivity|]. split; [done|].
    split; [done|]. split; [lia|]. intros e e' He Hgone. contradiction.
Qed.

Lemma selected_length keep (d : folder) :
  (List.length (selected keep d) <= List.length d)%nat.
Proof. apply length_filter. Qed.

Lemma recentThreshold_range v : 3 <= FileManager.recentThreshold v <= 30.
Proof.
  unfold FileManager.recentThreshold, RECENTS.DEFAULT, RECENTS.ALLOWEDMIN,
    RECENTS.ALLOWEDMAX.
  destruct (Py.int v) as [n|].
  - destruct (Z.ltb_spec n 3), (Z.gtb_spec n 30); simpl; lia.
  - simpl. lia.
Qed.

(** [deleteRecent] on a temporary folder none of whose presentations is
    held open: the loop ends, within as many rounds as the folder has
    files; the threshold it applies lies between 3 and 30 whatever the
    configuration says; what is left are files of the folder, in their
    order, with every file that is no recent presentation among them and
    as many recent presentations as the limit allows (none when all are
    to go), none of which was accessed before a file that is gone. *)
Theorem deleteRecent_keeps_newest v deleteAll fuel (d : folder) :
  NoDup (os.listdir d) ->
  (forall e, In e (selected FileManager.recentName d) -> d_busy e = false) ->
  (List.length d < fuel)%nat ->
  3 <= FileManager.recentThreshold v <= 30
  /\ exists d',
       FileManager.deleteRecent v deleteAll fuel d = Some (Ok tt, d')
       /\ trimmed FileManager.recentName
            (limitOf (FileManager.recentThreshold v) deleteAll) d d'.
Proof.
  intros Hnd Hfree Hfuel. pose proof (recentThreshold_range v) as HT.
  split; [exact HT|]. unfold FileManager.deleteRecent, FileManager.getRecentFiles.
  apply deleteOldest_trims; [done|done| |].
  - unfold limitOf. destruct deleteAll; simpl; lia.
  - pose proof (selected_length FileManager.recentName d). lia.
Qed.

Lemma deleteRecent_keeps_newest_witness :
  3 <= FileManager.recentThreshold "3" <= 30
  /\ exists d',
       FileManager.deleteRecent "3" false 7 demoFolder = Some (Ok tt, d')
       /\ trimmed FileManager.recentName
            (limitOf (FileManager.recentThreshold "3") false) demoFolder d'.
Proof.
  apply (deleteRecent_keeps_newest "3" false 7 demoFolder).
  - apply (bool_decide_unpack _). vm_compute. exact I.
  - intros e He. vm_compute in He.
    repeat (destruct He as [<-|He]; [reflexivity|]). destruct He.
  - simpl. lia.
Defined.

(** [deleteLogs] on a folder of logs none of which is held open: the
    loop ends, and what is left are the files of the folder, in their
    order, with every file that is no log among them and at most ten
    logs (none when all are to go), none of which was accessed before a
    file that is gone. *)
Theorem deleteLogs_keeps_newest deleteAll fuel (d : folder) :
  NoDup (os.listdir d) ->
  (forall e, In e (selected FileManager.logName d) -> d_busy e = false) ->
  (List.length d < fuel)%nat ->
  exists d',
    FileManager.deleteLogs deleteAll fuel d = Some (Ok tt, d')
    /\ trimmed FileManager.logName (if deleteAll then 0 else 10) d d'.
Proof.
  intros Hnd Hfree Hfuel.
  unfold FileManager.deleteLogs, FileManager.getLogFiles.
  replace (if deleteAll then 0 else 10)
    with (limitOf FileManager.LOG_FILE_LIMIT deleteAll)
    by by destruct deleteAll.
  apply deleteOldest_trims; [done|done| |].
  - unfold limitOf, FileManager.LOG_FILE_LIMIT. destruct deleteAll; simpl; lia.
  - pose proof (selected_length FileManager.logName d). lia.
Qed.

Lemma deleteLogs_keeps_newest_witness :
  exists d',
    FileManager.deleteLogs true 4 logFolder = Some (Ok tt, d')
    /\ trimmed FileManager.logName (if true then 0 else 10) logFolder d'.
Proof.
  apply (deleteLogs_keeps_newest true 4 logFolder).
  - apply (bool_decide_unpack _). vm_compute. exact I.
  - intros e He. vm_compute in He.
    repeat (destruct He as [<-|He]; [reflexivity|]). destruct He.
  - simpl. lia.
Defined.

(** With more files than the limit and every file of least access time
    held open, [os.remove] is refused round after round: the loop of
    [deleteOldest] has not ended after any number of rounds, and the
    folder stays as it is. *)
Theorem deleteOldest_stuck DIR keep threshold deleteAll fuel (d : folder) :
  NoDup (os.listdir d) ->
  0 <= limitOf threshold deleteAll
    < Z.of_nat (List.length (selected keep d)) ->
  (forall e, In e (selected keep d) ->
     (forall e', In e' (selected keep d) -> d_atime e <= d_atime e') ->
     d_busy e = true) ->
  FileManager.deleteOldest DIR (FileManager.listing DIR keep)
    threshold deleteAll fuel d = None.
Proof.
  intros Hnd Hlim Hbusy.
  assert (Hbody : FileManager.deleteBody DIR (FileManager.listing DIR keep)
                    threshold deleteAll d = Continue d).
  { unfold FileManager.deleteBody.
    rewrite listing_selected, length_fmap. fold (limitOf threshold deleteAll).
    assert (Hgt : (Z.of_nat (List.length (selected keep d))
                   >? limitOf threshold deleteAll) = true) by lia.
    rewrite Hgt.
    destruct (min_by_spec DIR d (selected keep d) Hnd) as (e & Hmin & Hin & Hle).
    { intros e He. by apply selected_In in He as [He _]. }
    { intros Heq. rewrite Heq in Hlim. simpl in Hlim. lia. }
    rewrite Hmin. unfold os.remove.
    pose proof Hin as Hin'. apply selected_In in Hin' as [Hd _].
    by rewrite (file_at_In DIR d e Hnd Hd), (Hbusy e Hin Hle). }
  unfold FileManager.deleteOldest.
  induction fuel as [|fuel IH]; [reflexivity|].
  cbn [while]. by rewrite Hbody.
Qed.

Lemma deleteOldest_stuck_witness :
  FileManager.deleteOldest FileManager.DIR_TEMP
    (FileManager.listing FileManager.DIR_TEMP FileManager.recentName)
    2 false 1000 busyFolder = None.
Proof.
  apply (deleteOldest_stuck FileManager.DIR_TEMP FileManager.recentName
           2 false 1000 busyFolder).
  - apply (bool_decide_unpack _). vm_compute. exact I.
  - vm_compute. split; [discriminate|reflexivity].
  - intros e He Hmin. vm_compute in He.
    destruct He as [<-|[<-|[<-|[]]]]; [|reflexivity|].
    + specialize (Hmin (mkDirent "002 B.pptx" 3 true)).
      vm_compute in Hmin. exfalso. apply Hmin; [|reflexivity].
      right. by left.
    + specialize (Hmin (mkDirent "002 B.pptx" 3 true)).
      vm_compute in Hmin. exfalso. apply Hmin; [|reflexivity].
      right. by left.
Defined.

(** ** The recent list after a launch *)

Lemma getatime_listed DIR (d : folder) n :
  In n (os.listdir d) -> exists t, os.getatime DIR d (os.path DIR n) = Ok t.
Proof.
  unfold os.getatime, os.file_at, os.listdir.
  induction d as [|x d IH]; [intros []|]. cbn [fmap list_fmap].
  intros Hin. simpl.
  destruct (String.eqb (os.path DIR (d_name x)) (os.path DIR n)) eqn:E;
    [by eexists|].
  destruct Hin as [Heq|Hin]; [|by apply IH].
  rewrite Heq, String.eqb_refl in E. discriminate.
Qed.

Lemma decorate_Ok (key : string -> result Z) l :
  (forall x, In x l -> exists t, key x = Ok t) ->
  exists keyed, QWGT_BROWSER.decorate key l = Ok keyed.
Proof.
  induction l as [|x l IH]; intros H; [by eexists|]. simpl.
  destruct (H x) as (t & ->); [by left|]. simpl.
  destruct IH as (keyed & ->); [intros; apply H; by right|].
  by eexists.
Qed.

Lemma listing_listed DIR keep (d : folder) x :
  In x (FileManager.listing DIR keep d) ->
  exists n, x = os.path DIR n /\ In n (os.listdir d).
Proof.
  unfold FileManager.listing. rewrite <- list_elem_of_In, list_elem_of_fmap.
  intros (n & -> & Hn). apply list_elem_of_filter in Hn as [_ Hn].
  exists n. split; [done|]. by apply list_elem_of_In.
Qed.

(** [updateRecentList] in terms of the list shown without a launch. *)
Lemma updateRecentList_shown (d : folder) :
  (forall v info,
     QWGT_BROWSER.updateRecentList 0 v info d = Ok (shown d, -1))
  /\ (forall w v info, w <> 0 ->
        QWGT_BROWSER.updateRecentList w v info d
        = (cur ← QWGT_BROWSER.currentName info;
           match QWGT_BROWSER.index (shown d) cur with
           | None => Raise ValueError
           | Some p =>
               match Py.int v with
               | None => Raise ValueError
               | Some M =>
                   Ok (QWGT_BROWSER.adjust (rev (seq 0 (Z.to_nat M))) cur
                         (<[p := "0"]> (shown d)), 0)
               end
           end)).
Proof.
  unfold shown, QWGT_BROWSER.updateRecentList.
  destruct (decorate_Ok (os.getatime FileManager.DIR_TEMP d)
              (FileManager.listing FileManager.DIR_TEMP
                 FileManager.recentName d)) as (keyed & ->).
  { intros x Hx. apply listing_listed in Hx as (n & -> & Hn).
    by apply getatime_listed. }
  cbn [mbind result_bind]. change (0 =? 0) with true. cbv iota.
  split; [reflexivity|]. intros w v info Hw.
  assert (Hz : (w =? 0) = false) by lia. by rewrite Hz.
Qed.

(** The items that [k] rounds of the shift have moved up by one. *)
Lemma shift_rounds (l : list string) p k i :
  (p < List.length l)%nat -> (k <= p)%nat ->
  fold_left (fun S j => match S !! (p - (j + 1))%nat with
                        | Some x => <[(p - j)%nat := x]> S
                        | None => S
                        end)
            (seq 0 k) l !! i
  = if decide (p - k < i <= p)%nat then l !! (i - 1)%nat else l !! i.
Proof.
  intros Hp. revert i. induction k as [|k IH]; intros i Hk.
  - simpl. case_decide; [lia|done].
  - rewrite seq_S, fold_left_app. cbn [fold_left plus].
    set (L := fold_left _ (seq 0 k) l) in *.
    assert (Hlen : List.length L = List.length l).
    { subst L. clear. generalize (seq 0 k). intros js. revert l.
      induction js as [|j js IHjs]; intros l; [done|]. simpl.
      rewrite IHjs. destruct (l !! _); [by rewrite length_insert|done]. }
    assert (Hread : L !! (p - (k + 1))%nat = l !! (p - (k + 1))%nat).
    { rewrite IH by lia. case_decide; [lia|done]. }
    rewrite Hread.
    destruct (l !! (p - (k + 1))%nat) as [x|] eqn:Ex.
    2:{ apply lookup_ge_None in Ex. lia. }
    destruct (decide (i = p - k)%nat) as [->|Hne].
    + rewrite list_lookup_insert_eq by lia.
      rewrite decide_True by lia.
      replace (p - k - 1)%nat with (p - (k + 1))%nat by lia. done.
    + rewrite list_lookup_insert_ne by done. rewrite IH by lia.
      repeat case_decide; try lia; done.
Qed.

Lemma shift_front (l : list string) p cur :
  (p < List.length l)%nat ->
  <[0%nat := cur]> (QWGT_BROWSER.shift p l)
  = cur :: take p l ++ drop (S p) l.
Proof.
  intros Hp. apply list_eq. intros i. unfold QWGT_BROWSER.shift.
  assert (Hlen : List.length
            (fold_left (fun S j => match S !! (p - (j + 1))%nat with
                                   | Some x => <[(p - j)%nat := x]> S
                                   | None => S
                                   end) (seq 0 p) l) = List.length l).
  { generalize (seq 0 p). intros js. clear. revert l.
    induction js as [|j js IHjs]; intros l; [done|]. simpl.
    rewrite IHjs. destruct (l !! _); [by rewrite length_insert|done]. }
  destruct i as [|i].
  - rewrite list_lookup_insert_eq by lia. done.
  - rewrite list_lookup_insert_ne by done.
    rewrite (shift_rounds l p p (S i) Hp) by lia.
    change ((cur :: take p l ++ drop (S p) l) !! S i)
      with ((take p l ++ drop (S p) l)%list !! i).
    case_decide as Hi.
    + rewrite lookup_app_l by (rewrite length_take; lia).
      rewrite lookup_take_lt by lia. f_equal. lia.
    + rewrite lookup_app_r by (rewrite length_take; lia).
      rewrite length_take, lookup_drop. f_equal. lia.
Qed.

Lemma adjust_spec rounds cur (S : list string) p0 :
  QWGT_BROWSER.index S "0" = Some p0 ->
  QWGT_BROWSER.adjust rounds cur S
  = if decide (p0 ∈ rounds)
    then <[0%nat := cur]> (QWGT_BROWSER.shift p0 S) else S.
Proof.
  intros Hidx. induction rounds as [|i rest IH]; [done|].
  cbn [QWGT_BROWSER.adjust]. rewrite Hidx.
  destruct (decide (Some p0 = Some i)) as [[= ->]|Hne].
  - rewrite decide_True by apply list_elem_of_here. done.
  - rewrite IH. destruct (decide (p0 ∈ rest)) as [Hin|Hnin].
    + rewrite decide_True by by apply list_elem_of_further. done.
    + rewrite decide_False; [done|]. intros Hin.
      apply elem_of_cons in Hin as [->|?]; [by apply Hne|done].
Qed.

Lemma index_lt (l : list string) s p :
  QWGT_BROWSER.index l s = Some p -> (p < List.length l)%nat.
Proof.
  revert p. induction l as [|x l IH]; intros p; simpl; [discriminate|].
  destruct (String.eqb x s); [intros [= <-]; lia|].
  destruct (QWGT_BROWSER.index l s) as [q|]; [|discriminate].
  intros [= <-]. specialize (IH q eq_refl). lia.
Qed.

(** The position of the item ['0'] once it has been written at [p]. *)
Lemma index_marked (l : list string) p :
  (p < List.length l)%nat -> ~ In "0" (take p l) ->
  QWGT_BROWSER.index (<[p := "0"]> l) "0" = Some p.
Proof.
  revert p. induction l as [|x l IH]; intros p Hp Hno; [simpl in Hp; lia|].
  destruct p as [|p]; [reflexivity|]. simpl in *.
  destruct (String.eqb_spec x "0") as [->|Hne]; [exfalso; apply Hno; by left|].
  rewrite IH; [done|lia|]. intros Hin. apply Hno. by right.
Qed.

(** After a launch, with the launched hymn at position [p] of the list
    and within the first [MaxAllowedRecent] items, it is moved to the
    front, the items before it move down by one, the others stay, and
    the first item is made current. *)
Theorem recent_moves_to_front w v h (d : folder) p M :
  w <> 0 ->
  QWGT_BROWSER.index (shown d) (HymnInfo.num h ++ " " ++ HymnInfo.title h)
  = Some p ->
  ~ In "0" (take p (shown d)) ->
  Py.int v = Some M -> Z.of_nat p < M ->
  QWGT_BROWSER.updateRecentList w v (Some (Some h)) d
  = Ok ((HymnInfo.num h ++ " " ++ HymnInfo.title h)
          :: take p (shown d) ++ drop (S p) (shown d), 0).
Proof.
  intros Hw Hidx Hno Hv HM.
  rewrite (proj2 (updateRecentList_shown d) w v _ Hw).
  cbn [QWGT_BROWSER.currentName mbind result_bind]. rewrite Hidx, Hv.
  pose proof (index_lt _ _ _ Hidx) as Hp.
  rewrite (adjust_spec _ _ _ p (index_marked _ p Hp Hno)).
  rewrite decide_True
    by (apply list_elem_of_In, in_rev; rewrite rev_involutive; apply in_seq; lia).
  rewrite shift_front by (rewrite length_insert; lia).
  rewrite take_insert_ge by lia. rewrite drop_insert_lt by lia. done.
Qed.

Lemma recent_moves_to_front_witness :
  QWGT_BROWSER.updateRecentList 1 "10" (Some (Some recentInfo)) demoFolder
  = Ok ((HymnInfo.num recentInfo ++ " " ++ HymnInfo.title recentInfo)
          :: take 3 (shown demoFolder) ++ drop 4 (shown demoFolder), 0).
Proof.
  apply (recent_moves_to_front 1 "10" recentInfo demoFolder 3 10).
  - lia.
  - vm_compute. reflexivity.
  - intros Hin. vm_compute in Hin.
    destruct Hin as [Hin|[Hin|[Hin|[]]]]; discriminate Hin.
  - vm_compute. reflexivity.
  - lia.
Defined.

(** With the launched hymn at a position beyond the first
    [MaxAllowedRecent] items, nothing is moved: the list keeps its
    order and shows the item ['0'] in the place of the hymn. *)
Theorem recent_beyond_limit w v h (d : folder) p M :
  w <> 0 ->
  QWGT_BROWSER.index (shown d) (HymnInfo.num h ++ " " ++ HymnInfo.title h)
  = Some p ->
  ~ In "0" (take p (shown d)) ->
  Py.int v = Some M -> M <= Z.of_nat p ->
  QWGT_BROWSER.updateRecentList w v (Some (Some h)) d
  = Ok (<[p := "0"]> (shown d), 0).
Proof.
  intros Hw Hidx Hno Hv HM.
  rewrite (proj2 (updateRecentList_shown d) w v _ Hw).
  cbn [QWGT_BROWSER.currentName mbind result_bind]. rewrite Hidx, Hv.
  pose proof (index_lt _ _ _ Hidx) as Hp.
  rewrite (adjust_spec _ _ _ p (index_marked _ p Hp Hno)).
  rewrite decide_False; [done|].
  intros Hin. apply list_elem_of_In, in_rev in Hin.
  rewrite ?rev_involutive in Hin. apply in_seq in Hin. lia.
Qed.

Lemma recent_beyond_limit_witness :
  QWGT_BROWSER.updateRecentList 1 "3" (Some (Some recentInfo)) demoFolder
  = Ok (<[3%nat := "0"]> (shown demoFolder), 0).
Proof.
  apply (recent_beyond_limit 1 "3" recentInfo demoFolder 3 3).
  - lia.
  - vm_compute. reflexivity.
  - intros Hin. vm_compute in Hin.
    destruct Hin as [Hin|[Hin|[Hin|[]]]]; discriminate Hin.
  - vm_compute. reflexivity.
  - lia.
Defined.

(** ** The totals of the statistics *)

Section Totals.
Variable md5 : pyval -> string.

Lemma collect_stored now ks S :
  SDB.collect md5 now ks (Stored S) = Some (entriesOf S ks, Stored S).
Proof.
  induction ks as [|k ks IH]; [reflexivity|].
  cbn [SDB.collect entriesOf]. unfold Data.load.
  cbn [while Data.loadBody mbind option_bind]. unfold entryOf.
  destruct (Py.getitem_str S "DATA" ≫= _) as [v|e]; [|reflexivity].
  rewrite IH. cbn [mbind option_bind result_bind].
  by destruct (entriesOf S ks).
Qed.

End Totals.

Lemma column_lookup j L c i row :
  SDB.column j L = Ok c -> L !! i = Some row ->
  exists v, Py.getitem_nat row j = Ok v /\ c !! i = Some v.
Proof.
  revert c i. induction L as [|s L IH]; intros c i Hc Hi; [done|].
  cbn [SDB.column] in Hc. apply bind_Ok in Hc as (v & Hv & Hc).
  apply bind_Ok in Hc as (c' & Hc' & [= <-]).
  destruct i as [|i]; simpl in Hi.
  - injection Hi as <-. by exists v.
  - destruct (IH c' i Hc' Hi) as (w & Hw & Hl). by exists w.
Qed.

Lemma column_insert j L c i row v :
  SDB.column j L = Ok c -> Py.getitem_nat row j = Ok v ->
  SDB.column j (<[i := row]> L) = Ok (<[i := v]> c).
Proof.
  revert c i. induction L as [|s L IH]; intros c i Hc Hv.
  - simpl in Hc. injection Hc as <-. reflexivity.
  - cbn [SDB.column] in Hc. apply bind_Ok in Hc as (w & Hw & Hc).
    apply bind_Ok in Hc as (c' & Hc' & [= <-]).
    destruct i as [|i]; simpl.
    + by rewrite Hv, Hc'.
    + rewrite Hw. cbn [mbind result_bind]. by rewrite (IH c' i Hc' Hv).
Qed.

Lemma sum_from_shift acc k l a :
  SDB.sum_from acc l = Ok a -> SDB.sum_from (acc + k) l = Ok (a + k).
Proof.
  revert acc. induction l as [|v l IH]; intros acc; simpl.
  - by intros [= <-].
  - destruct v; try discriminate; intros Hs;
      [replace (acc + k + Z.b2z b) with (acc + Z.b2z b + k) by lia
      |replace (acc + k + z) with (acc + z + k) by lia]; by apply IH.
Qed.

Lemma sum_insert acc l a i q q' :
  SDB.sum_from acc l = Ok a -> l !! i = Some (PNum q) ->
  SDB.sum_from acc (<[i := PNum q']> l) = Ok (a - q + q').
Proof.
  revert acc i. induction l as [|v l IH]; intros acc i Hs Hi; [done|].
  destruct i as [|i]; simpl in Hi.
  - injection Hi as ->. simpl in *.
    replace (acc + q') with (acc + q + (q' - q)) by lia.
    replace (a - q + q') with (a + (q' - q)) by lia.
    by apply sum_from_shift.
  - simpl in *. destruct v; try discriminate; by apply IH.
Qed.

Lemma numbers_lookup l zs i v :
  SDB.numbers l = Ok zs -> l !! i = Some v ->
  exists z, zs !! i = Some z
            /\ (v = PNum z \/ exists b, v = PBool b /\ z = Z.b2z b).
Proof.
  revert zs i. induction l as [|w l IH]; intros zs i Hn Hi; [done|].
  simpl in Hn.
  destruct w; try discriminate;
    apply bind_Ok in Hn as (zs' & Hzs & [= <-]);
    (destruct i as [|i]; simpl in Hi;
     [injection Hi as <-; eexists; split; [reflexivity|eauto]
     |destruct (IH zs' i Hzs Hi) as (z' & Hz & Hv); by exists z']).
Qed.

Lemma numbers_insert l zs i t' :
  SDB.numbers l = Ok zs ->
  SDB.numbers (<[i := PNum t']> l) = Ok (<[i := t']> zs).
Proof.
  revert zs i. induction l as [|w l IH]; intros zs i Hn.
  - simpl in Hn. by injection Hn as <-.
  - simpl in Hn.
    destruct w; try discriminate;
      apply bind_Ok in Hn as (zs' & Hzs & [= <-]);
      (destruct i as [|i]; simpl;
       [by rewrite Hzs|by rewrite (IH zs' i Hzs)]).
Qed.

Lemma fold_max_spec zs z :
  In (fold_left Z.max zs z) (z :: zs)
  /\ forall x, In x (z :: zs) -> x <= fold_left Z.max zs z.
Proof.
  revert z. induction zs as [|y zs IH]; intros z; simpl.
  - split; [by left|]. intros x [<-|[]]. lia.
  - destruct (IH (Z.max z y)) as [Hin Hge]. split.
    + destruct Hin as [Heq|Hin]; [|right; by right].
      rewrite <- Heq. destruct (Z.max_spec z y) as [[_ ->]|[_ ->]];
        [right; by left|by left].
    + intros x [<-|[<-|Hx]].
      * specialize (Hge (Z.max z y) ltac:(by left)). lia.
      * specialize (Hge (Z.max z y) ltac:(by left)). lia.
      * apply Hge. by right.
Qed.

Lemma fold_min_spec zs z :
  In (fold_left Z.min zs z) (z :: zs)
  /\ forall x, In x (z :: zs) -> fold_left Z.min zs z <= x.
Proof.
  revert z. induction zs as [|y zs IH]; intros z; simpl.
  - split; [by left|]. intros x [<-|[]]. lia.
  - destruct (IH (Z.min z y)) as [Hin Hge]. split.
    + destruct Hin as [Heq|Hin]; [|right; by right].
      rewrite <- Heq. destruct (Z.min_spec z y) as [[_ ->]|[_ ->]];
        [by left|right; by left].
    + intros x [<-|[<-|Hx]].
      * specialize (Hge (Z.min z y) ltac:(by left)). lia.
      * specialize (Hge (Z.min z y) ltac:(by left)). lia.
      * apply Hge. by right.
Qed.

Lemma timedelta_Returns s r :
  SDB.timedelta s = Returns r <-> inrange s /\ r = s.
Proof.
  unfold SDB.timedelta, inrange.
  destruct (Z.leb_spec (-999999999) (s / 86400)),
           (Z.leb_spec (s / 86400) 999999999); simpl; split;
    try (intros [= <-]; split; [lia|done]); try discriminate;
    try (intros [? ->]; done); intros [? _]; lia.
Qed.

Lemma inrange_between lo hi x :
  inrange lo -> inrange hi -> lo <= x <= hi -> inrange x.
Proof.
  unfold inrange. intros Hlo Hhi Hx.
  pose proof (Z.div_le_mono lo x 86400 ltac:(lia) ltac:(lia)).
  pose proof (Z.div_le_mono x hi 86400 ltac:(lia) ltac:(lia)). lia.
Qed.

(** The totals of a list of entries in which one entry is replaced. *)
Lemma totals_update L i q l t q' l' t' s :
  L !! i = Some (PList [PNum q; PNum l; t]) ->
  SDB.totals L = Returns s ->
  inrange t' ->
  exists c',
    SDB.totals (<[i := PList [PNum q'; PNum l'; PNum t']]> L)
    = Returns (STATS.mk (STATS.queries s - q + q')
                        (STATS.launches s - l + l') c').
Proof.
  intros Hi Ht Hr. unfold SDB.totals in Ht.
  destruct (SDB.column 0 L) as [c0|e] eqn:E0; [|discriminate].
  cbn [mbind result_bind] in Ht.
  destruct (SDB.sum_from 0 c0) as [a|e] eqn:Ea; [|discriminate].
  cbn [mbind result_bind] in Ht.
  destruct (SDB.column 1 L) as [c1|e] eqn:E1; [|discriminate].
  cbn [mbind result_bind] in Ht.
  destruct (SDB.sum_from 0 c1) as [b|e] eqn:Eb; [|discriminate].
  cbn [mbind result_bind] in Ht.
  destruct (SDB.column 2 L) as [c2|e] eqn:E2; [|discriminate].
  cbn [mbind result_bind] in Ht.
  destruct (SDB.numbers c2) as [zs|e] eqn:Ez; [|discriminate].
  cbn [mbind result_bind] in Ht.
  destruct zs as [|z zs]; [discriminate|].
  destruct (SDB.timedelta (fold_left Z.max zs z)) as [hi| |] eqn:Ehi;
    try discriminate.
  destruct (SDB.timedelta (fold_left Z.min zs z)) as [lo| |] eqn:Elo;
    try discriminate.
  injection Ht as <-. cbn [STATS.queries STATS.launches].
  apply timedelta_Returns in Ehi as [Hhi ->], Elo as [Hlo ->].
  destruct (column_lookup 0 L c0 i _ E0 Hi) as (v0 & Hv0 & Hc0).
  destruct (column_lookup 1 L c1 i _ E1 Hi) as (v1 & Hv1 & Hc1).
  simpl in Hv0, Hv1. injection Hv0 as <-. injection Hv1 as <-.
  set (row' := PList [PNum q'; PNum l'; PNum t']).
  unfold SDB.totals.
  rewrite (column_insert 0 L c0 i row' (PNum q') E0 eq_refl).
  cbn [mbind result_bind]. rewrite (sum_insert 0 c0 a i q q' Ea Hc0).
  cbn [mbind result_bind].
  rewrite (column_insert 1 L c1 i row' (PNum l') E1 eq_refl).
  cbn [mbind result_bind]. rewrite (sum_insert 0 c1 b i l l' Eb Hc1).
  cbn [mbind result_bind].
  rewrite (column_insert 2 L c2 i row' (PNum t') E2 eq_refl).
  cbn [mbind result_bind]. rewrite (numbers_insert c2 _ i t' Ez).
  cbn [mbind result_bind].
  assert (Hall : forall x, In x (<[i := t']> (z :: zs)) -> inrange x).
  { intros x Hx. apply list_elem_of_In, list_elem_of_lookup in Hx as (k & Hk).
    apply list_lookup_insert_Some in Hk as [(_ & <- & _)|(_ & Hk)]; [done|].
    apply (inrange_between _ _ x Hlo Hhi).
    assert (In x (z :: zs))
      by (eapply list_elem_of_In, list_elem_of_lookup_2, Hk).
    split; [by apply fold_min_spec|by apply fold_max_spec]. }
  revert Hall. destruct (<[i := t']> (z :: zs)) as [|z' zs'] eqn:Ezs.
  { destruct i; discriminate. }
  intros Hall.
  rewrite (proj2 (timedelta_Returns (fold_left Z.max zs' z') _)
             (conj (Hall _ (proj1 (fold_max_spec zs' z'))) eq_refl)).
  rewrite (proj2 (timedelta_Returns (fold_left Z.min zs' z') _)
             (conj (Hall _ (proj1 (fold_min_spec zs' z'))) eq_refl)).
  by eexists.
Qed.

Lemma distinct_NoDup l : distinct l = true -> NoDup l.
Proof.
  induction l as [|x l IH]; simpl; [constructor|].
  intros H. apply andb_prop in H as [Hx Hl]. apply NoDup_cons.
  split; [|by apply IH]. intros Hin. apply negb_true_iff in Hx.
  apply list_elem_of_In, existsb_eqb_In in Hin. congruence.
Qed.

Lemma keys_NoDup : NoDup SDB.keys.
Proof. apply distinct_NoDup. vm_compute. reflexivity. Qed.

Lemma keys_lookup n :
  1 <= n <= SYS.HYMNS_MAX ->
  SDB.keys !! Z.to_nat (n - 1) = Some (KString.toDigits n 3).
Proof.
  intros Hn. unfold SYS.HYMNS_MAX in Hn. unfold SDB.keys, range.
  rewrite !list_lookup_fmap.
  rewrite lookup_seq_lt by (unfold SYS.HYMNS_MAX; lia). simpl.
  do 2 f_equal. lia.
Qed.

Lemma entriesOf_frame m d k0 A ks :
  m !! "DATA" = Some (PDict d) -> k0 ∉ ks ->
  entriesOf (PDict (<["DATA" := PDict (<[k0 := A]> d)]> m)) ks
  = entriesOf (PDict m) ks.
Proof.
  intros Hm. induction ks as [|k ks IH]; intros Hk; [reflexivity|].
  apply not_elem_of_cons in Hk as [Hne Hk]. cbn [entriesOf].
  rewrite entryOf_update by done. rewrite decide_False by done.
  by rewrite IH.
Qed.

(** The entries read after one of them has been replaced. *)
Lemma entriesOf_update m d k0 A ks i L :
  m !! "DATA" = Some (PDict d) -> NoDup ks -> ks !! i = Some k0 ->
  entriesOf (PDict m) ks = Ok L ->
  entriesOf (PDict (<["DATA" := PDict (<[k0 := A]> d)]> m)) ks
  = Ok (<[i := A]> L)
  /\ Ok <$> L !! i = Some (entryOf (PDict m) k0).
Proof.
  intros Hm. revert i L. induction ks as [|k ks IH]; intros i L Hnd Hi HL;
    [done|].
  apply NoDup_cons in Hnd as [Hk Hnd]. cbn [entriesOf] in *.
  apply bind_Ok in HL as (v & Hv & HL). apply bind_Ok in HL as (L' & HL' & [= <-]).
  rewrite entryOf_update by done.
  destruct i as [|i]; simpl in Hi.
  - injection Hi as ->. rewrite decide_True by done.
    rewrite entriesOf_frame by done. rewrite HL'. simpl. by rewrite Hv.
  - assert (k0 <> k).
    { intros ->. apply Hk. eapply list_elem_of_lookup_2, Hi. }
    rewrite decide_False by done. rewrite Hv. cbn [mbind result_bind].
    destruct (IH i L' Hnd Hi HL') as [-> Hold]. done.
Qed.

Section Launch.
Variable md5 : pyval -> string.

(** The totals of a stored document, from its entries. *)
Lemma getStats_stored now S :
  SDB.getStats md5 now (Stored S)
  = match entriesOf S SDB.keys with
    | Raise KeyError =>
        c ← Data.check md5 now (Stored S);
        Some match c with
             | (Raise e, f'') => (Raises e, f'')
             | (Ok _, f'') => (Returns None, f'')
             end
    | Raise e => Some (Raises e, Stored S)
    | Ok STATS =>
        Some (match SDB.totals STATS with
              | Returns s => Returns (Some s)
              | Raises e => Raises e
              | RaisesOverflowError => RaisesOverflowError
              end, Stored S)
    end.
Proof.
  unfold SDB.getStats. rewrite collect_stored. reflexivity.
Qed.

Lemma getStats_Returns_inv now S s f :
  SDB.getStats md5 now (Stored S) = Some (Returns (Some s), f) ->
  exists L, entriesOf S SDB.keys = Ok L /\ SDB.totals L = Returns s.
Proof.
  rewrite getStats_stored.
  destruct (entriesOf S SDB.keys) as [L|e].
  - destruct (SDB.totals L) as [s'| |] eqn:Et; try discriminate.
    intros [= <- _]. by exists L.
  - destruct e; try discriminate.
    destruct (Data.check _ _ _) as [[[?|?] ?]|]; discriminate.
Qed.

(** The totals after the entry of hymn [n] has been rewritten. *)
Lemma getStats_update now now' S S' s f n q l t q' l' t' :
  SDB.getStats md5 now (Stored S) = Some (Returns (Some s), f) ->
  1 <= n <= SYS.HYMNS_MAX ->
  entryOf S (KString.toDigits n 3) = Ok (PList [PNum q; PNum l; t]) ->
  updateData S (KString.toDigits n 3) (PList [PNum q'; PNum l'; PNum t'])
  = Ok S' ->
  inrange t' ->
  exists c',
    SDB.getStats md5 now' (Stored S')
    = Some (Returns (Some (STATS.mk (STATS.queries s - q + q')
                                    (STATS.launches s - l + l') c')),
            Stored S').
Proof.
  intros Hg Hn He Hu Hr.
  apply getStats_Returns_inv in Hg as (L & HL & Ht).
  apply updateData_Ok in Hu as (m & d & -> & Hm & ->).
  destruct (entriesOf_update m d _ (PList [PNum q'; PNum l'; PNum t'])
              SDB.keys _ L Hm keys_NoDup (keys_lookup n Hn) HL) as [HL' Hold].
  rewrite He in Hold.
  destruct (L !! Z.to_nat (n - 1)) as [row|] eqn:Erow; [|discriminate].
  injection Hold as ->.
  destruct (totals_update L _ q l t q' l' t' s Erow Ht Hr) as (c' & Hc').
  exists c'. rewrite getStats_stored, HL', Hc'. reflexivity.
Qed.

End Launch.

Lemma totals_inrange L i a b t s :
  L !! i = Some (PList [a; b; PNum t]) ->
  SDB.totals L = Returns s -> inrange t.
Proof.
  intros Hi Ht. unfold SDB.totals in Ht.
  destruct (SDB.column 0 L) as [c0|e] eqn:E0; [|discriminate].
  cbn [mbind result_bind] in Ht.
  destruct (SDB.sum_from 0 c0) as [a'|e]; [|discriminate].
  cbn [mbind result_bind] in Ht.
  destruct (SDB.column 1 L) as [c1|e] eqn:E1; [|discriminate].
  cbn [mbind result_bind] in Ht.
  destruct (SDB.sum_from 0 c1) as [b'|e]; [|discriminate].
  cbn [mbind result_bind] in Ht.
  destruct (SDB.column 2 L) as [c2|e] eqn:E2; [|discriminate].
  cbn [mbind result_bind] in Ht.
  destruct (SDB.numbers c2) as [zs|e] eqn:Ez; [|discriminate].
  cbn [mbind result_bind] in Ht.
  destruct zs as [|z zs]; [discriminate|].
  destruct (SDB.timedelta (fold_left Z.max zs z)) as [hi| |] eqn:Ehi;
    try discriminate.
  destruct (SDB.timedelta (fold_left Z.min zs z)) as [lo| |] eqn:Elo;
    try discriminate.
  apply timedelta_Returns in Ehi as [Hhi _], Elo as [Hlo _].
  destruct (column_lookup 2 L c2 i _ E2 Hi) as (v2 & Hv2 & Hc2).
  simpl in Hv2. injection Hv2 as <-.
  destruct (numbers_lookup c2 _ i _ Ez Hc2) as (z' & Hz' & Hv).
  assert (z' = t) as -> by (destruct Hv as [[= ->]|(? & [=] & _)]; done).
  apply (inrange_between _ _ t Hlo Hhi).
  assert (In t (z :: zs))
    by (eapply list_elem_of_In, list_elem_of_lookup_2, Hz').
  split; [by apply fold_min_spec|by apply fold_max_spec].
Qed.

Lemma entriesOf_lookup S ks i k L e :
  entriesOf S ks = Ok L -> ks !! i = Some k -> entryOf S k = Ok e ->
  L !! i = Some e.
Proof.
  revert i L. induction ks as [|k' ks IH]; intros i L HL Hi He; [done|].
  cbn [entriesOf] in HL. apply bind_Ok in HL as (v & Hv & HL).
  apply bind_Ok in HL as (L' & HL' & [= <-]).
  destruct i as [|i]; simpl in Hi.
  - injection Hi as ->. simpl. congruence.
  - simpl. by apply IH.
Qed.

Section Counted.
Variable md5 : pyval -> string.

Lemma entryOf_entries now S s f n e :
  SDB.getStats md5 now (Stored S) = Some (Returns (Some s), f) ->
  1 <= n <= SYS.HYMNS_MAX ->
  entryOf S (KString.toDigits n 3) = Ok e ->
  exists L, SDB.totals L = Returns s /\ L !! Z.to_nat (n - 1) = Some e.
Proof.
  intros Hg Hn He. apply getStats_Returns_inv in Hg as (L & HL & Ht).
  exists L. split; [done|].
  exact (entriesOf_lookup S _ _ _ L e HL (keys_lookup n Hn) He).
Qed.

Lemma default_entries now :
  entriesOf (Data.defaultDocument md5 now) SDB.keys
  = Ok (replicate 474 (PList [PNum 0; PNum 0; PNum 0])).
Proof. vm_compute. reflexivity. Qed.

Lemma zero_totals :
  SDB.totals (replicate 474 (PList [PNum 0; PNum 0; PNum 0]))
  = Returns (STATS.mk 0 0 (0, 0)).
Proof. vm_compute. reflexivity. Qed.

(** The totals of the default document. *)
Lemma getStats_default now now' :
  SDB.getStats md5 now' (Stored (Data.defaultDocument md5 now))
  = Some (Returns (Some (STATS.mk 0 0 (0, 0))),
          Stored (Data.defaultDocument md5 now)).
Proof. by rewrite getStats_stored, default_entries, zero_totals. Qed.

(** A launch of the current hymn that returns, the statistics file
    having held the document in memory: the totals of the statistics
    panel are then those of before with the stored counters of the hymn
    replaced by the counters of the current lookup plus one, so that
    each total is up by one when the lookup is up to date. Whether the
    launch returns is not settled here: it also unpacks and opens the
    presentation, trims the temporary folder and updates the list of
    recent files. *)
Theorem launch_counts_in_totals nt H now0 now now1 E C st st' h n q l t qh lh s :
  InputCore.executeFile nt H now E C st = Some (Ok tt, st') ->
  FILE_DATA st = Stored (SDATA st) ->
  SDB.getStats md5 now0 (FILE_DATA st) = Some (Returns (Some s), FILE_DATA st) ->
  CURRENT_HINFO st = Some (Some h) ->
  HymnInfo.num h = KString.toDigits n 3 -> 1 <= n <= SYS.HYMNS_MAX ->
  entryOf (SDATA st) (KString.toDigits n 3) = Ok (PList [PNum q; PNum l; t]) ->
  HymnInfo.queries h = PNum qh -> HymnInfo.launches h = PNum lh ->
  inrange now ->
  exists c',
    SDB.getStats md5 now1 (FILE_DATA st')
    = Some (Returns (Some (STATS.mk (STATS.queries s - q + (qh + 1))
                                    (STATS.launches s - l + (lh + 1)) c')),
            FILE_DATA st').
Proof.
  intros Hex Hf Hg Hh Hnum Hn Hent Hq Hl Hnow.
  apply executeFile_cases in Hex
    as (h' & q' & l' & Hh' & Hq' & Hl' & Hu & Hf').
  rewrite Hh in Hh'. injection Hh' as <-.
  rewrite Hq in Hq'. rewrite Hl in Hl'. cbn [Py.add_int] in Hq', Hl'.
  injection Hq' as <-. injection Hl' as <-.
  rewrite Hnum in Hu. rewrite Hf in Hg. rewrite Hf'.
  exact (getStats_update md5 now0 now1 _ _ s _ n q l t (qh + 1) (lh + 1) now
           Hg Hn Hent Hu Hnow).
Qed.

(** A query of a hymn in the catalogue, with the statistics file
    holding the document in memory: once the background loop has
    written it down, the total of the queries is up by one and the
    total of the launches is as it was. *)
Theorem query_counts_in_totals nt FNS H now0 now now1 E C st n q l t s :
  HymnsDatabase.parseHymnDatabase FNS = Ok H ->
  FILE_DATA st = Stored (SDATA st) ->
  SDB.getStats md5 now0 (FILE_DATA st) = Some (Returns (Some s), FILE_DATA st) ->
  1 <= n <= SYS.HYMNS_MAX ->
  ~ In (KString.toDigits n 3) (MISSING.list (HYMNAL.MISSING H)) ->
  Py.slice E None (Some 3) = KString.toDigits n 3 ->
  entryOf (SDATA st) (KString.toDigits n 3)
  = Ok (PList [PNum q; PNum l; PNum t]) ->
  QUERY_TIMEOUT_FILL st = 2 ->
  Py.eq_str (LAST_QUERY_ID st) (KString.toDigits n 3) = false ->
  exists st' c',
    queryAccess nt H now E C st = Some (Ok st')
    /\ SDB.getStats md5 now1 (FILE_DATA st')
       = Some (Returns (Some (STATS.mk (STATS.queries s + 1)
                                       (STATS.launches s) c')),
               FILE_DATA st').
Proof.
  intros Hparse Hf Hg Hn Hmiss HE Hent Hfill Hlast.
  pose proof (parse_parallel _ _ Hparse) as Hpar. rewrite Hf in Hg.
  assert (Hint : Py.int (KString.toDigits n 3) = Some n).
  { apply toDigits_canonical. unfold SYS.HYMNS_MAX in Hn. lia. }
  assert (Hn0 : 0 <= n <= SYS.HYMNS_MAX) by lia.
  destruct (entryOf_entries now0 _ s _ n _ Hg Hn Hent) as (L & Ht & HL).
  pose proof (totals_inrange L _ _ _ t s HL Ht) as Hr.
  destruct (updateDetails_found nt H now E C st n _ _ _ Hpar Hn HE Hmiss Hent)
    as (h & ready & Hupd & Hnum & Hq & Hl & Hla).
  destruct (updateData_entry (SDATA st) _ _
              (PList [PNum (q + 1); PNum l; PNum t]) Hent)
    as (S' & Hu & _).
  destruct (getStats_update md5 now0 now1 _ S' s _ n q l (PNum t) (q + 1) l t
              Hg Hn Hent Hu Hr) as (c' & Hc').
  exists (mkSession S' (Data.dump S') (Some (Some h)) ready false 2
            (PStr (KString.toDigits n 3)) ready), c'.
  split.
  - unfold queryAccess. rewrite Hupd, Hfill. cbn [mbind option_bind].
    rewrite <- Hnum in Hint.
    rewrite (run_thrice _ _ h ready _ n Hint Hn0).
    rewrite Hnum, Hlast, Hq, Hl, Hla. cbn [Py.add_int mbind result_bind].
    by rewrite Hu.
  - cbn [FILE_DATA]. unfold Data.dump.
    replace (STATS.queries s - q + (q + 1)) with (STATS.queries s + 1)
      in Hc' by lia.
    replace (STATS.launches s - l + l) with (STATS.launches s) in Hc' by lia.
    exact Hc'.
Qed.

Lemma entriesOf_KeyError S ks :
  (forall k, k ∈ ks ->
     (exists e, entryOf S k = Ok e) \/ entryOf S k = Raise KeyError) ->
  (exists k, k ∈ ks /\ entryOf S k = Raise KeyError) ->
  entriesOf S ks = Raise KeyError.
Proof.
  induction ks as [|k ks IH]; intros Hall (k0 & Hin & Hk0).
  - by apply elem_of_nil in Hin.
  - cbn [entriesOf].
    destruct (Hall k (list_elem_of_here _ _)) as [(e & Hk)|Hk]; rewrite Hk;
      [|reflexivity].
    cbn [mbind result_bind]. rewrite IH; [reflexivity| |].
    + intros k' Hk'. apply Hall. by apply list_elem_of_further.
    + apply elem_of_cons in Hin as [->|Hin]; [congruence|]. by exists k0.
Qed.

Lemma for_each_KeyError {A} (l : list A) body :
  (forall x, x ∈ l -> body x = Ok tt \/ body x = Raise KeyError) ->
  (exists x, x ∈ l /\ body x = Raise KeyError) ->
  for_each l body = Raise KeyError.
Proof.
  induction l as [|x l IH]; intros Hall (x0 & Hin & Hx0).
  - by apply elem_of_nil in Hin.
  - cbn [for_each].
    destruct (Hall x (list_elem_of_here _ _)) as [Hx|Hx]; rewrite Hx;
      [|reflexivity].
    cbn [mbind result_bind]. apply IH.
    + intros x' Hx'. apply Hall. by apply list_elem_of_further.
    + apply elem_of_cons in Hin as [->|Hin]; [congruence|]. by exists x0.
Qed.

(** The totals asked for on a file that lacks the key of a hymn, its
    other entries having their three fields: the lookup fails, the
    file is checked and replaced by the default document, and nothing
    is returned ([None]); asked for again, the totals are all zero. *)
Theorem getStats_repairs now now' m d n :
  m !! "DATA" = Some (PDict d) ->
  1 <= n <= SYS.HYMNS_MAX ->
  d !! KString.toDigits n 3 = None ->
  (forall k e, d !! k = Some e ->
     exists a b c rest, e = PList (a :: b :: c :: rest)) ->
  SDB.getStats md5 now (Stored (PDict m))
  = Some (Returns None, Stored (Data.defaultDocument md5 now))
  /\ SDB.getStats md5 now' (Stored (Data.defaultDocument md5 now))
     = Some (Returns (Some (STATS.mk 0 0 (0, 0))),
             Stored (Data.defaultDocument md5 now)).
Proof.
  intros Hm Hn Hnone Hthree.
  assert (Hent : forall k, entryOf (PDict m) k
                 = match d !! k with
                   | Some e => Ok e
                   | None => Raise KeyError
                   end).
  { intros k. unfold entryOf. simpl. rewrite Hm. reflexivity. }
  assert (Hkey : KString.toDigits n 3 ∈ SDB.keys).
  { eapply list_elem_of_lookup_2, keys_lookup, Hn. }
  split.
  - rewrite getStats_stored, entriesOf_KeyError.
    + rewrite check_stored.
      assert (Hp : Data.probe (PDict m) = Raise KeyError).
      { unfold Data.probe. apply for_each_KeyError.
        - intros i _. rewrite probeEntry_alt, Hent.
          destruct (d !! KString.toDigits (i + 1) 3) as [e|] eqn:Ee;
            [left|by right].
          destruct (Hthree _ _ Ee) as (a & b & c & rest & ->).
          reflexivity.
        - exists (n - 1). split.
          + apply list_elem_of_In, range_In. unfold SYS.HYMNS_MAX in *. lia.
          + replace (n - 1 + 1) with n by lia.
            by rewrite probeEntry_alt, Hent, Hnone. }
      rewrite Hp. reflexivity.
    + intros k _. rewrite Hent. destruct (d !! k); eauto.
    + exists (KString.toDigits n 3). split; [done|]. by rewrite Hent, Hnone.
  - apply getStats_default.
Qed.

End Counted.

Lemma launch_counts_in_totals_witness :
  match InputCore.executeFile demoTime (catalogueOf demoArchive) 60 "001" ""
          demoLaunchSession with
  | Some (Ok _, st') =>
      exists c',
        SDB.getStats demoHash 70 (FILE_DATA st')
        = Some (Returns
                  (Some (STATS.mk
                           (STATS.queries (STATS.mk 0 0 (0, 0)) - 0 + (0 + 1))
                           (STATS.launches (STATS.mk 0 0 (0, 0)) - 0 + (0 + 1))
                           c')),
                FILE_DATA st')
  | _ => False
  end.
Proof.
  assert (Hok : returned (InputCore.executeFile demoTime
                            (catalogueOf demoArchive) 60 "001" ""
                            demoLaunchSession) = true)
    by (vm_compute; reflexivity).
  destruct (InputCore.executeFile demoTime (catalogueOf demoArchive) 60 "001" ""
              demoLaunchSession) as [[[[]|e] st']|] eqn:Hex.
  - apply (launch_counts_in_totals demoHash demoTime (catalogueOf demoArchive)
             50 60 70 "001" "" demoLaunchSession st' demoInfo 1 0 0 (PNum 0)
             0 0 (STATS.mk 0 0 (0, 0)) Hex).
    + reflexivity.
    + apply (getStats_default demoHash 0 50).
    + reflexivity.
    + reflexivity.
    + unfold SYS.HYMNS_MAX. lia.
    + vm_compute. reflexivity.
    + reflexivity.
    + reflexivity.
    + unfold inrange. vm_compute. split; discriminate.
  - discriminate Hok.
  - discriminate Hok.
Defined.

Lemma query_counts_in_totals_witness :
  exists st' c',
    queryAccess demoTime (catalogueOf queryArchive) 10 "123" ""
      (startup demoStats (Stored demoStats)) = Some (Ok st')
    /\ SDB.getStats demoHash 20 (FILE_DATA st')
       = Some (Returns
                 (Some (STATS.mk (STATS.queries (STATS.mk 0 0 (0, 0)) + 1)
                                 (STATS.launches (STATS.mk 0 0 (0, 0))) c')),
               FILE_DATA st').
Proof.
  apply (query_counts_in_totals demoHash demoTime queryArchive
           (catalogueOf queryArchive) 5 10 20 "123" ""
           (startup demoStats (Stored demoStats)) 123 0 0 0
           (STATS.mk 0 0 (0, 0))).
  - vm_compute. reflexivity.
  - reflexivity.
  - apply (getStats_default demoHash 0 5).
  - unfold SYS.HYMNS_MAX. lia.
  - intros Hin. apply existsb_eqb_In in Hin. vm_compute in Hin. discriminate.
  - vm_compute. reflexivity.
  - vm_compute. reflexivity.
  - reflexivity.
  - reflexivity.
Defined.

Lemma getStats_repairs_witness :
  SDB.getStats demoHash 5 (Stored missingKeyDocument)
  = Some (Returns None, Stored (Data.defaultDocument demoHash 5))
  /\ SDB.getStats demoHash 6 (Stored (Data.defaultDocument demoHash 5))
     = Some (Returns (Some (STATS.mk 0 0 (0, 0))),
             Stored (Data.defaultDocument demoHash 5)).
Proof.
  apply (getStats_repairs demoHash 5 6
           (<["DATA" := PDict (delete "317" Data.defaultEntries)]>
              (Data.unsignedDefault 0))
           (delete "317" Data.defaultEntries) 317).
  - apply lookup_insert_eq.
  - unfold SYS.HYMNS_MAX. lia.
  - vm_compute. reflexivity.
  - intros k e He. apply lookup_delete_Some in He as [_ He].
    apply defaultEntries_lookup in He. subst e. by eexists _, _, _, _.
Defined.

(** ** The wheel on the search box *)

Section Wheel.
Variable nt : Z -> string.






End Wheel.



(** ** The exported rows *)

Lemma exportRow_from (acc : list pyval) (texts : list string) :
  fold_left
    (fun RDATA ITEM =>
       match ITEM with
       | Some text => ((RDATA ++ [PStr text]) ++ [PNone])%list
       | None => (RDATA ++ [PStr ""])%list
       end)
    (Some <$> texts) acc
  = (acc ++ flat_map (fun t => [PStr t; PNone]) texts)%list.
Proof.
  revert acc. induction texts as [|t texts IH]; intros acc; simpl.
  - by rewrite app_nil_r.
  - rewrite IH, <- !app_assoc. reflexivity.
Qed.

(** A row of the table all of whose items are there is exported with
    twice as many fields as it has items: the text of each item is
    followed by a field [None], which the file shows as an empty
    one. *)
Theorem exported_row_doubled table i (texts : list string) :
  table !! i = Some (Some <$> texts) ->
  exists RDATA,
    Statistics.exportStatsTable table !! i = Some RDATA
    /\ List.length RDATA = (2 * List.length texts)%nat
    /\ forall k t, texts !! k = Some t ->
         RDATA !! (2 * k)%nat = Some (PStr t)
         /\ RDATA !! (2 * k + 1)%nat = Some PNone.
Proof.
  intros Hi. unfold Statistics.exportStatsTable. rewrite list_lookup_fmap, Hi.
  eexists. split; [reflexivity|]. unfold Statistics.exportRow.
  rewrite (exportRow_from [] texts). cbn [app]. clear Hi. split.
  - induction texts as [|t texts IH]; simpl; [done|]. rewrite IH. lia.
  - induction texts as [|t texts IH]; intros k t' Hk; [done|].
    destruct k as [|k]; simpl in Hk.
    + injection Hk as ->. by split.
    + replace (2 * S k)%nat with (S (S (2 * k))) by lia.
      replace (2 * S k + 1)%nat with (S (S (2 * k + 1))) by lia.
      simpl. by apply IH.
Qed.

Lemma exported_row_doubled_witness :
  exists RDATA,
    Statistics.exportStatsTable demoTable !! 0%nat = Some RDATA
    /\ List.length RDATA
       = (2 * List.length ["001"; "TitleA"; "2"; "1"; "a moment ago"])%nat
    /\ forall k t,
         ["001"; "TitleA"; "2"; "1"; "a moment ago"] !! k = Some t ->
         RDATA !! (2 * k)%nat = Some (PStr t)
         /\ RDATA !! (2 * k + 1)%nat = Some PNone.
Proof.
  apply (exported_row_doubled demoTable 0
           ["001"; "TitleA"; "2"; "1"; "a moment ago"]).
  reflexivity.
Defined.
